(** * Multi-GPU training drivers of pytorch_geometric: a shallow embedding

    The three scripts under [examples/multi_gpu] are orchestration code around
    PyTorch, torch_geometric and torchmetrics.  The embedding keeps what the
    scripts themselves decide: control flow, local variables, Python name
    resolution, call arity, integer arithmetic and exception handling.  Every
    call into a library is an observable event of a trace; whether such a call
    returns or raises, and the numbers it returns, are read from a [World]. *)

From Stdlib Require Import String List ZArith QArith Bool Lia.
Import ListNotations.

Open Scope string_scope.
Open Scope list_scope.
Open Scope Z_scope.

(* ===================================================================== *)
(** ** The Python runtime, as far as the scripts use it *)
(* ===================================================================== *)

Module Py.

(** Exceptions, by class.  [TypeError_args f takes given] is the TypeError of
    a call [f(...)] with [given] positional arguments against [takes]
    parameters. *)
Inductive exn : Type :=
| NameError (name : string)
| UnboundLocalError (name : string)
| TypeError (msg : string)
| TypeError_args (fn : string) (takes given : nat)
| ZeroDivisionError
| AssertionError
| IndexError
| RuntimeError (msg : string)
| AttributeError (name : string)
| OSError
| ProcessExitedException
| ProcessRaisedException
| KeyboardInterrupt
| SystemExit
| OtherException (cls : string).

(** [isinstance(e, Exception)]: everything but the two BaseException-only
    classes. *)
Definition is_Exception (e : exn) : bool :=
  match e with
  | KeyboardInterrupt | SystemExit => false
  | _ => true
  end.

(** [isinstance(e, NameError)]; UnboundLocalError derives from NameError. *)
Definition is_NameError (e : exn) : bool :=
  match e with
  | NameError _ | UnboundLocalError _ => true
  | _ => false
  end.

Definition is_TypeError (e : exn) : bool :=
  match e with
  | TypeError _ | TypeError_args _ _ _ => true
  | _ => false
  end.

Definition is_ProcessExitedException (e : exn) : bool :=
  match e with
  | ProcessExitedException => true
  | _ => false
  end.

Inductive result (A : Type) : Type :=
| Ok (a : A)
| Raise (e : exn).
Arguments Ok {A} a.
Arguments Raise {A} e.

Definition is_ok {A} (r : result A) : bool :=
  match r with Ok _ => true | Raise _ => false end.

(** Arguments of library calls that the traces record. *)
Inductive arg : Type :=
| AInt (z : Z)
| ANum (q : Q)
| ANonFinite
| AStr (s : string)
| AList (l : list Z)
| AExn (e : exn).

(** A library call either returned or raised. *)
Inductive event : Type :=
| Returned (fn : string) (args : list arg)
| Raised (fn : string) (args : list arg) (e : exn).

Definition trace := list event.

Definition event_fn (ev : event) : string :=
  match ev with
  | Returned fn _ => fn
  | Raised fn _ _ => fn
  end.

(** One mini-batch of a loader: [seed_count] is [batch["paper"].batch_size]. *)
Record batch : Type := { batch_id : Z; seed_count : Z }.

(** Everything outside the scripts: whether a library call raises, given the
    call and the history, and the values that returning calls produce. *)
Record World : Type := {
  w_raises : string -> list arg -> trace -> option exn;
  w_int : string -> trace -> Z;
  w_bool : string -> trace -> bool;
  w_clock : trace -> Q;
  w_index : string -> trace -> list Z;
  w_batches : string -> trace -> list batch;
  w_metric : batch -> trace -> Q;
  w_loss : batch -> trace -> Q;
  w_peers : trace -> list Q;
  w_has_sched_getaffinity : bool;
  w_affinity : trace -> list Z;
  w_cpu_count : trace -> option Z
}.

(** Computations: a result and the extended trace. *)
Definition M (A : Type) : Type := trace -> result A * trace.

Definition ret {A} (a : A) : M A := fun t => (Ok a, t).

Definition raise {A} (e : exn) : M A := fun t => (Raise e, t).

Definition bind {A B} (m : M A) (k : A -> M B) : M B :=
  fun t =>
    match m t with
    | (Ok a, t') => k a t'
    | (Raise e, t') => (Raise e, t')
    end.

Definition lift {A} (r : result A) : M A := fun t => (r, t).

(** Pure fallible computations. *)
Definition rbind {A B} (r : result A) (k : A -> result B) : result B :=
  match r with
  | Ok a => k a
  | Raise e => Raise e
  end.

(** A call into a library: the world decides whether it raises; a returning
    call yields the value the world holds for it. *)
Definition callv {A} (w : World) (fn : string) (args : list arg)
    (v : trace -> A) : M A :=
  fun t =>
    match w_raises w fn args t with
    | Some e => (Raise e, t ++ [Raised fn args e])
    | None => (Ok (v t), t ++ [Returned fn args])
    end.

Definition call (w : World) (fn : string) (args : list arg) : M unit :=
  callv w fn args (fun _ => tt).

(** [try: m  except <catches> as e: handler e]. *)
Definition try_except {A} (m : M A) (catches : exn -> bool)
    (handler : exn -> M A) : M A :=
  fun t =>
    match m t with
    | (Ok a, t') => (Ok a, t')
    | (Raise e, t') => if catches e then handler e t' else (Raise e, t')
    end.

(** [with ctx: body]: [__exit__] runs on both paths and does not swallow. *)
Definition with_context {A} (w : World) (ctx : string) (body : M A) : M A :=
  fun t =>
    match call w (String.append ctx ".__enter__") [] t with
    | (Raise e, t0) => (Raise e, t0)
    | (Ok _, t0) =>
        let (r, t1) := body t0 in
        match call w (String.append ctx ".__exit__") [] t1 with
        | (Raise e', t2) => (Raise e', t2)
        | (Ok _, t2) => (r, t2)
        end
    end.

(** Reading a local variable that may not have been assigned yet. *)
Definition load_local {A} (name : string) (v : option A) : M A :=
  match v with
  | Some x => ret x
  | None => raise (UnboundLocalError name)
  end.

(** The names of the builtins module that are functions or constants. *)
Definition builtins : list string :=
  [ "abs"; "all"; "any"; "ascii"; "bin"; "bool"; "breakpoint"; "bytearray";
    "bytes"; "callable"; "chr"; "classmethod"; "compile"; "complex";
    "delattr"; "dict"; "dir"; "divmod"; "enumerate"; "eval"; "exec";
    "filter"; "float"; "format"; "frozenset"; "getattr"; "globals";
    "hasattr"; "hash"; "help"; "hex"; "id"; "input"; "int"; "isinstance";
    "issubclass"; "iter"; "len"; "list"; "locals"; "map"; "max";
    "memoryview"; "min"; "next"; "object"; "oct"; "open"; "ord"; "pow";
    "print"; "property"; "range"; "repr"; "reversed"; "round"; "set";
    "setattr"; "slice"; "sorted"; "staticmethod"; "str"; "sum"; "super";
    "tuple"; "type"; "vars"; "zip"; "__import__"; "None"; "True"; "False";
    "Ellipsis"; "NotImplemented"; "__debug__"; "__name__"; "__file__";
    "__doc__"; "__builtins__"; "Exception"; "BaseException" ].

Definition bound_in (names : list string) (x : string) : bool :=
  existsb (String.eqb x) names.

(** Loading a name that is not local to the function: module globals, then
    builtins, else NameError. *)
Definition load_global (globals : list string) (x : string) : M unit :=
  if bound_in globals x || bound_in builtins x then ret tt
  else raise (NameError x).

(** [a // b] and [a % b] on ints. *)
Definition py_floordiv (a b : Z) : result Z :=
  if b =? 0 then Raise ZeroDivisionError else Ok (a / b).

Definition py_mod (a b : Z) : result Z :=
  if b =? 0 then Raise ZeroDivisionError else Ok (a mod b).

(** [x / d] on a Python float with an int divisor. *)
Definition py_truediv (x : Q) (d : Z) : result Q :=
  if d =? 0 then Raise ZeroDivisionError else Ok (x / inject_Z d)%Q.

(** Scalars that are either Python numbers or zero-dimensional tensors: the
    accumulators start as the former and become the latter by [+=]. *)
Inductive scalar : Type :=
| PyNum (q : Q)
| TensorVal (q : Q).

Definition scalar_value (s : scalar) : Q :=
  match s with PyNum q => q | TensorVal q => q end.

(** [s += tensor]. *)
Definition add_tensor (s : scalar) (x : Q) : scalar :=
  TensorVal (scalar_value s + x)%Q.

(** A float that may have left the finite range (tensor division by zero). *)
Inductive fnum : Type :=
| Fin (q : Q)
| NonFin.

Definition fnum_arg (x : fnum) : arg :=
  match x with Fin q => ANum q | NonFin => ANonFinite end.

(** [s / d * 100.0]: a tensor divided by zero is inf or nan, a Python number
    divided by zero raises.  The quotient is the one over the rationals; the
    scripts compute it in floating point, so the statements below depend on
    whether it is finite and on how it is obtained, not on its digits. *)
Definition percent_of (s : scalar) (d : Z) : result fnum :=
  match s with
  | PyNum q =>
      if d =? 0 then Raise ZeroDivisionError
      else Ok (Fin (q / inject_Z d * 100)%Q)
  | TensorVal q =>
      if d =? 0 then Ok NonFin else Ok (Fin (q / inject_Z d * 100)%Q)
  end.

Definition Qsum (l : list Q) : Q := fold_right Qplus 0%Q l.

(** [all_reduce(x, op=ReduceOp.MEAN)] seen from one rank: the mean of its own
    value and those of the other ranks. *)
Definition reduce_mean (x : Q) (peers : list Q) : Q :=
  ((x + Qsum peers) / inject_Z (Z.of_nat (S (length peers))))%Q.

(** The reduction operators of [torch.distributed.ReduceOp]; the average is
    called [AVG]. *)
Definition ReduceOp_members : list string :=
  [ "SUM"; "AVG"; "PRODUCT"; "MIN"; "MAX"; "BAND"; "BOR"; "BXOR";
    "PREMUL_SUM" ].

(** Reading the attribute [name] of an object that has [members]. *)
Definition load_attr (members : list string) (name : string) : M unit :=
  if bound_in members name then ret tt else raise (AttributeError name).

(** [torch.distributed.all_reduce(acc_sum,
    op=torch.distributed.ReduceOp.MEAN)]: the arguments are evaluated before
    the call, the operator among them; the call is the in-place all-reduce
    of the accumulator, where a Python number is immutable and keeps its
    value. *)
Definition all_reduce_MEAN (w : World) (s : scalar) : M scalar :=
  bind (load_attr ReduceOp_members "MEAN")
    (fun _ =>
       callv w "torch.distributed.all_reduce" [AStr "ReduceOp.MEAN"]
         (fun t => match s with
                   | TensorVal q => TensorVal (reduce_mean q (w_peers w t))
                   | PyNum q => PyNum q
                   end)).

(** [assert cond]. *)
Definition py_assert (cond : bool) : M unit :=
  if cond then ret tt else raise AssertionError.

(** A call [f(a1, ..., an)] with positional arguments only, against a
    definition whose parameters have no defaults: the body runs on the bound
    arguments when the counts agree. *)
Definition py_call {V A} (fn : string) (params : list string) (args : list V)
    (body : list (string * V) -> M A) : M A :=
  if Nat.eqb (length args) (length params) then body (combine params args)
  else raise (TypeError_args fn (length params) (length args)).

(** Outcome of a loop body. *)
Inductive control (St : Type) : Type :=
| Continue (s : St)
| Break (s : St).
Arguments Continue {St} s.
Arguments Break {St} s.

(** [for i, b in enumerate(loader)] from index [i] over the batches the
    loader still holds; every step asks the loader for its next item, the
    last of these requests ends the loop. *)
Fixpoint for_enumerate {St} (w : World) (loader : string)
    (body : nat -> batch -> St -> M (control St))
    (i : nat) (bs : list batch) (s : St) : M St :=
  match bs with
  | [] => bind (call w "next" [AStr loader]) (fun _ => ret s)
  | b :: bs' =>
      bind (bind (call w "next" [AStr loader]) (fun _ => body i b s))
        (fun c =>
           match c with
           | Break s' => ret s'
           | Continue s' => for_enumerate w loader body (S i) bs' s'
           end)
  end.

Definition for_loader {St} (w : World) (loader : string)
    (body : nat -> batch -> St -> M (control St)) (s : St) : M St :=
  fun t => for_enumerate w loader body 0 (w_batches w loader t) s t.

(** [for x in xs] with no [break]. *)
Fixpoint for_each {X St} (body : X -> St -> M St) (xs : list X) (s : St) : M St :=
  match xs with
  | [] => ret s
  | x :: xs' => bind (body x s) (fun s' => for_each body xs' s')
  end.

(** [range(lo, hi)] as a list. *)
Definition py_range (lo hi : Z) : list Z :=
  map (fun k => lo + Z.of_nat k) (seq 0 (Z.to_nat (hi - lo))).

(** [t.split(split_size)] on a one-dimensional tensor: chunk [k] is
    [t[k*s : (k+1)*s]]; a zero size is accepted for an empty tensor only. *)
Definition tensor_split (t : list Z) (split_size : Z)
    : result (list (list Z)) :=
  if split_size <? 0 then
    Raise (RuntimeError "split expects split_size be non-negative")
  else if (split_size =? 0) && negb (Nat.eqb (length t) 0) then
    Raise (RuntimeError "split_size can only be 0 if dimension size is 0")
  else
    let s := Z.to_nat split_size in
    let num_splits :=
      if Nat.eqb s 0 then 1%nat
      else Nat.max ((length t + s - 1) / s)%nat 1%nat in
    Ok (map (fun k => firstn s (skipn (k * s) t)) (seq 0 num_splits)).

(** [xs[i]] on a tuple, negative indices counting from the end. *)
Definition tuple_index {A} (xs : list A) (i : Z) : result A :=
  let n := Z.of_nat (length xs) in
  let j := if i <? 0 then i + n else i in
  if (j <? 0) || (n <=? j) then Raise IndexError
  else match nth_error xs (Z.to_nat j) with
       | Some x => Ok x
       | None => Raise IndexError
       end.

(** [idx.split(idx.size(0) // world_size)[rank]]. *)
Definition split_for_rank (idx : list Z) (world_size rank : Z)
    : result (list Z) :=
  rbind (py_floordiv (Z.of_nat (length idx)) world_size) (fun s =>
  rbind (tensor_split idx s) (fun chunks =>
  tuple_index chunks rank)).

End Py.

Import Py.

Declare Scope py_scope.
Delimit Scope py_scope with py.
Notation "x <- m ;; k" := (bind m (fun x => k))
  (at level 61, m at next level, right associativity) : py_scope.
Notation "m ;; k" := (bind m (fun _ => k))
  (at level 61, right associativity) : py_scope.
Open Scope py_scope.

(* ===================================================================== *)
(** ** papers100m_gcn_multinode.py *)
(* ===================================================================== *)

Module MultiNode.

(** The parsed command line. *)
Record cli : Type := {
  hidden_channels : Z;
  num_layers : Z;
  lr : Q;
  epochs : Z;
  batch_size : Z;
  fan_out : Z;
  use_gat_conv : bool;
  n_gat_conv_heads : Z;
  cugraph_data_loader : bool
}.

(** [split_idx]: the three index tensors of the dataset. *)
Record split_idx : Type := {
  idx_train : list Z;
  idx_valid : list Z;
  idx_test : list Z
}.

(** Locals of [run_train] that outlive the statement assigning them. *)
Record locals : Type := {
  l_i : option nat;
  l_start : option Q;
  l_loss : option Q;
  l_acc_sum : scalar
}.

Definition set_i (st : locals) (i : nat) : locals :=
  {| l_i := Some i; l_start := l_start st; l_loss := l_loss st;
     l_acc_sum := l_acc_sum st |}.

Definition set_start (st : locals) (x : Q) : locals :=
  {| l_i := l_i st; l_start := Some x; l_loss := l_loss st;
     l_acc_sum := l_acc_sum st |}.

Definition set_loss (st : locals) (x : Q) : locals :=
  {| l_i := l_i st; l_start := l_start st; l_loss := Some x;
     l_acc_sum := l_acc_sum st |}.

Definition set_acc_sum (st : locals) (x : scalar) : locals :=
  {| l_i := l_i st; l_start := l_start st; l_loss := l_loss st;
     l_acc_sum := x |}.

Definition fresh_locals : locals :=
  {| l_i := None; l_start := None; l_loss := None; l_acc_sum := PyNum 0 |}.

(** Module-level names bound by the imports and the two [def]s. *)
Definition module_globals : list string :=
  [ "argparse"; "os"; "time"; "torch"; "dist"; "F"; "PygNodePropPredDataset";
    "DistributedDataParallel"; "Accuracy"; "torch_geometric";
    "get_num_workers"; "run_train" ].

(** Names the [__main__] block has bound when it calls [run_train]. *)
Definition main_globals : list string :=
  module_globals ++
  [ "parser"; "args"; "wall_clock_start"; "nprocs"; "dataset"; "split_idx";
    "data"; "model" ].

(** Parameters of [def run_train]. *)
Definition run_train_params : list string :=
  [ "data"; "world_size"; "model"; "epochs"; "batch_size"; "fan_out";
    "split_idx"; "num_classes"; "cugraph_data_loader" ].

(** Argument expressions of the call in the [__main__] block. *)
Definition run_train_call_args : list string :=
  [ "data"; "nprocs"; "model"; "args.epochs"; "args.batch_size";
    "args.fan_out"; "split_idx"; "dataset.num_classes";
    "args.cugraph_data_loader"; "wall_clock_start" ].

(** The flags declared with [parser.add_argument]. *)
Definition cli_flags : list string :=
  [ "--hidden_channels"; "--num_layers"; "--lr"; "--epochs"; "--batch_size";
    "--fan_out"; "--use_gat_conv"; "--n_gat_conv_heads";
    "--cugraph_data_loader" ].

Definition eval_steps : Z := 1000.
Definition warmup_steps : Z := 20.

Section Script.
Context (w : World).

(** Lines 30-31: [os.cpu_count() // 2]; the count can be [None]. *)
Definition workers_from_cpu_count : M Z :=
  c <- callv w "os.cpu_count" [] (w_cpu_count w) ;;
  match c with
  | Some c => lift (py_floordiv c 2)
  | None =>
      raise (TypeError "unsupported operand type(s) for //: 'NoneType' and 'int'")
  end.

Definition get_num_workers : M Z :=
  let num_workers : option Z := None in
  num_workers <-
    (if w_has_sched_getaffinity w then
       try_except
         (cpus <- callv w "os.sched_getaffinity" [AInt 0] (w_affinity w) ;;
          n <- lift (py_floordiv (Z.of_nat (length cpus)) 2) ;;
          ret (Some n))
         is_Exception
         (fun _ => ret num_workers)
     else ret num_workers) ;;
  match num_workers with
  | Some n => ret n
  | None => workers_from_cpu_count
  end.

(** Lines 55-85: the three loaders. *)
Definition make_loaders (cugraph : bool) (bs fan : Z) (sp : split_idx)
    : M unit :=
  if cugraph then
    call w "import" [AStr "cugraph"] ;;
    call w "import" [AStr "cugraph_pyg.data.CuGraphStore"] ;;
    call w "import" [AStr "cugraph_pyg.loader.CuGraphNeighborLoader"] ;;
    call w "cugraph.gnn.FeatureStore" [AStr "torch"] ;;
    call w "fs.add_data" [AStr "x"] ;;
    call w "fs.add_data" [AStr "y"] ;;
    call w "CuGraphStore" [] ;;
    call w "CuGraphNeighborLoader"
      [AStr "train_loader"; AList (idx_train sp); AInt fan; AInt bs] ;;
    call w "CuGraphNeighborLoader"
      [AStr "eval_loader"; AList (idx_valid sp); AInt fan; AInt bs] ;;
    call w "CuGraphNeighborLoader"
      [AStr "test_loader"; AList (idx_test sp); AInt fan; AInt bs]
  else
    num_work <- get_num_workers ;;
    call w "NeighborLoader"
      [AStr "train_loader"; AList (idx_train sp); AInt num_work; AInt fan;
       AInt bs] ;;
    call w "NeighborLoader"
      [AStr "eval_loader"; AList (idx_valid sp); AInt num_work; AInt fan;
       AInt bs] ;;
    call w "NeighborLoader"
      [AStr "test_loader"; AList (idx_test sp); AInt num_work; AInt fan;
       AInt bs].

(** Lines 93-107: the body of the loop over [train_loader]. *)
Definition train_iteration (rank epoch bs : Z) (i : nat) (b : batch)
    (st : locals) : M (control locals) :=
  let st := set_i st i in
  st <- (if Z.of_nat i =? warmup_steps then
           now <- callv w "time.time" [] (w_clock w) ;;
           ret (set_start st now)
         else ret st) ;;
  call w "batch.to" [] ;;
  call w "batch.y.to" [AStr "torch.long"] ;;
  call w "optimizer.zero_grad" [] ;;
  call w "model" [] ;;
  loss <- callv w "F.cross_entropy" [AInt bs] (w_loss w b) ;;
  let st := set_loss st loss in
  call w "loss.backward" [] ;;
  call w "optimizer.step" [] ;;
  (if (rank =? 0) && (Z.of_nat i mod 10 =? 0) then
     call w "print"
       [AStr "Epoch: "; AInt epoch; AStr ", Iteration: "; AInt (Z.of_nat i);
        AStr ", Loss: "; ANum loss]
   else ret tt) ;;
  now <- callv w "time.time" [] (w_clock w) ;;
  start <- load_local "start" (l_start st) ;;
  avg <- lift (py_truediv (now - start) (Z.of_nat i - 10)) ;;
  call w "print"
    [AStr "Average Training Iteration Time:"; ANum avg; AStr "s/iter"] ;;
  ret (Continue st).

Definition train_loop (rank epoch bs : Z) (st : locals) : M locals :=
  call w "iter" [AStr "train_loader"] ;;
  for_loader w "train_loader" (train_iteration rank epoch bs) st.

(** The accuracy of one batch, added to [acc_sum]. *)
Definition accumulate_accuracy (bs : Z) (b : batch) (st : locals)
    : M locals :=
  call w "batch.to" [] ;;
  call w "batch.y.to" [AStr "torch.long"] ;;
  call w "model" [] ;;
  a <- callv w "acc" [AInt bs] (w_metric w b) ;;
  ret (set_acc_sum st (add_tensor (l_acc_sum st) a)).

Definition eval_iteration (bs : Z) (i : nat) (b : batch) (st : locals)
    : M (control locals) :=
  let st := set_i st i in
  if eval_steps <=? Z.of_nat i then ret (Break st)
  else st <- accumulate_accuracy bs b st ;; ret (Continue st).

Definition test_iteration (bs : Z) (i : nat) (b : batch) (st : locals)
    : M (control locals) :=
  let st := set_i st i in
  st <- accumulate_accuracy bs b st ;; ret (Continue st).

(** [all_reduce] of [acc_sum], then the print of [acc_sum/(i) * 100.0]. *)
Definition reduce_and_print (label : string) (st : locals) : M locals :=
  s <- all_reduce_MEAN w (l_acc_sum st) ;;
  let st := set_acc_sum st s in
  i <- load_local "i" (l_i st) ;;
  p <- lift (percent_of (l_acc_sum st) (Z.of_nat i)) ;;
  call w "print" [AStr label; fnum_arg p] ;;
  ret st.

(** Lines 92-120: one epoch. *)
Definition epoch_body (rank bs : Z) (epoch : Z) (st : locals) : M locals :=
  st <- train_loop rank epoch bs st ;;
  let st := set_acc_sum st (PyNum 0) in
  with_context w "torch.no_grad"
    (call w "iter" [AStr "eval_loader"] ;;
     st <- for_loader w "eval_loader" (eval_iteration bs) st ;;
     reduce_and_print "Validation Accuracy: " st).

(** Lines 121-131: the final test pass. *)
Definition test_phase (bs : Z) (st : locals) : M locals :=
  let st := set_acc_sum st (PyNum 0) in
  with_context w "torch.no_grad"
    (call w "iter" [AStr "test_loader"] ;;
     st <- for_loader w "test_loader" (test_iteration bs) st ;;
     reduce_and_print "Test Accuracy: " st).

Definition run_train (globals : list string) (world_size : Z) (epochs bs fan : Z)
    (sp : split_idx) (num_classes : Z) (cugraph : bool) : M unit :=
  local_id <- callv w "os.environ.__getitem__" [AStr "LOCAL_RANK"]
                (w_int w "LOCAL_RANK") ;;
  rank <- callv w "torch.distributed.get_rank" []
            (w_int w "torch.distributed.get_rank") ;;
  call w "torch.cuda.set_device" [AInt local_id] ;;
  call w "torch.device" [AInt local_id] ;;
  (if rank =? 0 then
     call w "print" [AStr "Data ="] ;;
     call w "print" [AStr "Using"; AInt world_size; AStr "GPUs..."]
   else ret tt) ;;
  train <- lift (split_for_rank (idx_train sp) world_size rank) ;;
  call w "Tensor.clone" [] ;;
  let sp := {| idx_train := train; idx_valid := idx_valid sp;
               idx_test := idx_test sp |} in
  call w "model.to" [AInt local_id] ;;
  call w "DistributedDataParallel" [AInt local_id] ;;
  call w "model.parameters" [] ;;
  call w "torch.optim.Adam"
    [AStr "lr"; ANum 0.01; AStr "weight_decay"; ANum 0.0005] ;;
  make_loaders cugraph bs fan sp ;;
  call w "Accuracy" [AInt num_classes] ;;
  call w "Accuracy.to" [AInt local_id] ;;
  (if rank =? 0 then call w "print" [AStr "Beginning training..."]
   else ret tt) ;;
  st <- for_each (epoch_body rank bs) (py_range 0 epochs) fresh_locals ;;
  _ <- test_phase bs st ;;
  if rank =? 0 then
    now <- callv w "time.perf_counter" [] (w_clock w) ;;
    load_global globals "wall_clock_start" ;;
    call w "print" [AStr "Total Program Runtime ="; AStr "seconds"]
  else ret tt.

(** The [__main__] block; [a] is what [parser.parse_args()] returned. *)
Definition main (a : cli) : M unit :=
  call w "argparse.ArgumentParser" [] ;;
  for_each (fun flag (_ : unit) => call w "parser.add_argument" [AStr flag])
    cli_flags tt ;;
  call w "parser.parse_args" [] ;;
  call w "time.perf_counter" [] ;;
  (if cugraph_data_loader a then
     call w "import" [AStr "cugraph.testing.mg_utils.enable_spilling"] ;;
     call w "enable_spilling" []
   else ret tt) ;;
  call w "torch.distributed.init_process_group" [AStr "nccl"] ;;
  nprocs <- callv w "dist.get_world_size" [] (w_int w "dist.get_world_size") ;;
  ok <- callv w "dist.is_initialized" [] (w_bool w "dist.is_initialized") ;;
  py_assert ok ;;
  call w "PygNodePropPredDataset" [AStr "ogbn-papers100M"] ;;
  sp <- callv w "dataset.get_idx_split" []
          (fun t => {| idx_train := w_index w "train" t;
                       idx_valid := w_index w "valid" t;
                       idx_test := w_index w "test" t |}) ;;
  call w "dataset.__getitem__" [AInt 0] ;;
  call w "data.y.reshape" [AInt (-1)] ;;
  (if use_gat_conv a then
     call w "torch_geometric.nn.models.GAT"
       [AInt (hidden_channels a); AInt (num_layers a);
        AInt (n_gat_conv_heads a)]
   else
     call w "torch_geometric.nn.models.GCN"
       [AInt (hidden_channels a); AInt (num_layers a)]) ;;
  num_classes <- callv w "dataset.num_classes" []
                   (w_int w "dataset.num_classes") ;;
  py_call "run_train" run_train_params run_train_call_args
    (fun _ => run_train main_globals nprocs (epochs a) (batch_size a)
                (fan_out a) sp num_classes (cugraph_data_loader a)).

End Script.
End MultiNode.

(* ===================================================================== *)
(** ** singlenode_multigpu_papers100m_gcn.py *)
(* ===================================================================== *)

Module SingleNode.

Record cli : Type := {
  hidden_channels : Z;
  num_layers : Z;
  lr : Q;
  epochs : Z;
  batch_size : Z;
  fan_out : Z;
  use_gat_conv : bool;
  n_gat_conv_heads : Z;
  cugraph_data_loader : bool
}.

Record split_idx : Type := {
  idx_train : list Z;
  idx_valid : list Z;
  idx_test : list Z
}.

Record locals : Type := {
  l_i : option nat;
  l_start : option Q;
  l_loss : option Q;
  l_acc_sum : scalar
}.

Definition set_i (st : locals) (i : nat) : locals :=
  {| l_i := Some i; l_start := l_start st; l_loss := l_loss st;
     l_acc_sum := l_acc_sum st |}.

Definition set_start (st : locals) (x : Q) : locals :=
  {| l_i := l_i st; l_start := Some x; l_loss := l_loss st;
     l_acc_sum := l_acc_sum st |}.

Definition set_loss (st : locals) (x : Q) : locals :=
  {| l_i := l_i st; l_start := l_start st; l_loss := Some x;
     l_acc_sum := l_acc_sum st |}.

Definition set_acc_sum (st : locals) (x : scalar) : locals :=
  {| l_i := l_i st; l_start := l_start st; l_loss := l_loss st;
     l_acc_sum := x |}.

Definition fresh_locals : locals :=
  {| l_i := None; l_start := None; l_loss := None; l_acc_sum := PyNum 0 |}.

(** Parameters of [def run_train]. *)
Definition run_train_params : list string :=
  [ "rank"; "data"; "world_size"; "model"; "epochs"; "batch_size";
    "fan_out"; "split_idx"; "num_classes"; "cugraph_data_loader" ].

(** The [args] tuple handed to [mp.spawn]; each child calls
    [run_train(i, *args)]. *)
Definition spawn_args : list string :=
  [ "data"; "world_size"; "model"; "args.epochs"; "args.batch_size";
    "args.fan_out"; "split_idx"; "dataset.num_classes";
    "args.cugraph_data_loader" ].

(** The flags declared with [parser.add_argument]. *)
Definition cli_flags : list string :=
  [ "--hidden_channels"; "--num_layers"; "--lr"; "--epochs"; "--batch_size";
    "--fan_out"; "--use_gat_conv"; "--n_gat_conv_heads";
    "--cugraph_data_loader" ].

Definition eval_steps : Z := 1000.
Definition warmup_steps : Z := 20.

Section Script.
Context (w : World).

(** Lines 23-24: [os.cpu_count() // (2 * world_size)]. *)
Definition workers_from_cpu_count (world_size : Z) : M Z :=
  c <- callv w "os.cpu_count" [] (w_cpu_count w) ;;
  match c with
  | Some c => lift (py_floordiv c (2 * world_size))
  | None =>
      raise (TypeError "unsupported operand type(s) for //: 'NoneType' and 'int'")
  end.

Definition get_num_workers (world_size : Z) : M Z :=
  let num_workers : option Z := None in
  num_workers <-
    (if w_has_sched_getaffinity w then
       try_except
         (cpus <- callv w "os.sched_getaffinity" [AInt 0] (w_affinity w) ;;
          n <- lift (py_floordiv (Z.of_nat (length cpus)) (2 * world_size)) ;;
          ret (Some n))
         is_Exception
         (fun _ => ret num_workers)
     else ret num_workers) ;;
  match num_workers with
  | Some n => ret n
  | None => workers_from_cpu_count world_size
  end.

(** Lines 45-74: the three loaders. *)
Definition make_loaders (world_size : Z) (cugraph : bool) (bs fan : Z)
    (sp : split_idx) : M unit :=
  if cugraph then
    call w "import" [AStr "cugraph"] ;;
    call w "import" [AStr "cugraph_pyg.data.CuGraphStore"] ;;
    call w "import" [AStr "cugraph_pyg.loader.CuGraphNeighborLoader"] ;;
    call w "cugraph.gnn.FeatureStore" [AStr "torch"] ;;
    call w "fs.add_data" [AStr "x"] ;;
    call w "fs.add_data" [AStr "y"] ;;
    call w "CuGraphStore" [] ;;
    call w "CuGraphNeighborLoader"
      [AStr "train_loader"; AList (idx_train sp); AInt fan; AInt bs] ;;
    call w "CuGraphNeighborLoader"
      [AStr "eval_loader"; AList (idx_valid sp); AInt fan; AInt bs] ;;
    call w "CuGraphNeighborLoader"
      [AStr "test_loader"; AList (idx_test sp); AInt fan; AInt bs]
  else
    call w "import" [AStr "torch_geometric.loader.NeighborLoader"] ;;
    num_work <- get_num_workers world_size ;;
    call w "NeighborLoader"
      [AStr "train_loader"; AList (idx_train sp); AInt num_work; AInt fan;
       AInt bs] ;;
    call w "NeighborLoader"
      [AStr "eval_loader"; AList (idx_valid sp); AInt num_work; AInt fan;
       AInt bs] ;;
    call w "NeighborLoader"
      [AStr "test_loader"; AList (idx_test sp); AInt num_work; AInt fan;
       AInt bs].

(** Lines 81-93: the body of the loop over [train_loader]. *)
Definition train_iteration (rank epoch bs : Z) (i : nat) (b : batch)
    (st : locals) : M (control locals) :=
  let st := set_i st i in
  st <- (if Z.of_nat i =? warmup_steps then
           now <- callv w "time.time" [] (w_clock w) ;;
           ret (set_start st now)
         else ret st) ;;
  call w "batch.to" [AInt rank] ;;
  call w "batch.y.to" [AStr "torch.long"] ;;
  call w "optimizer.zero_grad" [] ;;
  call w "model" [] ;;
  loss <- callv w "F.cross_entropy" [AInt bs] (w_loss w b) ;;
  let st := set_loss st loss in
  call w "loss.backward" [] ;;
  call w "optimizer.step" [] ;;
  (if (rank =? 0) && (Z.of_nat i mod 10 =? 0) then
     call w "print"
       [AStr "Epoch: "; AInt epoch; AStr ", Iteration: "; AInt (Z.of_nat i);
        AStr ", Loss: "; ANum loss]
   else ret tt) ;;
  ret (Continue st).

(** Lines 81-95: the loop and the timing line that follows it. *)
Definition train_loop (rank epoch bs : Z) (st : locals) : M locals :=
  call w "iter" [AStr "train_loader"] ;;
  for_loader w "train_loader" (train_iteration rank epoch bs) st.

Definition print_average_time (st : locals) : M unit :=
  now <- callv w "time.time" [] (w_clock w) ;;
  start <- load_local "start" (l_start st) ;;
  i <- load_local "i" (l_i st) ;;
  avg <- lift (py_truediv (now - start) (Z.of_nat i - warmup_steps)) ;;
  call w "print"
    [AStr "Average Training Iteration Time:"; ANum avg; AStr "s/iter"].

Definition accumulate_accuracy (rank bs : Z) (b : batch) (st : locals)
    : M locals :=
  call w "batch.to" [AInt rank] ;;
  call w "batch.y.to" [AStr "torch.long"] ;;
  call w "model" [] ;;
  a <- callv w "acc" [AInt bs] (w_metric w b) ;;
  ret (set_acc_sum st (add_tensor (l_acc_sum st) a)).

Definition eval_iteration (rank bs : Z) (i : nat) (b : batch) (st : locals)
    : M (control locals) :=
  let st := set_i st i in
  if eval_steps <=? Z.of_nat i then ret (Break st)
  else st <- accumulate_accuracy rank bs b st ;; ret (Continue st).

Definition test_iteration (rank bs : Z) (i : nat) (b : batch) (st : locals)
    : M (control locals) :=
  let st := set_i st i in
  st <- accumulate_accuracy rank bs b st ;; ret (Continue st).

(** [all_reduce] of [acc_sum], then the print of [acc_sum/(i) * 100.0]. *)
Definition reduce_and_print (label : string) (st : locals) : M locals :=
  s <- all_reduce_MEAN w (l_acc_sum st) ;;
  let st := set_acc_sum st s in
  i <- load_local "i" (l_i st) ;;
  p <- lift (percent_of (l_acc_sum st) (Z.of_nat i)) ;;
  call w "print" [AStr label; fnum_arg p] ;;
  ret st.

(** Lines 80-108: one epoch. *)
Definition epoch_body (rank bs : Z) (epoch : Z) (st : locals) : M locals :=
  st <- train_loop rank epoch bs st ;;
  print_average_time st ;;
  let st := set_acc_sum st (PyNum 0) in
  st <- with_context w "torch.no_grad"
          (call w "iter" [AStr "eval_loader"] ;;
           for_loader w "eval_loader" (eval_iteration rank bs) st) ;;
  reduce_and_print "Validation Accuracy: " st.

(** Lines 109-119: the final test pass. *)
Definition test_phase (rank bs : Z) (st : locals) : M locals :=
  let st := set_acc_sum st (PyNum 0) in
  with_context w "torch.no_grad"
    (call w "iter" [AStr "test_loader"] ;;
     st <- for_loader w "test_loader" (test_iteration rank bs) st ;;
     reduce_and_print "Test Accuracy: " st).

Definition run_train (rank : Z) (world_size : Z) (epochs bs fan : Z)
    (sp : split_idx) (num_classes : Z) (cugraph : bool) : M unit :=
  call w "os.environ.__setitem__" [AStr "MASTER_ADDR"; AStr "localhost"] ;;
  call w "os.environ.__setitem__" [AStr "MASTER_PORT"; AStr "12355"] ;;
  call w "dist.init_process_group"
    [AStr "nccl"; AInt rank; AInt world_size] ;;
  train <- lift (split_for_rank (idx_train sp) world_size rank) ;;
  call w "Tensor.clone" [] ;;
  let sp := {| idx_train := train; idx_valid := idx_valid sp;
               idx_test := idx_test sp |} in
  call w "model.to" [AInt rank] ;;
  call w "DistributedDataParallel" [AInt rank] ;;
  call w "model.parameters" [] ;;
  call w "torch.optim.Adam"
    [AStr "lr"; ANum 0.01; AStr "weight_decay"; ANum 0.0005] ;;
  make_loaders world_size cugraph bs fan sp ;;
  call w "Accuracy" [AInt num_classes] ;;
  call w "Accuracy.to" [AInt rank] ;;
  (if rank =? 0 then call w "print" [AStr "Beginning training..."]
   else ret tt) ;;
  st <- for_each (epoch_body rank bs) (py_range 0 epochs) fresh_locals ;;
  _ <- test_phase rank bs st ;;
  ret tt.

(** What [mp.spawn] hands to its children, built by the [__main__] block. *)
Record spawned : Type := {
  sp_world_size : Z;
  sp_epochs : Z;
  sp_batch_size : Z;
  sp_fan_out : Z;
  sp_split_idx : split_idx;
  sp_num_classes : Z;
  sp_cugraph : bool
}.

(** The [__main__] block up to [mp.spawn]; [a] is what
    [parser.parse_args()] returned. *)
Definition main (a : cli) : M spawned :=
  call w "argparse.ArgumentParser" [] ;;
  for_each (fun flag (_ : unit) => call w "parser.add_argument" [AStr flag])
    cli_flags tt ;;
  call w "parser.parse_args" [] ;;
  (if cugraph_data_loader a then
     call w "import" [AStr "cugraph.testing.mg_utils.enable_spilling"] ;;
     call w "enable_spilling" []
   else ret tt) ;;
  call w "PygNodePropPredDataset" [AStr "ogbn-papers100M"] ;;
  sp <- callv w "dataset.get_idx_split" []
          (fun t => {| idx_train := w_index w "train" t;
                       idx_valid := w_index w "valid" t;
                       idx_test := w_index w "test" t |}) ;;
  call w "dataset.__getitem__" [AInt 0] ;;
  call w "data.y.reshape" [AInt (-1)] ;;
  (if use_gat_conv a then
     call w "torch_geometric.nn.models.GAT"
       [AInt (hidden_channels a); AInt (num_layers a);
        AInt (n_gat_conv_heads a)]
   else
     call w "torch_geometric.nn.models.GCN"
       [AInt (hidden_channels a); AInt (num_layers a)]) ;;
  call w "print" [AStr "Data ="] ;;
  world_size <- callv w "torch.cuda.device_count" []
                  (w_int w "torch.cuda.device_count") ;;
  call w "print" [AStr "Let's use"; AInt world_size; AStr "GPUs!"] ;;
  num_classes <- callv w "dataset.num_classes" []
                   (w_int w "dataset.num_classes") ;;
  let args := {| sp_world_size := world_size; sp_epochs := epochs a;
                 sp_batch_size := batch_size a; sp_fan_out := fan_out a;
                 sp_split_idx := sp; sp_num_classes := num_classes;
                 sp_cugraph := cugraph_data_loader a |} in
  call w "mp.spawn" [AStr "run_train"; AInt world_size] ;;
  ret args.

(** A child process of [mp.spawn]: [run_train(i, *args)]. *)
Definition child (i : Z) (args : spawned) : M unit :=
  py_call "run_train" run_train_params ("i" :: spawn_args)
    (fun _ => run_train i (sp_world_size args) (sp_epochs args)
                (sp_batch_size args) (sp_fan_out args) (sp_split_idx args)
                (sp_num_classes args) (sp_cugraph args)).

End Script.
End SingleNode.

(* ===================================================================== *)
(** ** mag240m_graphsage.py *)
(* ===================================================================== *)

Module Mag240m.

(** What the script reads of the heterogeneous graph: [metadata()] is the
    pair of node types and edge types; the index lists are the non-zero
    positions of the three masks of the paper nodes. *)
Record hetero_data : Type := {
  d_metadata : list string * list string;
  d_num_classes : Z;
  d_paper_x_dim : Z;
  d_author_num_nodes : Z;
  d_institution_num_nodes : Z;
  d_train_idx : list Z;
  d_val_idx : list Z;
  d_test_idx : list Z
}.

(** The parameters of [run] after [rank] and [data]. *)
Record hparams : Type := {
  n_devices : Z;
  num_epochs : Z;
  num_steps_per_epoch : Z;
  log_every_n_steps : Z;
  batch_size : Z;
  sizes : list Z;
  hidden_channels : Z;
  dropout : Q;
  eval_steps : Z;
  num_warmup_iters_for_timing : Z;
  debug : bool
}.

(** The parsed command line. *)
Record cli : Type := {
  cli_hidden_channels : Z;
  cli_batch_size : Z;
  cli_dropout : Q;
  cli_epochs : Z;
  cli_num_steps_per_epoch : Z;
  cli_log_every_n_steps : Z;
  cli_eval_steps : Z;
  cli_num_warmup_iters_for_timing : Z;
  cli_subgraph : Q;
  cli_sizes : list Z;
  cli_n_devices : Z;
  cli_debug : bool
}.

(** Locals of [run] that outlive the statement assigning them. *)
Record locals : Type := {
  l_i : option nat;
  l_loss : option Q;
  l_time_sum : Q;
  l_sum_acc : scalar;
  l_acc_sum : scalar
}.

Definition set_i (st : locals) (i : nat) : locals :=
  {| l_i := Some i; l_loss := l_loss st; l_time_sum := l_time_sum st;
     l_sum_acc := l_sum_acc st; l_acc_sum := l_acc_sum st |}.

Definition set_loss (st : locals) (x : Q) : locals :=
  {| l_i := l_i st; l_loss := Some x; l_time_sum := l_time_sum st;
     l_sum_acc := l_sum_acc st; l_acc_sum := l_acc_sum st |}.

Definition set_time_sum (st : locals) (x : Q) : locals :=
  {| l_i := l_i st; l_loss := l_loss st; l_time_sum := x;
     l_sum_acc := l_sum_acc st; l_acc_sum := l_acc_sum st |}.

Definition set_sum_acc (st : locals) (x : scalar) : locals :=
  {| l_i := l_i st; l_loss := l_loss st; l_time_sum := l_time_sum st;
     l_sum_acc := x; l_acc_sum := l_acc_sum st |}.

Definition set_acc_sum (st : locals) (x : scalar) : locals :=
  {| l_i := l_i st; l_loss := l_loss st; l_time_sum := l_time_sum st;
     l_sum_acc := l_sum_acc st; l_acc_sum := x |}.

Definition fresh_locals : locals :=
  {| l_i := None; l_loss := None; l_time_sum := 0; l_sum_acc := PyNum 0;
     l_acc_sum := PyNum 0 |}.

(** Module-level names bound by the imports, the [def]s and the classes: the
    namespace a child of [mp.spawn] runs [run] in. *)
Definition module_globals : list string :=
  [ "argparse"; "os"; "time"; "Dict"; "List"; "Tuple"; "torch"; "dist";
    "mp"; "F"; "MAG240MDataset"; "MAG240MEvaluator"; "Tensor"; "Embedding";
    "Linear"; "DistributedDataParallel"; "Accuracy"; "tqdm";
    "seed_everything"; "Batch"; "NeighborLoader"; "HeteroConv"; "SAGEConv";
    "BatchNorm"; "Adj"; "EdgeType"; "NodeType"; "common_step";
    "training_step"; "validation_step"; "predict_step"; "SAGEConvLayer";
    "GraphSAGE"; "run" ].

(** Names the [__main__] block has added when it calls [run] itself. *)
Definition main_globals (debug : bool) : list string :=
  module_globals ++ [ "help_str"; "parser"; "args" ] ++
  (if debug then [] else [ "warnings" ]) ++ [ "dataset"; "data" ].

(** Parameters of [def run]. *)
Definition run_params : list string :=
  [ "rank"; "data"; "n_devices"; "num_epochs"; "num_steps_per_epoch";
    "log_every_n_steps"; "batch_size"; "sizes"; "hidden_channels";
    "dropout"; "eval_steps"; "num_warmup_iters_for_timing"; "debug" ].

(** Argument expressions of the direct call in the [__main__] block. *)
Definition run_call_args : list string :=
  [ "0"; "data"; "args.n_devices"; "args.epochs"; "args.num_steps_per_epoch";
    "args.log_every_n_steps"; "args.batch_size"; "args.sizes";
    "args.hidden_channels"; "args.dropout"; "args.eval_steps";
    "args.num_warmup_iters_for_timing"; "args.debug" ].

(** The [args] tuple handed to [mp.spawn]. *)
Definition spawn_args : list string := tl run_call_args.

Definition model_file : string := "trained_graphsage_for_mag240m.pt".

(** The flags declared with [parser.add_argument]. *)
Definition cli_flags : list string :=
  [ "--hidden_channels"; "--batch_size"; "--dropout"; "--epochs";
    "--num_steps_per_epoch"; "--log_every_n_steps"; "--eval_steps";
    "--num_warmup_iters_for_timing"; "--subgraph"; "--sizes"; "--n_devices";
    "--debug" ].

Section Script.
Context (w : World).

(** [SAGEConvLayer.__init__], lines 57-68. *)
Definition SAGEConvLayer_init (globals : list string)
    (in_feat out_feat : Z) (metadata : list string * list string)
    : M unit :=
  call w "torch.nn.Module.__init__" [] ;;
  call w "Module.__setattr__" [AStr "in_feat"] ;;
  call w "Module.__setattr__" [AStr "out_feat"] ;;
  load_global globals "HeteroConv" ;;
  for_each (fun e_type (_ : unit) =>
              load_global globals "conv_type" ;;
              load_global globals "kwargs" ;;
              call w "conv_type" [AStr e_type; AInt in_feat; AInt out_feat])
    (snd metadata) tt ;;
  call w "HeteroConv" [] ;;
  call w "Module.__setattr__" [AStr "conv"] ;;
  load_global globals "nn" ;;
  call w "nn.Dropout" [] ;;
  call w "Module.__setattr__" [AStr "dropout_conv"] ;;
  load_global globals "torch" ;;
  call w "torch.nn.ReLU" [] ;;
  call w "Module.__setattr__" [AStr "activation"] ;;
  load_global globals "nn" ;;
  call w "nn.ModuleDict" [] ;;
  call w "Module.__setattr__" [AStr "normalizations"] ;;
  for_each (fun node (_ : unit) =>
              load_global globals "BatchNorm" ;;
              call w "BatchNorm" [AInt out_feat] ;;
              call w "ModuleDict.__setitem__" [AStr node])
    (fst metadata) tt.

(** [GraphSAGE.__init__], lines 88-104. *)
Definition GraphSAGE_init (globals : list string) (data : hetero_data)
    (in_channels hidden num_layers out_channels : Z) : M unit :=
  call w "torch.nn.Module.__init__" [] ;;
  call w "Module.__setattr__" [AStr "num_layers"] ;;
  load_global globals "torch" ;;
  call w "torch.nn.Embedding" [AInt (d_author_num_nodes data); AInt in_channels] ;;
  call w "Module.__setattr__" [AStr "author_embed"] ;;
  load_global globals "torch" ;;
  call w "torch.nn.Embedding"
    [AInt (d_institution_num_nodes data); AInt in_channels] ;;
  call w "Module.__setattr__" [AStr "institution_embed"] ;;
  call w "data.metadata" [] ;;
  call w "Module.__setattr__" [AStr "metadata"] ;;
  load_global globals "SAGEConvLayer" ;;
  SAGEConvLayer_init globals in_channels hidden (d_metadata data) ;;
  call w "Module.__setattr__" [AStr "input_conv"] ;;
  call w "Module.__setattr__" [AStr "hidden_convs"] ;;
  (if num_layers >? 2 then
     for_each (fun (_ : Z) (_ : unit) =>
                 load_global globals "SAGEConvLayer" ;;
                 SAGEConvLayer_init globals hidden hidden (d_metadata data) ;;
                 call w "list.append" [])
       (py_range 0 (num_layers - 2)) tt
   else ret tt) ;;
  load_global globals "SAGEConvLayer" ;;
  SAGEConvLayer_init globals hidden out_channels (d_metadata data) ;;
  call w "Module.__setattr__" [AStr "output_conv"].

Definition print_if_rank0 (rank : Z) (msg : string) : M unit :=
  if rank =? 0 then call w "print" [AStr msg] else ret tt.

(** Lines 165-169: the per-rank chunks of the three index tensors. *)
Definition split_indices (rank : Z) (data : hetero_data) (hp : hparams)
    : M (list Z * list Z * list Z) :=
  if n_devices hp >? 1 then
    tr <- lift (split_for_rank (d_train_idx data) (n_devices hp) rank) ;;
    ev <- lift (split_for_rank (d_val_idx data) (n_devices hp) rank) ;;
    te <- lift (split_for_rank (d_test_idx data) (n_devices hp) rank) ;;
    ret (tr, ev, te)
  else ret (d_train_idx data, d_val_idx data, d_test_idx data).

(** Lines 135-205: everything before the epoch loop. *)
Definition run_setup (globals : list string) (rank : Z) (data : hetero_data)
    (hp : hparams) : M unit :=
  call w "seed_everything" [AInt 12345] ;;
  (if n_devices hp >? 1 then
     print_if_rank0 rank "Setting up distributed..." ;;
     call w "os.environ.__setitem__" [AStr "MASTER_ADDR"; AStr "localhost"] ;;
     call w "os.environ.__setitem__" [AStr "MASTER_PORT"; AStr "12355"] ;;
     call w "dist.init_process_group"
       [AStr "nccl"; AInt rank; AInt (n_devices hp)]
   else ret tt) ;;
  print_if_rank0 rank "Setting up GNN..." ;;
  call w "Accuracy" [AInt (d_num_classes data)] ;;
  load_global globals "GraphSAGE" ;;
  call w "data.paper.x.size" [AInt (-1)] ;;
  GraphSAGE_init globals data (d_paper_x_dim data) (hidden_channels hp)
    (Z.of_nat (length (sizes hp))) (d_num_classes data) ;;
  call w "torch.arange" [AInt (d_author_num_nodes data)] ;;
  call w "torch.arange" [AInt (d_institution_num_nodes data)] ;;
  (if rank =? 0 then
     call w "model.parameters" [] ;;
     call w "print" [AStr "# GNN Params: "] ;;
     call w "print" [AStr "Setting up NeighborLoaders..."]
   else ret tt) ;;
  call w "train_mask.nonzero" [] ;;
  call w "val_mask.nonzero" [] ;;
  call w "test_mask.nonzero" [] ;;
  idx <- split_indices rank data hp ;;
  let '(train_idx, eval_idx, test_idx) := idx in
  call w "NeighborLoader"
    [AStr "train_loader"; AList train_idx; AList (sizes hp);
     AInt (batch_size hp)] ;;
  call w "NeighborLoader"
    [AStr "eval_loader"; AList eval_idx; AList (sizes hp);
     AInt (batch_size hp)] ;;
  call w "NeighborLoader"
    [AStr "test_loader"; AList test_idx; AList (sizes hp);
     AInt (batch_size hp)] ;;
  print_if_rank0 rank "Final setup..." ;;
  (if n_devices hp >? 0 then call w "model.to" [AInt rank] else ret tt) ;;
  print_if_rank0 rank "about to make optimizer" ;;
  (if n_devices hp >? 1 then call w "DistributedDataParallel" [AInt rank]
   else ret tt) ;;
  call w "model.parameters" [] ;;
  call w "torch.optim.Adam" [AStr "lr"; ANum 0.001].

(** [common_step], lines 26-29: forward pass and labels of the first
    [batch["paper"].batch_size] nodes. *)
Definition common_step (b : batch) : M Z :=
  let batch_size := seed_count b in
  call w "model" [] ;;
  call w "batch.y.to" [AStr "torch.long"] ;;
  ret batch_size.

(** [training_step], lines 33-36. *)
Definition training_step (b : batch) : M (Q * Q) :=
  n <- common_step b ;;
  train_loss <- callv w "F.cross_entropy" [AInt n] (w_loss w b) ;;
  train_acc <- callv w "acc" [AInt n] (w_metric w b) ;;
  ret (train_loss, train_acc).

(** [validation_step], lines 40-41. *)
Definition validation_step (b : batch) : M Q :=
  n <- common_step b ;;
  callv w "acc" [AInt n] (w_metric w b).

(** Lines 210-227: the body of the loop over [train_loader]. *)
Definition train_iteration (rank : Z) (hp : hparams) (epoch : Z) (i : nat)
    (b : batch) (st : locals) : M (control locals) :=
  let st := set_i st i in
  if (0 <=? num_steps_per_epoch hp)
     && (num_steps_per_epoch hp <=? Z.of_nat i)
  then ret (Break st)
  else
    since <- callv w "time.time" [] (w_clock w) ;;
    call w "optimizer.zero_grad" [] ;;
    (if n_devices hp >? 0 then call w "batch.to" [AInt rank] else ret tt) ;;
    r <- training_step b ;;
    let '(loss, train_acc) := r in
    let st := set_loss st loss in
    let st := set_sum_acc st (add_tensor (l_sum_acc st) train_acc) in
    call w "loss.backward" [] ;;
    call w "optimizer.step" [] ;;
    now <- callv w "time.time" [] (w_clock w) ;;
    let iter_time := (now - since)%Q in
    let st :=
      if Z.of_nat i >? num_warmup_iters_for_timing hp - 1
      then set_time_sum st (l_time_sum st + iter_time)%Q else st in
    (if rank =? 0 then
       m <- lift (py_mod (Z.of_nat i) (log_every_n_steps hp)) ;;
       if m =? 0 then
         p <- lift (percent_of (l_sum_acc st) (Z.of_nat i)) ;;
         call w "print"
           [AStr "Epoch: "; AInt epoch; AStr ", Step: "; AInt (Z.of_nat i);
            AStr ", Loss: "; ANum loss; AStr ", Train Acc: "; fnum_arg p;
            AStr ", Step Time: "; ANum iter_time]
       else ret tt
     else ret tt) ;;
    ret (Continue st).

Definition train_loop (rank : Z) (hp : hparams) (epoch : Z) (st : locals)
    : M locals :=
  call w "iter" [AStr "train_loader"] ;;
  for_loader w "train_loader" (train_iteration rank hp epoch) st.

(** Lines 228-233: the line printed after the loop. *)
Definition print_epoch_summary (hp : hparams) (epoch : Z) (st : locals)
    : M unit :=
  loss <- load_local "loss" (l_loss st) ;;
  i <- load_local "i" (l_i st) ;;
  p <- lift (percent_of (l_sum_acc st) (Z.of_nat i)) ;;
  avg <- lift (py_truediv (l_time_sum st)
                 (Z.of_nat i - num_warmup_iters_for_timing hp)) ;;
  call w "print"
    [AStr "Epoch: "; AInt epoch; AStr ", Loss: "; ANum loss;
     AStr ", Train Acc:"; fnum_arg p; AStr ", Average Step Time: ";
     ANum avg].

(** The body shared by the loops over [eval_loader] and [test_loader]. *)
Definition eval_iteration (rank : Z) (hp : hparams) (i : nat) (b : batch)
    (st : locals) : M (control locals) :=
  let st := set_i st i in
  if eval_steps hp <=? Z.of_nat i then ret (Break st)
  else
    (if n_devices hp >? 0 then call w "batch.to" [AInt rank] else ret tt) ;;
    a <- validation_step b ;;
    ret (Continue (set_acc_sum st (add_tensor (l_acc_sum st) a))).

(** [acc_sum / (i + 1) * 100.0] after the all-reduce. *)
Definition reduced_percent (st : locals) : M (locals * fnum) :=
  s <- all_reduce_MEAN w (l_acc_sum st) ;;
  let st := set_acc_sum st s in
  i <- load_local "i" (l_i st) ;;
  p <- lift (percent_of (l_acc_sum st) (Z.of_nat i + 1)) ;;
  ret (st, p).

(** Lines 207-245: one epoch. *)
Definition epoch_body (rank : Z) (hp : hparams) (epoch : Z) (st : locals)
    : M locals :=
  call w "model.train" [] ;;
  let st := set_sum_acc (set_time_sum st 0) (PyNum 0) in
  st <- train_loop rank hp epoch st ;;
  (if n_devices hp >? 1 then call w "dist.barrier" [] else ret tt) ;;
  print_epoch_summary hp epoch st ;;
  call w "model.eval" [] ;;
  let st := set_acc_sum st (PyNum 0) in
  with_context w "torch.no_grad"
    (call w "iter" [AStr "eval_loader"] ;;
     st <- for_loader w "eval_loader" (eval_iteration rank hp) st ;;
     r <- reduced_percent st ;;
     call w "print" [AStr "Validation Accuracy: "; fnum_arg (snd r)] ;;
     ret (fst r)).

(** Lines 257-260: what follows the test loop inside the [with] block. *)
Definition test_report (st : locals) : M fnum :=
  r <- reduced_percent st ;;
  let final_test_acc := snd r in
  call w "print" [AStr "Test Accuracy: "; fnum_arg final_test_acc] ;;
  ret final_test_acc.

(** Lines 246-260. *)
Definition test_phase (rank : Z) (hp : hparams) (st : locals) : M fnum :=
  (if n_devices hp >? 1 then call w "dist.barrier" [] else ret tt) ;;
  call w "model.eval" [] ;;
  let st := set_acc_sum st (PyNum 0) in
  with_context w "torch.no_grad"
    (call w "iter" [AStr "test_loader"] ;;
     st <- for_loader w "test_loader" (eval_iteration rank hp) st ;;
     test_report st).

(** [final_test_acc >= 68.0]; a non-finite value only arises from a division
    by zero, which [i + 1] excludes. *)
Definition at_least_68 (x : fnum) : bool :=
  match x with
  | Fin q => Qle_bool 68 q
  | NonFin => false
  end.

(** Lines 261-264. *)
Definition run_finish (hp : hparams) (final_test_acc : fnum) : M unit :=
  (if n_devices hp >? 1 then call w "dist.destroy_process_group" []
   else ret tt) ;;
  call w "torch.save" [AStr model_file] ;;
  py_assert (at_least_68 final_test_acc).

Definition run (globals : list string) (rank : Z) (data : hetero_data)
    (hp : hparams) : M unit :=
  run_setup globals rank data hp ;;
  st <- for_each (epoch_body rank hp) (py_range 1 (num_epochs hp + 1))
          fresh_locals ;;
  final_test_acc <- test_phase rank hp st ;;
  run_finish hp final_test_acc.

(** The hyper-parameters the [__main__] block passes on. *)
Definition hparams_of (a : cli) (n : Z) : hparams :=
  {| n_devices := n; num_epochs := cli_epochs a;
     num_steps_per_epoch := cli_num_steps_per_epoch a;
     log_every_n_steps := cli_log_every_n_steps a;
     batch_size := cli_batch_size a; sizes := cli_sizes a;
     hidden_channels := cli_hidden_channels a; dropout := cli_dropout a;
     eval_steps := cli_eval_steps a;
     num_warmup_iters_for_timing := cli_num_warmup_iters_for_timing a;
     debug := cli_debug a |}.

(** Lines 297-307: the device count the script settles on. *)
Definition choose_devices (a : cli) : M Z :=
  avail <- callv w "torch.cuda.is_available" []
             (w_bool w "torch.cuda.is_available") ;;
  n <- (if negb avail then
          call w "print" [AStr "No GPUs available, running with CPU"] ;;
          ret 0
        else ret (cli_n_devices a)) ;;
  count <- callv w "torch.cuda.device_count" []
             (w_int w "torch.cuda.device_count") ;;
  if n >? count then
    count' <- callv w "torch.cuda.device_count" []
                (w_int w "torch.cuda.device_count") ;;
    call w "print" [AInt n; AStr "GPUs requested but only"; AInt count';
                    AStr "GPUs available"] ;;
    callv w "torch.cuda.device_count" [] (w_int w "torch.cuda.device_count")
  else ret n.

(** Lines 326-348: [mp.spawn] under its handler.  What [mp.spawn] does with
    the processes it starts (it raises when one of them fails) is the
    library's business: the world decides the outcome of the call. *)
Definition spawn_guarded (n : Z) : M unit :=
  try_except
    (call w "mp.spawn" [AStr "run"; AInt n])
    is_ProcessExitedException
    (fun e =>
       call w "print"
         [AStr "torch.multiprocessing.spawn.ProcessExitedException:";
          AExn e] ;;
       call w "print"
         [AStr "Exceptions/SIGBUS/Errors may be caused by a lack of RAM"]).

(** The [__main__] block; [a] is what [parser.parse_args()] returned and
    [data] what the dataset (or its subgraph) turned out to be. *)
Definition main (a : cli) (data : hetero_data) : M unit :=
  call w "argparse.ArgumentParser" [] ;;
  for_each (fun flag (_ : unit) => call w "parser.add_argument" [AStr flag])
    cli_flags tt ;;
  call w "parser.parse_args" [] ;;
  call w "int" [AStr "args.sizes"] ;;
  call w "print" [AStr "args"] ;;
  (if negb (cli_debug a) then
     call w "import" [AStr "warnings"] ;;
     call w "warnings.simplefilter" [AStr "ignore"]
   else ret tt) ;;
  n <- choose_devices a ;;
  call w "print" [AStr "Loading Data..."] ;;
  call w "MAG240MDataset" [] ;;
  call w "dataset.to_pyg_hetero_data" [] ;;
  call w "print" [AStr "Data ="] ;;
  (if Qle_bool 1 (cli_subgraph a) then ret tt
   else
     call w "print" [AStr "Making a subgraph of the data"] ;;
     for_each (fun n_type (_ : unit) => call w "torch.randperm" [AStr n_type])
       (fst (d_metadata data)) tt ;;
     call w "data.subgraph" []) ;;
  if n >? 1 then
    call w "print" [AStr "Let's use"; AInt n; AStr "GPUs!"] ;;
    call w "import" [AStr "torch.multiprocessing.spawn.ProcessExitedException"] ;;
    spawn_guarded n
  else
    (if n =? 1 then call w "print" [AStr "Using a single GPU"]
     else call w "print" [AStr "Using CPU"]) ;;
    py_call "run" run_params run_call_args
      (fun _ => run (main_globals (cli_debug a)) 0 data (hparams_of a n)).

(** A child process of [mp.spawn]: [run(i, *args)]. *)
Definition child (i : Z) (a : cli) (data : hetero_data) (n : Z) : M unit :=
  py_call "run" run_params ("i" :: spawn_args)
    (fun _ => run module_globals i data (hparams_of a n)).

End Script.
End Mag240m.

(* ===================================================================== *)
(** ** mag240m_graphsage.py: the forward passes and [predict_step] *)
(* ===================================================================== *)

Module Mag240mInference.

Section Script.
Context (w : World).

(** [predict_step], lines 44-46: [model] is not among its parameters. *)
Definition predict_step (globals : list string) (b : batch) : M unit :=
  load_global globals "common_step" ;;
  load_global globals "model" ;;
  _ <- Mag240m.common_step w b ;;
  ret tt.

(** [SAGEConvLayer.forward], lines 70-75, of the layer called [layer];
    [keys] are the node types the convolution returns features for. *)
Definition SAGEConvLayer_forward (layer : string) (keys : list string)
    : M unit :=
  call w "self.conv" [AStr layer] ;;
  for_each (fun node_type (_ : unit) =>
              call w "ModuleDict.__getitem__" [AStr node_type] ;;
              call w "self.dropout_conv" [AStr node_type] ;;
              call w "self.activation" [AStr node_type] ;;
              call w "self.normalizations" [AStr node_type])
    keys tt.

(** [self.hidden_convs[i]] on the list [__init__] filled with
    [self.num_layers - 2] layers. *)
Definition hidden_conv (self_num_layers : Z) (keys : list string) (i : Z)
    (_ : unit) : M unit :=
  if (0 <=? i) && (i <? self_num_layers - 2)
  then SAGEConvLayer_forward "hidden_convs" keys
  else raise IndexError.

(** [GraphSAGE.forward], lines 106-117; [self_num_layers] is
    [self.num_layers].  The loop bound reads the name [num_layers], which
    is not an attribute access: were it a module global, its value would be
    the world's. *)
Definition GraphSAGE_forward (globals : list string) (self_num_layers : Z)
    (keys : list string) : M unit :=
  call w "batch.paper.x" [] ;;
  call w "self.author_embed" [] ;;
  call w "self.institution_embed" [] ;;
  call w "batch.collect" [AStr "edge_index"] ;;
  SAGEConvLayer_forward "input_conv" keys ;;
  (if self_num_layers >? 2 then
     load_global globals "range" ;;
     load_global globals "num_layers" ;;
     n <- (fun t => (Ok (w_int w "num_layers" t), t)) ;;
     for_each (hidden_conv self_num_layers keys) (py_range 0 (n - 2)) tt
   else ret tt) ;;
  SAGEConvLayer_forward "output_conv" keys.

End Script.
End Mag240mInference.

(* ===================================================================== *)
(** ** Specifications *)
(* ===================================================================== *)

Module Spec.

(** The library never raises. *)
Definition lib_ok (w : World) : Prop :=
  forall fn args t, w_raises w fn args t = None.

(** [e] is the exception of a failed library call recorded in [d]. *)
Definition lib_raised (w : World) (e : exn) (d : list event) : Prop :=
  exists fn args t,
    In (Raised fn args e) d /\ w_raises w fn args t = Some e.

(** A computation obeys a discipline [(Q, J, strict)] under the handlers [C]
    that enclose it: the trace only grows; the events it adds satisfy [Q]
    whenever it returns, raises an exception that [C] catches, or [strict] is
    set; and an exception it raises is caught by [C], is one the script may
    raise itself ([J]), or comes from a library call of the added events. *)
Definition obeys {A} (w : World) (Q : event -> bool) (J : exn -> bool)
    (strict : bool) (C : exn -> bool) (m : M A) : Prop :=
  forall t, exists d,
    snd (m t) = t ++ d /\
    match fst (m t) with
    | Ok _ => forallb Q d = true
    | Raise e =>
        (C e || strict = true -> forallb Q d = true) /\
        (C e = true \/ J e = true \/ lib_raised w e d)
    end.

(** A computation that never returns normally. *)
Definition never_returns {A} (m : M A) : Prop :=
  forall t, is_ok (fst (m t)) = false.

Definition no_handler (e : exn) : bool := false.
Definition any_exn (e : exn) : bool := true.
Definition any_event (ev : event) : bool := true.

(** The five operations of a training iteration. *)
Definition training_ops : list string :=
  [ "optimizer.zero_grad"; "model"; "F.cross_entropy"; "loss.backward";
    "optimizer.step" ].

Definition is_training_op (ev : event) : bool :=
  bound_in training_ops (event_fn ev).

Definition not_training (ev : event) : bool := negb (is_training_op ev).

(** The training operations of a trace, in order. *)
Definition ops_of (d : list event) : list string :=
  map event_fn (filter is_training_op d).

Definition is_save (ev : event) : bool :=
  String.eqb (event_fn ev) "torch.save".

Definition not_save (ev : event) : bool := negb (is_save ev).



(** The NameErrors of [SAGEConvLayer.__init__]. *)
Definition is_unbound_layer_name (e : exn) : bool :=
  match e with
  | NameError x => String.eqb x "conv_type" || String.eqb x "nn"
  | _ => false
  end.

(** The exceptions the [__main__] block of the multi-node script raises
    itself: the failed assertion and the TypeError of the call. *)
Definition is_multinode_main_error (e : exn) : bool :=
  match e with
  | AssertionError => true
  | TypeError_args fn 9 10 => String.eqb fn "run_train"
  | _ => false
  end.

Definition event_args (ev : event) : list arg :=
  match ev with
  | Returned _ args => args
  | Raised _ args _ => args
  end.










(** How many events of a trace are calls of [name]. *)
Definition count_fn (name : string) (d : list event) : nat :=
  length (filter (fun ev => String.eqb (event_fn ev) name) d).

(** The print of an accuracy under [label]. *)
Definition is_accuracy_print (label : string) (ev : event) : bool :=
  String.eqb (event_fn ev) "print"
  && match event_args ev with
     | AStr s :: _ => String.eqb s label
     | _ => false
     end.

Definition no_test_accuracy (ev : event) : bool :=
  negb (is_accuracy_print "Test Accuracy: " ev).

(** The AttributeError of [torch.distributed.ReduceOp.MEAN]. *)
Definition is_missing_MEAN (e : exn) : bool :=
  match e with
  | AttributeError name => String.eqb name "MEAN"
  | _ => false
  end.

(** The slice [idx[p : p + s]]. *)
Definition slice (idx : list Z) (p s : nat) : list Z :=
  firstn s (skipn p idx).


End Spec.

Import Spec.

(* ===================================================================== *)
(** ** Namespaces and worlds used in the statements *)
(* ===================================================================== *)

Module Cases.

(** The namespaces [run] of mag240m_graphsage.py can execute in: that of a
    child of [mp.spawn], and that of the [__main__] block. *)
Definition run_namespaces (debug : bool) : list (list string) :=
  [ Mag240m.module_globals; Mag240m.main_globals debug ].

(** One process on one GPU: ranks are 0, counts are 1. *)
Definition single_process (query : string) : Z :=
  if String.eqb query "torch.cuda.device_count"
     || String.eqb query "dist.get_world_size"
  then 1 else 0.

(** A world whose library calls all return; [batches] are what the loaders
    yield and [acc] the accuracy of every batch. *)
Definition quiet_world (batches : string -> list batch) (acc : Q) : World :=
  {| w_raises := fun _ _ _ => None;
     w_int := fun query _ => single_process query;
     w_bool := fun _ _ => true;
     w_clock := fun t => inject_Z (Z.of_nat (length t));
     w_index := fun _ _ => [10; 11; 12; 13];
     w_batches := fun loader _ => batches loader;
     w_metric := fun _ _ => acc;
     w_loss := fun _ _ => 1%Q;
     w_peers := fun _ => [];
     w_has_sched_getaffinity := true;
     w_affinity := fun _ => [0; 1; 2; 3];
     w_cpu_count := fun _ => Some 4 |}.

Definition no_batches (loader : string) : list batch := [].

(** A graph with the three node types of MAG240M. *)
Definition small_graph : Mag240m.hetero_data :=
  {| Mag240m.d_metadata :=
       (["paper"; "author"; "institution"],
        ["writes"; "affiliated_with"; "cites"]);
     Mag240m.d_num_classes := 153;
     Mag240m.d_paper_x_dim := 768;
     Mag240m.d_author_num_nodes := 5;
     Mag240m.d_institution_num_nodes := 2;
     Mag240m.d_train_idx := [0; 1; 2; 3];
     Mag240m.d_val_idx := [4; 5];
     Mag240m.d_test_idx := [6; 7] |}.


(** A machine whose process may run on one CPU only. *)
Definition one_cpu_world : World :=
  {| w_raises := fun _ _ _ => None;
     w_int := fun _ _ => 1;
     w_bool := fun _ _ => true;
     w_clock := fun _ => 0%Q;
     w_index := fun _ _ => [];
     w_batches := fun _ _ => [];
     w_metric := fun _ _ => 0%Q;
     w_loss := fun _ _ => 0%Q;
     w_peers := fun _ => [];
     w_has_sched_getaffinity := true;
     w_affinity := fun _ => [0];
     w_cpu_count := fun _ => Some 1 |}.

(** Two test batches, nothing to train or validate on. *)
Definition two_test_batches (loader : string) : list batch :=
  if String.eqb loader "test_loader"
  then [ {| batch_id := 0; seed_count := 2048 |};
         {| batch_id := 1; seed_count := 2048 |} ]
  else [].


(** A one-GPU job of the single-node script that skips training. *)
Definition one_gpu_job : SingleNode.spawned :=
  {| SingleNode.sp_world_size := 1; SingleNode.sp_epochs := 0;
     SingleNode.sp_batch_size := 2048; SingleNode.sp_fan_out := 16;
     SingleNode.sp_split_idx :=
       {| SingleNode.idx_train := [10; 11; 12; 13];
          SingleNode.idx_valid := [20; 21];
          SingleNode.idx_test := [30; 31] |};
     SingleNode.sp_num_classes := 172; SingleNode.sp_cugraph := false |}.

(** The command line of the single-node script with a given [--lr]. *)
Definition singlenode_cli (lr_flag : Q) : SingleNode.cli :=
  {| SingleNode.hidden_channels := 128; SingleNode.num_layers := 2;
     SingleNode.lr := lr_flag; SingleNode.epochs := 0;
     SingleNode.batch_size := 2048; SingleNode.fan_out := 16;
     SingleNode.use_gat_conv := false; SingleNode.n_gat_conv_heads := 4;
     SingleNode.cugraph_data_loader := false |}.

Definition multinode_cli (lr_flag : Q) : MultiNode.cli :=
  {| MultiNode.hidden_channels := 128; MultiNode.num_layers := 2;
     MultiNode.lr := lr_flag; MultiNode.epochs := 0;
     MultiNode.batch_size := 2048; MultiNode.fan_out := 16;
     MultiNode.use_gat_conv := false; MultiNode.n_gat_conv_heads := 4;
     MultiNode.cugraph_data_loader := false |}.

(** Hyper-parameters of mag240m_graphsage.py with [--eval_steps 1]. *)
Definition one_eval_step : Mag240m.hparams :=
  {| Mag240m.n_devices := 1; Mag240m.num_epochs := 0;
     Mag240m.num_steps_per_epoch := -1; Mag240m.log_every_n_steps := 1;
     Mag240m.batch_size := 1024; Mag240m.sizes := [25; 15];
     Mag240m.hidden_channels := 1024; Mag240m.dropout := 0.5;
     Mag240m.eval_steps := 1;
     Mag240m.num_warmup_iters_for_timing := 100; Mag240m.debug := false |}.

(** The split of the multi-node job used below. *)
Definition small_split : MultiNode.split_idx :=
  {| MultiNode.idx_train := [10; 11; 12; 13];
     MultiNode.idx_valid := [20; 21];
     MultiNode.idx_test := [30; 31] |}.

End Cases.

Import Cases.


(* ===================================================================== *)
(** ** Further specifications *)
(* ===================================================================== *)

Module Props.

(** The layer a [self.conv] event belongs to. *)
Definition conv_layer (ev : event) : option string :=
  if String.eqb (event_fn ev) "self.conv" then
    match event_args ev with
    | [AStr layer] => Some layer
    | _ => None
    end
  else None.

(** The convolution layers a trace applies, in order. *)
Fixpoint layers_of (d : list event) : list string :=
  match d with
  | [] => []
  | ev :: d' =>
      match conv_layer ev with
      | Some layer => layer :: layers_of d'
      | None => layers_of d'
      end
  end.

(** No layer after the input layer is applied. *)
Definition not_past_input (ev : event) : bool :=
  match conv_layer ev with
  | Some layer => String.eqb layer "input_conv"
  | None => true
  end.

Definition is_unbound_num_layers (e : exn) : bool :=
  match e with
  | NameError x => String.eqb x "num_layers"
  | _ => false
  end.

Definition no_exn (e : exn) : bool := false.

(** Neither a training operation, nor the creation of an optimizer, nor a
    [torch.save]. *)
Definition idle (ev : event) : bool :=
  not_training ev && not_save ev
  && negb (String.eqb (event_fn ev) "torch.optim.Adam").

Definition is_spawn (ev : event) : bool :=
  String.eqb (event_fn ev) "mp.spawn".

(** A command line of mag240m_graphsage.py asking for [n] devices. *)
Definition mag240m_cli (n : Z) : Mag240m.cli :=
  {| Mag240m.cli_hidden_channels := 1024; Mag240m.cli_batch_size := 1024;
     Mag240m.cli_dropout := 0.5; Mag240m.cli_epochs := 1;
     Mag240m.cli_num_steps_per_epoch := -1;
     Mag240m.cli_log_every_n_steps := 1; Mag240m.cli_eval_steps := 100;
     Mag240m.cli_num_warmup_iters_for_timing := 100;
     Mag240m.cli_subgraph := 1; Mag240m.cli_sizes := [25; 15];
     Mag240m.cli_n_devices := n; Mag240m.cli_debug := false |}.

(** A machine with [c] GPUs whose library calls all return. *)
Definition gpus_world (c : Z) : World :=
  {| w_raises := fun _ _ _ => None;
     w_int := fun _ _ => c;
     w_bool := fun _ _ => true;
     w_clock := fun t => inject_Z (Z.of_nat (length t));
     w_index := fun _ _ => [10; 11; 12; 13];
     w_batches := fun _ _ => [];
     w_metric := fun _ _ => 0%Q;
     w_loss := fun _ _ => 1%Q;
     w_peers := fun _ => [];
     w_has_sched_getaffinity := true;
     w_affinity := fun _ => [0; 1; 2; 3];
     w_cpu_count := fun _ => Some 4 |}.

(** The device count the [__main__] block of mag240m_graphsage.py should
    settle on: none without CUDA, and never more than there are. *)
Definition settled_devices (available : bool) (requested count : Z) : Z :=
  Z.min (if available then requested else 0) count.

(** The RuntimeError of [Tensor.split] with a zero split size. *)
Definition is_zero_split (e : exn) : bool :=
  match e with
  | RuntimeError msg =>
      String.eqb msg "split_size can only be 0 if dimension size is 0"
  | _ => false
  end.

(** What [run_train] of the papers100m scripts calls before it splits the
    training indices. *)
Definition before_split_fns : list string :=
  [ "os.environ.__setitem__"; "dist.init_process_group";
    "os.environ.__getitem__"; "torch.distributed.get_rank";
    "torch.cuda.set_device"; "torch.device"; "print" ].

Definition before_split (ev : event) : bool :=
  bound_in before_split_fns (event_fn ev).


(** An event of the final test pass of a papers100m script: a request to
    the test loader or the print of the test accuracy. *)
Definition is_test_pass (ev : event) : bool :=
  match event_args ev with
  | AStr s :: _ =>
      (String.eqb s "test_loader"
       && (String.eqb (event_fn ev) "iter"
           || String.eqb (event_fn ev) "next"))
      || String.eqb s "Test Accuracy: "
  | _ => false
  end.

Definition not_test_pass (ev : event) : bool := negb (is_test_pass ev).

(** What [run_train] does before its first epoch: no test pass and no
    optimizer step. *)
Definition before_epochs (ev : event) : bool :=
  not_test_pass ev && negb (String.eqb (event_fn ev) "optimizer.step").

(** Every loader yields one batch. *)
Definition one_batch_each (loader : string) : list batch :=
  [ {| batch_id := 0; seed_count := 2048 |} ].

(** A computation that can only return after a call of [mp.spawn]. *)
Definition through_spawn {A} (m : M A) : Prop :=
  forall t, exists d,
    snd (m t) = t ++ d /\
    (is_ok (fst (m t)) = true -> existsb is_spawn d = true).

Definition no_spawn (ev : event) : bool := negb (is_spawn ev).

(** Every library call other than [mp.spawn] returns. *)
Definition ok_but_spawn (w : World) : Prop :=
  forall fn args t, fn <> "mp.spawn" -> w_raises w fn args t = None.

(** How the [__main__] block of mag240m_graphsage.py goes on once it has
    settled on [n] devices: with more than one, as the guarded [mp.spawn] of
    [n] processes does; otherwise into the NameError of the model
    constructor; in both cases without another call of [mp.spawn]. *)
Definition ends_by_device_count (w : World) (n : Z) (m : M unit) : Prop :=
  forall t, exists d,
    forallb no_spawn d = true /\
    if 1 <? n then m t = Mag240m.spawn_guarded w n (t ++ d)
    else exists e,
        m t = (Raise e, t ++ d) /\ is_unbound_layer_name e = true.

(** A machine with [c] GPUs on which [mp.spawn] raises [e] and every other
    library call returns. *)
Definition spawn_fails_world (c : Z) (e : exn) : World :=
  {| w_raises := fun fn _ _ =>
       if String.eqb fn "mp.spawn" then Some e else None;
     w_int := fun _ _ => c;
     w_bool := fun _ _ => true;
     w_clock := fun t => inject_Z (Z.of_nat (length t));
     w_index := fun _ _ => [10; 11; 12; 13];
     w_batches := fun _ _ => [];
     w_metric := fun _ _ => 0%Q;
     w_loss := fun _ _ => 1%Q;
     w_peers := fun _ => [];
     w_has_sched_getaffinity := true;
     w_affinity := fun _ => [0; 1; 2; 3];
     w_cpu_count := fun _ => Some 4 |}.

(** The train loader yields [n] batches, the other loaders none. *)
Definition train_batches (n : nat) (loader : string) : list batch :=
  if String.eqb loader "train_loader"
  then map (fun k => {| batch_id := Z.of_nat k; seed_count := 2048 |})
         (seq 0 n)
  else [].


(** A computation that ends in an exception, before the test pass and after
    at most one optimizer step. *)
Definition stops_early {A} (m : M A) : Prop :=
  forall t, exists e d,
    m t = (Raise e, t ++ d) /\
    forallb not_test_pass d = true /\
    (count_fn "optimizer.step" d <= 1)%nat.

End Props.

Import Props.

(* ===================================================================== *)
(** ** Reasoning rules for the discipline [obeys] *)
(* ===================================================================== *)

Lemma forallb_app_true {X} (f : X -> bool) (l1 l2 : list X) :
  forallb f l1 = true -> forallb f l2 = true -> forallb f (l1 ++ l2) = true.
Proof.
  intros H1 H2. rewrite forallb_app, H1, H2. reflexivity.
Qed.

Lemma lib_raised_app_l w e d1 d2 :
  lib_raised w e d1 -> lib_raised w e (d1 ++ d2).
Proof.
  intros (fn & args & t & H & E). exists fn, args, t. split; [|exact E].
  apply in_or_app. now left.
Qed.

Lemma lib_raised_app_r w e d1 d2 :
  lib_raised w e d2 -> lib_raised w e (d1 ++ d2).
Proof.
  intros (fn & args & t & H & E). exists fn, args, t. split; [|exact E].
  apply in_or_app. now right.
Qed.

Lemma lib_ok_not_raised w e d : lib_ok w -> ~ lib_raised w e d.
Proof.
  intros Hok (fn & args & t & _ & E). rewrite Hok in E. discriminate.
Qed.

Section ObeysRules.
Variable w : World.
Variable Q : event -> bool.
Variable J : exn -> bool.
Variable strict : bool.

Lemma obeys_ret {A} C (a : A) : obeys w Q J strict C (ret a).
Proof.
  intros t. exists []. simpl. rewrite app_nil_r. auto.
Qed.

Lemma obeys_raise {A} C e :
  C e || J e = true -> obeys w Q J strict C (@raise A e).
Proof.
  intros H t. exists []. simpl. rewrite app_nil_r. split; [reflexivity|].
  split; [reflexivity|]. apply orb_true_iff in H. tauto.
Qed.

Lemma obeys_lift {A} C (r : result A) :
  (forall e, r = Raise e -> C e || J e = true) ->
  obeys w Q J strict C (lift r).
Proof.
  intros H t. exists []. unfold lift. simpl. rewrite app_nil_r.
  split; [reflexivity|]. destruct r as [a|e]; [reflexivity|].
  split; [reflexivity|]. specialize (H e eq_refl).
  apply orb_true_iff in H. tauto.
Qed.

Lemma obeys_bind {A B} C (m : M A) (k : A -> M B) :
  obeys w Q J strict C m -> (forall a, obeys w Q J strict C (k a)) ->
  obeys w Q J strict C (bind m k).
Proof.
  intros Hm Hk t. unfold bind. destruct (Hm t) as (d1 & E1 & P1).
  destruct (m t) as [[a|e] t1]; simpl in E1, P1; subst t1.
  - destruct (Hk a (t ++ d1)) as (d2 & E2 & P2).
    exists (d1 ++ d2). rewrite app_assoc. split; [exact E2|].
    destruct (fst (k a (t ++ d1))) as [b|e].
    + now apply forallb_app_true.
    + destruct P2 as [P2 P3]. split.
      * intros H. apply forallb_app_true; auto.
      * destruct P3 as [P3|[P3|P3]]; auto.
        right; right. now apply lib_raised_app_r.
  - exists d1. simpl. auto.
Qed.

Lemma obeys_callv {A} C fn args (v : trace -> A) :
  Q (Returned fn args) = true ->
  (forall e, C e || strict = true -> Q (Raised fn args e) = true) ->
  obeys w Q J strict C (callv w fn args v).
Proof.
  intros H1 H2 t. unfold callv.
  destruct (w_raises w fn args t) as [e|] eqn:E.
  - exists [Raised fn args e]. simpl. split; [reflexivity|]. split.
    + intros H. now rewrite (H2 e H).
    + right; right. exists fn, args, t. split; [now left|exact E].
  - exists [Returned fn args]. simpl. now rewrite H1.
Qed.

Lemma obeys_call C fn args :
  Q (Returned fn args) = true ->
  (forall e, C e || strict = true -> Q (Raised fn args e) = true) ->
  obeys w Q J strict C (call w fn args).
Proof.
  apply obeys_callv.
Qed.

Lemma obeys_try {A} C (m : M A) catches h :
  obeys w Q J strict (fun e => catches e || C e) m ->
  (forall e, obeys w Q J strict C (h e)) ->
  obeys w Q J strict C (try_except m catches h).
Proof.
  intros Hm Hh t. unfold try_except. destruct (Hm t) as (d1 & E1 & P1).
  destruct (m t) as [[a|e] t1]; simpl in E1, P1; subst t1.
  - exists d1. simpl. auto.
  - destruct P1 as [P1 P2]. destruct (catches e) eqn:Ec.
    + destruct (Hh e (t ++ d1)) as (d2 & E2 & P3).
      exists (d1 ++ d2). rewrite app_assoc. split; [exact E2|].
      specialize (P1 eq_refl).
      destruct (fst (h e (t ++ d1))) as [b|e'].
      * now apply forallb_app_true.
      * destruct P3 as [P3 P4]. split.
        -- intros H. apply forallb_app_true; auto.
        -- destruct P4 as [P4|[P4|P4]]; auto.
           right; right. now apply lib_raised_app_r.
    + exists d1. simpl. split; [reflexivity|]. simpl in P1, P2.
      split; [exact P1|]. destruct P2 as [P2|P2]; auto.
Qed.

Lemma obeys_with {A} ctx (body : M A) :
  Q (Returned (String.append ctx ".__enter__") []) = true ->
  Q (Returned (String.append ctx ".__exit__") []) = true ->
  (forall e, strict = true ->
     Q (Raised (String.append ctx ".__enter__") [] e) = true) ->
  (forall e, strict = true ->
     Q (Raised (String.append ctx ".__exit__") [] e) = true) ->
  obeys w Q J strict no_handler body ->
  obeys w Q J strict no_handler (with_context w ctx body).
Proof.
  intros Q1 Q2 Q3 Q4 Hb t. unfold with_context, call, callv.
  destruct (w_raises w (String.append ctx ".__enter__") [] t) as [e|] eqn:E.
  - exists [Raised (String.append ctx ".__enter__") [] e]. simpl.
    split; [reflexivity|]. split.
    + intros H. now rewrite (Q3 e H).
    + right; right. eexists _, _, _. split; [now left|exact E].
  - set (t0 := t ++ [Returned (String.append ctx ".__enter__") []]).
    destruct (Hb t0) as (d1 & E1 & P1).
    destruct (body t0) as [r t1]. simpl in E1, P1. subst t1.
    destruct (w_raises w (String.append ctx ".__exit__") [] (t0 ++ d1))
      as [e'|] eqn:E'.
    + exists ([Returned (String.append ctx ".__enter__") []] ++ d1 ++
              [Raised (String.append ctx ".__exit__") [] e']).
      unfold t0. rewrite <- !app_assoc. split; [reflexivity|].
      cbn [fst]. split.
      * intros H. simpl in H.
        apply forallb_app_true; [simpl; now rewrite Q1|].
        apply forallb_app_true; [|simpl; now rewrite (Q4 e' H)].
        destruct r; [exact P1|]. apply P1. exact H.
      * right; right. eexists _, _, _. split; [|exact E'].
        apply in_or_app. right. apply in_or_app. right. now left.
    + exists ([Returned (String.append ctx ".__enter__") []] ++ d1 ++
              [Returned (String.append ctx ".__exit__") []]).
      unfold t0. rewrite <- !app_assoc. split; [reflexivity|].
      cbn [fst]. destruct r as [a|e].
      * apply forallb_app_true; [simpl; now rewrite Q1|].
        apply forallb_app_true; [exact P1|simpl; now rewrite Q2].
      * destruct P1 as [P1 P2]. split.
        -- intros H. apply forallb_app_true; [simpl; now rewrite Q1|].
           apply forallb_app_true; [auto|simpl; now rewrite Q2].
        -- destruct P2 as [P2|[P2|P2]]; auto. right; right.
           apply lib_raised_app_r. now apply lib_raised_app_l.
Qed.

Lemma obeys_for_each {X St} C (body : X -> St -> M St) xs :
  (forall x s, obeys w Q J strict C (body x s)) ->
  forall s, obeys w Q J strict C (for_each body xs s).
Proof.
  intros Hb. induction xs as [|x xs IH]; intros s; simpl.
  - apply obeys_ret.
  - apply obeys_bind; auto.
Qed.

Lemma obeys_for_enumerate {St} C loader
    (body : nat -> batch -> St -> M (control St)) :
  Q (Returned "next" [AStr loader]) = true ->
  (forall e, C e || strict = true ->
     Q (Raised "next" [AStr loader] e) = true) ->
  (forall i b s, obeys w Q J strict C (body i b s)) ->
  forall bs i s, obeys w Q J strict C (for_enumerate w loader body i bs s).
Proof.
  intros Q1 Q2 Hb. induction bs as [|b bs IH]; intros i s; simpl.
  - apply obeys_bind; [now apply obeys_call|]. intros _. apply obeys_ret.
  - apply obeys_bind.
    + apply obeys_bind; [now apply obeys_call|]. intros _. apply Hb.
    + intros [s'|s']; [apply IH|apply obeys_ret].
Qed.

Lemma obeys_for_loader {St} C loader
    (body : nat -> batch -> St -> M (control St)) s :
  Q (Returned "next" [AStr loader]) = true ->
  (forall e, C e || strict = true ->
     Q (Raised "next" [AStr loader] e) = true) ->
  (forall i b s, obeys w Q J strict C (body i b s)) ->
  obeys w Q J strict C (for_loader w loader body s).
Proof.
  intros Q1 Q2 Hb t. unfold for_loader.
  now apply obeys_for_enumerate.
Qed.

Lemma obeys_load_local {A} C name (v : option A) :
  C (UnboundLocalError name) || J (UnboundLocalError name) = true ->
  obeys w Q J strict C (load_local name v).
Proof.
  intros H. destruct v; simpl; [apply obeys_ret|now apply obeys_raise].
Qed.

Lemma obeys_load_global C globals x :
  bound_in globals x || bound_in builtins x = true \/
  C (NameError x) || J (NameError x) = true ->
  obeys w Q J strict C (load_global globals x).
Proof.
  intros H. unfold load_global.
  destruct (bound_in globals x || bound_in builtins x).
  - apply obeys_ret.
  - apply obeys_raise. destruct H; [discriminate|assumption].
Qed.

Lemma obeys_py_assert C b :
  C AssertionError || J AssertionError = true ->
  obeys w Q J strict C (py_assert b).
Proof.
  intros H. destruct b; simpl; [apply obeys_ret|now apply obeys_raise].
Qed.

(** The all-reduce of the three scripts stops at its operator argument. *)
Lemma all_reduce_MEAN_raises s t :
  all_reduce_MEAN w s t = (Raise (AttributeError "MEAN"), t).
Proof.
  reflexivity.
Qed.

Lemma obeys_all_reduce_MEAN C s :
  C (AttributeError "MEAN") || J (AttributeError "MEAN") = true ->
  obeys w Q J strict C (all_reduce_MEAN w s).
Proof.
  intros H t. rewrite all_reduce_MEAN_raises.
  exact (obeys_raise (A:=scalar) C (AttributeError "MEAN") H t).
Qed.

End ObeysRules.

Lemma obeys_bind_never {A B} w Q J strict C (m : M A) (k : A -> M B) :
  obeys w Q J strict C m -> never_returns m -> obeys w Q J strict C (bind m k).
Proof.
  intros Hm Hn t. unfold bind. destruct (Hm t) as (d & E & P).
  specialize (Hn t). destruct (m t) as [[a|e] t']; [discriminate|].
  exists d. auto.
Qed.

(** What a discipline says of a computation that never returns. *)
Lemma obeys_never_returns {A} w Q J strict (m : M A) :
  obeys w Q J strict no_handler m -> never_returns m ->
  forall t, exists e d,
    m t = (Raise e, t ++ d) /\
    (strict = true -> forallb Q d = true) /\
    (J e = true \/ lib_raised w e d).
Proof.
  intros Hm Hn t. destruct (Hm t) as (d & E & P). specialize (Hn t).
  destruct (m t) as [[a|e] t']; [discriminate|]. simpl in E, P. subst t'.
  exists e, d. split; [reflexivity|]. destruct P as [P1 P2]. split.
  - intros H. apply P1. exact H.
  - destruct P2 as [P2|P2]; [discriminate|exact P2].
Qed.

(** The events of a computation under a strict discipline. *)
Lemma obeys_strict_events {A} w Q J (m : M A) :
  obeys w Q J true no_handler m ->
  forall t, exists d, snd (m t) = t ++ d /\ forallb Q d = true.
Proof.
  intros Hm t. destruct (Hm t) as (d & E & P). exists d. split; [exact E|].
  destruct (fst (m t)); [exact P|]. now apply P.
Qed.


Lemma never_returns_bind_l {A B} (m : M A) (k : A -> M B) :
  never_returns m -> never_returns (bind m k).
Proof.
  intros H t. unfold bind. specialize (H t).
  destruct (m t) as [[a|e] t']; [discriminate|reflexivity].
Qed.

Lemma never_returns_bind_r {A B} (m : M A) (k : A -> M B) :
  (forall a, never_returns (k a)) -> never_returns (bind m k).
Proof.
  intros H t. unfold bind.
  destruct (m t) as [[a|e] t']; [apply H|reflexivity].
Qed.

Lemma never_returns_raise {A} e : never_returns (@raise A e).
Proof.
  intros t. reflexivity.
Qed.

Lemma all_reduce_MEAN_never_returns w s : never_returns (all_reduce_MEAN w s).
Proof.
  intros t. reflexivity.
Qed.

Lemma reduced_percent_never_returns w st :
  never_returns (Mag240m.reduced_percent w st).
Proof.
  apply never_returns_bind_l, all_reduce_MEAN_never_returns.
Qed.

(** A computation that begins with the all-reduce goes no further. *)
Ltac stops_at_all_reduce :=
  lazymatch goal with
  | |- never_returns (all_reduce_MEAN _ _) =>
      apply all_reduce_MEAN_never_returns
  | |- never_returns (Mag240m.reduced_percent _ _) =>
      apply reduced_percent_never_returns
  | |- never_returns (bind _ _) =>
      apply never_returns_bind_l; stops_at_all_reduce
  end.

(** Side conditions of the rules are closed by computation. *)
Ltac obeys_side :=
  first
    [ reflexivity
    | intros; reflexivity
    | intros; discriminate
    | left; reflexivity
    | right; reflexivity
    | intros; apply orb_true_iff; right; reflexivity
    | let e := fresh "e" in
      let H := fresh "H" in
      intros e H; simpl in H |- *; rewrite ?orb_false_r in H; exact H ].

Ltac obeys_step :=
  lazymatch goal with
  | |- obeys _ _ _ _ _ (bind (load_global _ _) _) =>
      first
        [ apply obeys_bind_never;
          [ apply obeys_load_global; obeys_side | intros ?; reflexivity ]
        | apply obeys_bind; [ | intros ] ]
  | |- obeys _ _ _ _ _ (bind _ _) =>
      first
        [ apply obeys_bind_never; [ | solve [stops_at_all_reduce] ]
        | apply obeys_bind; [ | intros ] ]
  | |- obeys _ _ _ _ _ (ret _) => apply obeys_ret
  | |- obeys _ _ _ _ _ (raise _) => apply obeys_raise; obeys_side
  | |- obeys _ _ _ _ _ (lift _) => apply obeys_lift; obeys_side
  | |- obeys _ _ _ _ _ (callv _ _ _ _) => apply obeys_callv; obeys_side
  | |- obeys _ _ _ _ _ (call _ _ _) => apply obeys_call; obeys_side
  | |- obeys _ _ _ _ _ (all_reduce_MEAN _ _) =>
      apply obeys_all_reduce_MEAN; obeys_side
  | |- obeys _ _ _ _ _ (try_except _ _ _) => apply obeys_try; [ | intros ]
  | |- obeys _ _ _ _ _ (with_context _ _ _) => apply obeys_with; try obeys_side
  | |- obeys _ _ _ _ _ (for_each _ _ _) => apply obeys_for_each; intros
  | |- obeys _ _ _ _ _ (for_loader _ _ _ _) =>
      apply obeys_for_loader; [obeys_side | obeys_side | intros]
  | |- obeys _ _ _ _ _ (load_local _ _) => apply obeys_load_local; obeys_side
  | |- obeys _ _ _ _ _ (load_global _ _) => apply obeys_load_global; obeys_side
  | |- obeys _ _ _ _ _ (py_assert _) => apply obeys_py_assert; obeys_side
  | |- obeys _ _ _ _ _ (py_call ?fn ?ps ?args ?body) =>
      let b := eval vm_compute in (Nat.eqb (length args) (length ps)) in
      lazymatch b with
      | true =>
          change (py_call fn ps args body) with (body (combine ps args));
          cbv beta
      | false =>
          change (py_call fn ps args body)
            with (@raise unit (TypeError_args fn (length ps) (length args)))
      end
  | |- obeys _ _ _ _ _ (if ?b then _ else _) => destruct b
  | |- obeys _ _ _ _ _ (match ?x with _ => _ end) => destruct x
  | |- obeys _ _ _ _ _ (let (_, _) := ?x in _) => destruct x
  end.

Ltac never_step :=
  lazymatch goal with
  | |- never_returns (bind (load_global _ _) _) =>
      first
        [ apply never_returns_bind_l; intros ?; reflexivity
        | apply never_returns_bind_r; intros ]
  | |- never_returns (bind _ _) =>
      first
        [ solve [stops_at_all_reduce]
        | apply never_returns_bind_r; intros ]
  | |- never_returns (if ?b then _ else _) => destruct b
  | |- never_returns (raise _) => apply never_returns_raise
  | |- never_returns (py_call _ _ _ _) => intros ?; reflexivity
  end.

Create HintDb scripts.
Create HintDb constructors.

#[local] Hint Unfold
  MultiNode.workers_from_cpu_count SingleNode.workers_from_cpu_count
  MultiNode.get_num_workers MultiNode.make_loaders MultiNode.train_iteration
  MultiNode.train_loop MultiNode.accumulate_accuracy MultiNode.eval_iteration
  MultiNode.test_iteration MultiNode.reduce_and_print MultiNode.epoch_body
  MultiNode.test_phase MultiNode.run_train MultiNode.main
  SingleNode.get_num_workers SingleNode.make_loaders
  SingleNode.train_iteration SingleNode.train_loop
  SingleNode.print_average_time SingleNode.accumulate_accuracy
  SingleNode.eval_iteration SingleNode.test_iteration
  SingleNode.reduce_and_print SingleNode.epoch_body SingleNode.test_phase
  SingleNode.run_train SingleNode.main SingleNode.child
  Mag240m.print_if_rank0
  Mag240m.split_indices Mag240m.common_step
  Mag240m.training_step Mag240m.validation_step Mag240m.train_iteration
  Mag240m.train_loop Mag240m.print_epoch_summary Mag240m.eval_iteration
  Mag240m.reduced_percent Mag240m.epoch_body Mag240m.test_report
  Mag240m.test_phase Mag240m.run_finish Mag240m.run Mag240m.choose_devices
  Mag240m.spawn_guarded Mag240m.main Mag240m.child : scripts.

#[local] Hint Unfold
  Mag240m.SAGEConvLayer_init Mag240m.GraphSAGE_init Mag240m.run_setup
  : constructors.

Ltac obeys_auto :=
  repeat first
    [ obeys_step
    | progress autounfold with scripts
    | progress autounfold with constructors ].

(* ===================================================================== *)
(** ** The multi-node script never gets into [run_train] *)
(* ===================================================================== *)

Lemma multinode_main_obeys w a :
  obeys w any_event is_multinode_main_error false no_handler
    (MultiNode.main w a).
Proof.
  obeys_auto.
Qed.

Lemma multinode_main_never_returns w a : never_returns (MultiNode.main w a).
Proof.
  unfold MultiNode.main. repeat never_step.
Qed.

Lemma is_multinode_main_error_inv e :
  is_multinode_main_error e = true ->
  e = TypeError_args "run_train" 9 10 \/ e = AssertionError.
Proof.
  destruct e; simpl; try discriminate; auto.
  do 10 (destruct takes as [|takes]; try discriminate).
  do 11 (destruct given as [|given]; try discriminate).
  intros H. apply String.eqb_eq in H. subst. now left.
Qed.

(** C3 (as amended): the call of [run_train] in the [__main__] block of
    papers100m_gcn_multinode.py passes 10 positional arguments to a
    definition with 9 parameters, so the call raises TypeError whatever the
    body; every execution of the block ends in an exception, which is that
    TypeError unless the assertion or a library call before it failed. *)
Theorem multinode_main_call_raises_TypeError :
  forall (w : World) (a : MultiNode.cli) (t : trace),
    length MultiNode.run_train_call_args = 10%nat /\
    length MultiNode.run_train_params = 9%nat /\
    (forall body : list (string * string) -> M unit,
        py_call "run_train" MultiNode.run_train_params
          MultiNode.run_train_call_args body t
        = (Raise (TypeError_args "run_train" 9 10), t)) /\
    is_TypeError (TypeError_args "run_train" 9 10) = true /\
    (exists e d,
        MultiNode.main w a t = (Raise e, t ++ d) /\
        (e = TypeError_args "run_train" 9 10 \/ e = AssertionError
         \/ lib_raised w e d)).
Proof.
  intros w a t. repeat split; try reflexivity.
  destruct (obeys_never_returns _ _ _ _ _ (multinode_main_obeys w a)
              (multinode_main_never_returns w a) t) as (e & d & E & _ & P).
  exists e, d. split; [exact E|].
  destruct P as [P|P]; [|auto].
  apply is_multinode_main_error_inv in P. tauto.
Qed.

(** C3 as stated speaks of 11 arguments against 10 parameters; the counts in
    the source are 10 and 9. *)
Lemma multinode_call_counts_differ :
  ~ (length MultiNode.run_train_call_args = 11%nat /\
     length MultiNode.run_train_params = 10%nat).
Proof.
  intros [H _]. discriminate H.
Qed.

(* ===================================================================== *)
(** ** Constructing the GraphSAGE model *)
(* ===================================================================== *)

Lemma ops_of_not_training d : forallb not_training d = true -> ops_of d = [].
Proof.
  unfold ops_of, not_training. induction d as [|ev d IH]; simpl; auto.
  intros H. apply andb_true_iff in H. destruct H as [H1 H2].
  apply negb_true_iff in H1. rewrite H1. auto.
Qed.

Ltac each_namespace debug H :=
  unfold run_namespaces in H; simpl in H;
  destruct H as [H|[H|[]]]; subst; [ | destruct debug ].

Lemma SAGEConvLayer_init_obeys w debug g inf outf md :
  In g (run_namespaces debug) ->
  obeys w not_training is_unbound_layer_name true no_handler
    (Mag240m.SAGEConvLayer_init w g inf outf md).
Proof.
  intros H. each_namespace debug H; obeys_auto.
Qed.

Lemma SAGEConvLayer_init_never_returns w debug g inf outf md :
  In g (run_namespaces debug) ->
  never_returns (Mag240m.SAGEConvLayer_init w g inf outf md).
Proof.
  intros H. unfold Mag240m.SAGEConvLayer_init.
  each_namespace debug H; repeat never_step.
Qed.

Ltac in_namespaces L :=
  first
    [ apply (L true); left; reflexivity
    | apply (L true); right; left; reflexivity
    | apply (L false); right; left; reflexivity ].

Lemma GraphSAGE_init_obeys w debug g data inc hid nl outc :
  In g (run_namespaces debug) ->
  obeys w not_training is_unbound_layer_name true no_handler
    (Mag240m.GraphSAGE_init w g data inc hid nl outc).
Proof.
  intros H. unfold Mag240m.GraphSAGE_init.
  each_namespace debug H;
    repeat first
      [ in_namespaces (SAGEConvLayer_init_obeys w) | obeys_step ].
Qed.

Lemma GraphSAGE_init_never_returns w debug g data inc hid nl outc :
  In g (run_namespaces debug) ->
  never_returns (Mag240m.GraphSAGE_init w g data inc hid nl outc).
Proof.
  intros H. unfold Mag240m.GraphSAGE_init.
  each_namespace debug H;
    repeat first
      [ apply never_returns_bind_l;
        in_namespaces (SAGEConvLayer_init_never_returns w)
      | never_step ].
Qed.

Lemma run_setup_obeys w debug g rank data hp :
  In g (run_namespaces debug) ->
  obeys w not_training is_unbound_layer_name true no_handler
    (Mag240m.run_setup w g rank data hp).
Proof.
  intros H. unfold Mag240m.run_setup.
  each_namespace debug H;
    repeat first
      [ apply obeys_bind_never;
        [ in_namespaces (GraphSAGE_init_obeys w)
        | in_namespaces (GraphSAGE_init_never_returns w) ]
      | obeys_step
      | progress autounfold with scripts ].
Qed.

Lemma run_setup_never_returns w debug g rank data hp :
  In g (run_namespaces debug) ->
  never_returns (Mag240m.run_setup w g rank data hp).
Proof.
  intros H. unfold Mag240m.run_setup.
  each_namespace debug H;
    repeat first
      [ apply never_returns_bind_l;
        in_namespaces (GraphSAGE_init_never_returns w)
      | never_step ].
Qed.

Lemma is_unbound_layer_name_inv e :
  is_unbound_layer_name e = true ->
  e = NameError "conv_type" \/ e = NameError "nn".
Proof.
  destruct e; simpl; try discriminate. intros H.
  apply orb_true_iff in H. destruct H as [H|H]; apply String.eqb_eq in H;
    subst; auto.
Qed.

(** C1: in every namespace [run] can execute in, constructing the model
    raises: the exception is the NameError of [conv_type] (some edge type
    exists) or of [nn] (none does), unless a library call made before it
    failed; [run] ends the same way, and no operation of a training
    iteration occurs before that.  When the library calls return, the
    exception is that NameError. *)
Theorem graphsage_construction_raises_NameError :
  forall (w : World) (debug : bool) (rank : Z) (data : Mag240m.hetero_data)
         (hp : Mag240m.hparams) (inc hid nl outc : Z) (t : trace),
    Forall
      (fun g =>
         (exists e d,
             Mag240m.GraphSAGE_init w g data inc hid nl outc t
             = (Raise e, t ++ d) /\
             ((e = NameError "conv_type" \/ e = NameError "nn")
              \/ lib_raised w e d) /\
             (lib_ok w -> is_NameError e = true)) /\
         (exists e d,
             Mag240m.run w g rank data hp t = (Raise e, t ++ d) /\
             forallb not_training d = true /\
             ops_of d = [] /\
             ((e = NameError "conv_type" \/ e = NameError "nn")
              \/ lib_raised w e d) /\
             (lib_ok w -> is_NameError e = true)))
      (run_namespaces debug).
Proof.
  intros w debug rank data hp inc hid nl outc t.
  apply Forall_forall. intros g Hg. split.
  - destruct (obeys_never_returns _ _ _ _ _
                (GraphSAGE_init_obeys w debug g data inc hid nl outc Hg)
                (GraphSAGE_init_never_returns w debug g data inc hid nl outc
                   Hg) t) as (e & d & E & _ & P).
    exists e, d. split; [exact E|].
    assert (P' : (e = NameError "conv_type" \/ e = NameError "nn")
                 \/ lib_raised w e d).
    { destruct P as [P|P]; [left; now apply is_unbound_layer_name_inv|].
      now right. }
    split; [exact P'|]. intros Hok.
    destruct P' as [[P'|P']|P']; subst; try reflexivity.
    now apply lib_ok_not_raised in P'.
  - assert (Hrun : obeys w not_training is_unbound_layer_name true no_handler
                     (Mag240m.run w g rank data hp)).
    { unfold Mag240m.run. apply obeys_bind_never.
      - now apply (run_setup_obeys w debug).
      - now apply (run_setup_never_returns w debug). }
    assert (Hnever : never_returns (Mag240m.run w g rank data hp)).
    { unfold Mag240m.run. apply never_returns_bind_l.
      now apply (run_setup_never_returns w debug). }
    destruct (obeys_never_returns _ _ _ _ _ Hrun Hnever t)
      as (e & d & E & Hd & P).
    specialize (Hd eq_refl).
    exists e, d. split; [exact E|]. split; [exact Hd|].
    split; [now apply ops_of_not_training|].
    assert (P' : (e = NameError "conv_type" \/ e = NameError "nn")
                 \/ lib_raised w e d).
    { destruct P as [P|P]; [left; now apply is_unbound_layer_name_inv|].
      now right. }
    split; [exact P'|]. intros Hok.
    destruct P' as [[P'|P']|P']; subst; try reflexivity.
    now apply lib_ok_not_raised in P'.
Qed.

(** The model constructor cuts [run] short under any discipline that its
    own events satisfy. *)
Ltac obeys_upto_constructor w :=
  repeat first
    [ apply obeys_bind_never;
      [ unfold Mag240m.GraphSAGE_init; obeys_auto
      | in_namespaces (GraphSAGE_init_never_returns w) ]
    | apply obeys_bind_never;
      [ unfold Mag240m.run_setup
      | in_namespaces (run_setup_never_returns w) ]
    | obeys_step
    | progress autounfold with scripts ].

(* ===================================================================== *)
(** ** Running with a library that never raises *)
(* ===================================================================== *)

Ltac ok_eval Hok :=
  cbv beta iota delta
    [bind call callv ret lift load_local raise with_context for_loader
     py_assert];
  rewrite ?all_reduce_MEAN_raises; cbv beta iota;
  repeat (rewrite Hok; cbv beta iota).

Section LibOk.
Variable w : World.
Hypothesis Hok : lib_ok w.


End LibOk.

(* ===================================================================== *)
(** ** The accuracy threshold and the saved model *)
(* ===================================================================== *)

Lemma never_returns_with {A} w ctx (body : M A) :
  never_returns body -> never_returns (with_context w ctx body).
Proof.
  intros Hb t. unfold with_context, call, callv.
  destruct (w_raises w (String.append ctx ".__enter__") [] t);
    [reflexivity|].
  specialize (Hb (t ++ [Returned (String.append ctx ".__enter__") []])).
  destruct (body (t ++ [Returned (String.append ctx ".__enter__") []]))
    as [[a|e] t1]; [discriminate|].
  destruct (w_raises w (String.append ctx ".__exit__") [] t1); reflexivity.
Qed.

Lemma test_report_never_returns w st : never_returns (Mag240m.test_report w st).
Proof.
  apply never_returns_bind_l, reduced_percent_never_returns.
Qed.




Lemma is_missing_MEAN_inv e :
  is_missing_MEAN e = true -> e = AttributeError "MEAN".
Proof.
  destruct e; simpl; try discriminate. intros H.
  apply String.eqb_eq in H. now subst.
Qed.

Lemma mag240m_test_phase_never_returns w rank hp st :
  never_returns (Mag240m.test_phase w rank hp st).
Proof.
  unfold Mag240m.test_phase.
  do 2 (apply never_returns_bind_r; intros).
  apply never_returns_with.
  do 2 (apply never_returns_bind_r; intros).
  apply test_report_never_returns.
Qed.

(** C8 (the code against the claim): no process of any of the three scripts
    ever calls [torch.save], whatever the library does.  The papers100m
    scripts have no such call, in the parent ([main]) or in a training
    process ([child], [run_train]).  mag240m_graphsage.py has one, on line
    263, which no run reaches: [run] ends in an exception in both namespaces
    (the NameError of the model constructor when the library calls return),
    so neither the [__main__] block nor a child of [mp.spawn] saves; and the
    test pass that line 263 follows ends in an exception as well (the
    AttributeError of [ReduceOp.MEAN] when the library calls return), so the
    model would not be saved even with the constructor repaired. *)
Theorem no_script_saves_the_model :
  forall (w : World),
    (forall a t, exists d,
        snd (SingleNode.main w a t) = t ++ d /\ forallb not_save d = true) /\
    (forall i args t, exists d,
        snd (SingleNode.child w i args t) = t ++ d /\
        forallb not_save d = true) /\
    (forall a t, exists d,
        snd (MultiNode.main w a t) = t ++ d /\ forallb not_save d = true) /\
    (forall g ws ep bs fan sp nc cu t, exists d,
        snd (MultiNode.run_train w g ws ep bs fan sp nc cu t) = t ++ d /\
        forallb not_save d = true) /\
    (forall a data t, exists d,
        snd (Mag240m.main w a data t) = t ++ d /\
        forallb not_save d = true) /\
    (forall i a data n t, exists d,
        snd (Mag240m.child w i a data n t) = t ++ d /\
        forallb not_save d = true) /\
    (forall debug rank data hp t,
        Forall
          (fun g => exists e d,
               Mag240m.run w g rank data hp t = (Raise e, t ++ d) /\
               forallb not_save d = true /\
               (lib_ok w -> is_NameError e = true))
          (run_namespaces debug)) /\
    (forall rank hp st t, exists e d,
        (final_test_acc <- Mag240m.test_phase w rank hp st ;;
         Mag240m.run_finish w hp final_test_acc) t = (Raise e, t ++ d) /\
        forallb not_save d = true /\
        (lib_ok w -> e = AttributeError "MEAN")).
Proof.
  intros w. split; [|split; [|split; [|split; [|split; [|split; [|split]]]]]].
  - intros a. apply (obeys_strict_events w not_save any_exn). obeys_auto.
  - intros i args. apply (obeys_strict_events w not_save any_exn).
    obeys_auto.
  - intros a. apply (obeys_strict_events w not_save any_exn). obeys_auto.
  - intros g ws ep bs fan sp nc cu.
    apply (obeys_strict_events w not_save any_exn). obeys_auto.
  - intros a data. apply (obeys_strict_events w not_save any_exn).
    unfold Mag240m.main. destruct (Mag240m.cli_debug a);
      obeys_upto_constructor w.
  - intros i a data n. apply (obeys_strict_events w not_save any_exn).
    unfold Mag240m.child. obeys_upto_constructor w.
  - intros debug rank data hp t. apply Forall_forall. intros g Hg.
    assert (Hrun : obeys w not_save is_unbound_layer_name true no_handler
                     (Mag240m.run w g rank data hp)).
    { unfold Mag240m.run. apply obeys_bind_never.
      - unfold Mag240m.run_setup.
        each_namespace debug Hg; obeys_upto_constructor w.
      - now apply (run_setup_never_returns w debug). }
    assert (Hnever : never_returns (Mag240m.run w g rank data hp)).
    { unfold Mag240m.run. apply never_returns_bind_l.
      now apply (run_setup_never_returns w debug). }
    destruct (obeys_never_returns _ _ _ _ _ Hrun Hnever t)
      as (e & d & E & Hd & P).
    exists e, d. split; [exact E|]. split; [now apply Hd|].
    intros Hok. destruct P as [P|P].
    + apply is_unbound_layer_name_inv in P. destruct P; now subst.
    + now apply lib_ok_not_raised in P.
  - intros rank hp st t.
    assert (Hm : obeys w not_save is_missing_MEAN true no_handler
                   (final_test_acc <- Mag240m.test_phase w rank hp st ;;
                    Mag240m.run_finish w hp final_test_acc)).
    { apply obeys_bind_never;
        [obeys_auto|apply mag240m_test_phase_never_returns]. }
    assert (Hn : never_returns
                   (final_test_acc <- Mag240m.test_phase w rank hp st ;;
                    Mag240m.run_finish w hp final_test_acc)).
    { apply never_returns_bind_l, mag240m_test_phase_never_returns. }
    destruct (obeys_never_returns _ _ _ _ _ Hm Hn t) as (e & d & E & Hd & P).
    exists e, d. split; [exact E|]. split; [now apply Hd|].
    intros Hok. destruct P as [P|P].
    + now apply is_missing_MEAN_inv.
    + now apply lib_ok_not_raised in P.
Qed.

(* ===================================================================== *)
(** ** Exception handlers *)
(* ===================================================================== *)


Ltac find_event := repeat first [ left; reflexivity | right ].


(* ===================================================================== *)
(** ** The number of loader workers *)
(* ===================================================================== *)

Lemma floordiv_positive n f : 0 < f -> 0 <= n -> (0 < n / f <-> f <= n).
Proof.
  intros Hf Hn. split; intros H.
  - destruct (Z.lt_ge_cases n f) as [Hlt|Hge]; [|exact Hge].
    rewrite Z.div_small in H by lia. lia.
  - apply Z.div_str_pos. lia.
Qed.

Lemma py_floordiv_pos a f : 0 < f -> py_floordiv a f = Ok (a / f).
Proof.
  intros Hf. unfold py_floordiv.
  destruct (Z.eqb_spec f 0); [lia|reflexivity].
Qed.

(** C4 (as amended): with [world_size >= 1], [get_num_workers] returns the
    CPU-affinity count integer-divided by the factor (2 in the multi-node
    script, [2 * world_size] in the single-node one) when the affinity query
    returns; when [os] has no [sched_getaffinity], or the query raises an
    [Exception], it is [os.cpu_count()] divided by the same factor.  The
    result is a non-negative integer, positive exactly when the count
    reaches the factor. *)
Theorem get_num_workers_divides_the_cpu_count :
  forall (w : World) (world_size : Z) (t : trace),
    1 <= world_size ->
    let query := Raised "os.sched_getaffinity" [AInt 0] in
    (w_has_sched_getaffinity w = true ->
     w_raises w "os.sched_getaffinity" [AInt 0] t = None ->
     let n := Z.of_nat (length (w_affinity w t)) in
     fst (MultiNode.get_num_workers w t) = Ok (n / 2) /\
     fst (SingleNode.get_num_workers w world_size t)
     = Ok (n / (2 * world_size)) /\
     0 <= n / 2 /\ 0 <= n / (2 * world_size) /\
     (0 < n / 2 <-> 2 <= n) /\
     (0 < n / (2 * world_size) <-> 2 * world_size <= n)) /\
    (w_has_sched_getaffinity w = false ->
     MultiNode.get_num_workers w t = MultiNode.workers_from_cpu_count w t /\
     SingleNode.get_num_workers w world_size t
     = SingleNode.workers_from_cpu_count w world_size t) /\
    (forall e,
        w_has_sched_getaffinity w = true ->
        w_raises w "os.sched_getaffinity" [AInt 0] t = Some e ->
        is_Exception e = true ->
        MultiNode.get_num_workers w t
        = MultiNode.workers_from_cpu_count w (t ++ [query e]) /\
        SingleNode.get_num_workers w world_size t
        = SingleNode.workers_from_cpu_count w world_size (t ++ [query e])) /\
    (forall u c,
        w_raises w "os.cpu_count" [] u = None ->
        w_cpu_count w u = Some c ->
        0 <= c ->
        fst (MultiNode.workers_from_cpu_count w u) = Ok (c / 2) /\
        fst (SingleNode.workers_from_cpu_count w world_size u)
        = Ok (c / (2 * world_size)) /\
        0 <= c / 2 /\ 0 <= c / (2 * world_size) /\
        (0 < c / 2 <-> 2 <= c) /\
        (0 < c / (2 * world_size) <-> 2 * world_size <= c)).
Proof.
  intros w ws t Hws query. repeat apply conj.
  - intros Ha Hr n.
    assert (Hn : 0 <= n) by (unfold n; lia).
    unfold MultiNode.get_num_workers, SingleNode.get_num_workers.
    rewrite Ha. unfold bind, try_except, callv. rewrite Hr.
    unfold lift. fold n. rewrite !py_floordiv_pos by lia. cbn [fst].
    split; [reflexivity|]. split; [reflexivity|].
    split; [apply Z.div_pos; lia|]. split; [apply Z.div_pos; lia|].
    split; apply floordiv_positive; lia.
  - intros Ha. unfold MultiNode.get_num_workers, SingleNode.get_num_workers.
    rewrite Ha. split; reflexivity.
  - intros e Ha Hr He.
    unfold MultiNode.get_num_workers, SingleNode.get_num_workers.
    rewrite Ha. unfold bind at 1 3. unfold try_except, bind, callv.
    rewrite Hr, He. split; reflexivity.
  - intros u c Hr Hc Hpos.
    unfold MultiNode.workers_from_cpu_count,
      SingleNode.workers_from_cpu_count, bind, callv.
    rewrite Hr, Hc. unfold lift. rewrite !py_floordiv_pos by lia. cbn [fst].
    split; [reflexivity|]. split; [reflexivity|].
    split; [apply Z.div_pos; lia|]. split; [apply Z.div_pos; lia|].
    split; apply floordiv_positive; lia.
Qed.

Lemma get_num_workers_divides_the_cpu_count_witness :
  1 <= 2 /\
  fst (MultiNode.get_num_workers (quiet_world no_batches 0.5) []) = Ok (4 / 2)
  /\
  fst (SingleNode.get_num_workers (quiet_world no_batches 0.5) 2 [])
  = Ok (4 / (2 * 2)).
Proof.
  split; [lia|].
  pose proof (get_num_workers_divides_the_cpu_count
                (quiet_world no_batches 0.5) 2 [] ltac:(lia)) as H.
  destruct H as [H _].
  specialize (H eq_refl eq_refl).
  destruct H as (H1 & H2 & _). split; [exact H1|exact H2].
Defined.

(** C4 as stated promises a positive integer for every environment: on a
    machine whose process is bound to one CPU the multi-node script gets 0,
    and so does the single-node script with 4 CPUs for 4 GPUs. *)
Lemma get_num_workers_can_be_zero :
  fst (MultiNode.get_num_workers one_cpu_world []) = Ok 0 /\
  fst (SingleNode.get_num_workers (quiet_world no_batches 0.5) 4 []) = Ok 0 /\
  ~ 0 < 0.
Proof.
  split; [reflexivity|]. split; [reflexivity|]. lia.
Qed.

(* ===================================================================== *)
(** ** The per-rank chunks of an index tensor *)
(* ===================================================================== *)

Section Chunks.
Variable idx : list Z.
Variable s : nat.





End Chunks.

Lemma split_for_rank_slice (idx : list Z) (world rank : Z) :
  1 <= world -> world <= Z.of_nat (length idx) -> 0 <= rank < world ->
  split_for_rank idx world rank
  = Ok (slice idx
          (Z.to_nat rank * Z.to_nat (Z.of_nat (length idx) / world))
          (Z.to_nat (Z.of_nat (length idx) / world))).
Proof.
  intros Hw Hn Hr. unfold split_for_rank, slice.
  rewrite py_floordiv_pos by lia. cbn [rbind].
  assert (Hq : 1 <= Z.of_nat (length idx) / world)
    by (apply Z.div_le_lower_bound; lia).
  assert (Hqw : world * (Z.of_nat (length idx) / world)
                <= Z.of_nat (length idx)) by (apply Z.mul_div_le; lia).
  unfold tensor_split.
  destruct (Z.ltb_spec (Z.of_nat (length idx) / world) 0) as [|_]; [lia|].
  destruct (Z.eqb_spec (Z.of_nat (length idx) / world) 0) as [|_]; [lia|].
  cbn [andb rbind].
  destruct (Nat.eqb_spec (Z.to_nat (Z.of_nat (length idx) / world)) 0)
    as [|Hs]; [lia|].
  unfold tuple_index. rewrite length_map, length_seq.
  set (n := length idx) in *.
  set (s := Z.to_nat (Z.of_nat n / world)) in *.
  set (k := Nat.max ((n + s - 1) / s) 1).
  assert (Hk : (Z.to_nat world <= k)%nat).
  { unfold k. etransitivity; [|apply Nat.le_max_l].
    apply Nat.div_le_lower_bound; [exact Hs|]. unfold s. nia. }
  destruct (Z.ltb_spec rank 0) as [|_]; [lia|].
  destruct (Z.ltb_spec rank 0) as [|_]; [lia|].
  destruct (Z.leb_spec (Z.of_nat k) rank) as [|_]; [lia|]. cbn [orb].
  rewrite nth_error_map, nth_error_seq.
  destruct (Nat.ltb_spec (Z.to_nat rank) k) as [_|]; [|lia].
  reflexivity.
Qed.



(* ===================================================================== *)
(** ** The iterations of the training loops *)
(* ===================================================================== *)

Section Iterations.
Variable w : World.
Variable St : Type.
Variable loader : string.
Variable body : nat -> batch -> St -> M (control St).
Variable R : nat -> batch -> bool -> list event -> Prop.
Variable Rstop : list event -> Prop.
Variable Inv : nat -> St -> Prop.

Hypothesis Hstop : forall ev, event_fn ev = "next" -> Rstop [ev].

Hypothesis Hbody :
  forall i b s t, Inv i s ->
    exists seg,
      snd (bind (call w "next" [AStr loader]) (fun _ => body i b s) t)
      = t ++ seg /\
      match fst (bind (call w "next" [AStr loader]) (fun _ => body i b s) t)
      with
      | Ok (Continue s') => R i b true seg /\ Inv (S i) s'
      | _ => R i b false seg
      end.


End Iterations.


(** Symbolic execution of a loop body in an arbitrary world: every library
    call is split into its two outcomes. *)
Ltac exec_body :=
  cbv beta iota zeta delta
    [bind call callv ret lift load_local raise py_mod py_truediv percent_of];
  repeat
    (match goal with
     | |- context [w_raises ?w ?f ?a ?t] =>
         let E := fresh "Ecall" in
         destruct (w_raises w f a t) eqn:E
     | |- context [if ?b then _ else _] =>
         let E := fresh "Eif" in
         destruct b eqn:E
     | |- context [match ?x with Some _ => _ | None => _ end] =>
         let E := fresh "Eopt" in
         destruct x eqn:E
     | |- context [match ?x with PyNum _ => _ | TensorVal _ => _ end] =>
         let E := fresh "Esc" in
         destruct x eqn:E
     end;
     cbv beta iota).










Section Ensures.
Variable w : World.










End Ensures.


(* ===================================================================== *)
(** ** The learning rate, and the accuracy that is never printed *)
(* ===================================================================== *)

(** C2: whatever [--lr] is given, the optimizer of both papers100m scripts
    is created with [lr=0.01]; with [--lr 0.5] the two differ. *)
Theorem papers100m_adam_ignores_the_lr_flag :
  forall lr_flag : Q,
    (exists args t1,
        SingleNode.main (quiet_world two_test_batches 0.5)
          (singlenode_cli lr_flag) [] = (Ok args, t1) /\
        SingleNode.lr (singlenode_cli lr_flag) = lr_flag /\
        In (Returned "torch.optim.Adam"
              [AStr "lr"; ANum 0.01; AStr "weight_decay"; ANum 0.0005])
          (snd (SingleNode.child (quiet_world two_test_batches 0.5) 0 args
                  []))) /\
    In (Returned "torch.optim.Adam"
          [AStr "lr"; ANum 0.01; AStr "weight_decay"; ANum 0.0005])
      (snd (MultiNode.run_train (quiet_world two_test_batches 0.5)
              MultiNode.main_globals 1
              (MultiNode.epochs (multinode_cli lr_flag))
              (MultiNode.batch_size (multinode_cli lr_flag))
              (MultiNode.fan_out (multinode_cli lr_flag)) small_split 172
              (MultiNode.cugraph_data_loader (multinode_cli lr_flag)) [])) /\
    ~ (0.01 == 0.5)%Q.
Proof.
  intros lr_flag. split; [|split].
  - eexists _, _. split; [vm_compute; reflexivity|].
    split; [reflexivity|]. vm_compute. find_event.
  - vm_compute. find_event.
  - intros H. discriminate H.
Qed.

Lemma reduce_and_print_never_returns w :
  (forall label st,
      never_returns (SingleNode.reduce_and_print w label st)) /\
  (forall label st,
      never_returns (MultiNode.reduce_and_print w label st)).
Proof.
  split; intros label st;
    apply never_returns_bind_l, all_reduce_MEAN_never_returns.
Qed.

Lemma singlenode_test_phase_never_returns w rank bs st :
  never_returns (SingleNode.test_phase w rank bs st).
Proof.
  unfold SingleNode.test_phase. apply never_returns_with.
  do 2 (apply never_returns_bind_r; intros).
  apply (proj1 (reduce_and_print_never_returns w)).
Qed.

Lemma multinode_test_phase_never_returns w bs st :
  never_returns (MultiNode.test_phase w bs st).
Proof.
  unfold MultiNode.test_phase. apply never_returns_with.
  do 2 (apply never_returns_bind_r; intros).
  apply (proj2 (reduce_and_print_never_returns w)).
Qed.

(** A function that gets as far as its test pass ends there. *)
Ltac never_past_test_pass :=
  repeat
    lazymatch goal with
    | |- never_returns (bind (SingleNode.test_phase _ _ _ _) _) =>
        apply never_returns_bind_l, singlenode_test_phase_never_returns
    | |- never_returns (bind (MultiNode.test_phase _ _ _) _) =>
        apply never_returns_bind_l, multinode_test_phase_never_returns
    | |- never_returns (bind _ _) => apply never_returns_bind_r; intros
    end.

Lemma singlenode_child_never_returns w i args :
  never_returns (SingleNode.child w i args).
Proof.
  change (never_returns
            (SingleNode.run_train w i (SingleNode.sp_world_size args)
               (SingleNode.sp_epochs args) (SingleNode.sp_batch_size args)
               (SingleNode.sp_fan_out args) (SingleNode.sp_split_idx args)
               (SingleNode.sp_num_classes args) (SingleNode.sp_cugraph args))).
  unfold SingleNode.run_train. never_past_test_pass.
Qed.

Lemma multinode_run_train_never_returns w g ws ep bs fan sp nc cu :
  never_returns (MultiNode.run_train w g ws ep bs fan sp nc cu).
Proof.
  unfold MultiNode.run_train. never_past_test_pass.
Qed.

Lemma raises_missing_MEAN {A} w Q (m : M A) :
  obeys w Q is_missing_MEAN true no_handler m -> never_returns m ->
  forall t, exists e d,
    m t = (Raise e, t ++ d) /\
    forallb Q d = true /\
    (e = AttributeError "MEAN" \/ lib_raised w e d).
Proof.
  intros Hm Hn t.
  destruct (obeys_never_returns _ _ _ _ _ Hm Hn t) as (e & d & E & Hd & P).
  exists e, d. split; [exact E|]. split; [now apply Hd|].
  destruct P as [P|P]; [left; now apply is_missing_MEAN_inv|now right].
Qed.

Lemma raises_in_silence {A} w Q (m : M A) :
  obeys w Q any_exn true no_handler m -> never_returns m ->
  forall t, exists e d, m t = (Raise e, t ++ d) /\ forallb Q d = true.
Proof.
  intros Hm Hn t.
  destruct (obeys_never_returns _ _ _ _ _ Hm Hn t) as (e & d & E & Hd & _).
  exists e, d. split; [exact E|now apply Hd].
Qed.

(** C5 (the code against the claim): no script ever prints a final test
    accuracy.  The test pass of each script ends in an exception without
    the print, whatever the library does and whatever the state it starts
    from: after the loop over [test_loader] the argument
    [torch.distributed.ReduceOp.MEAN] of the all-reduce is evaluated, and
    [ReduceOp] has no member of that name, so the exception is
    AttributeError unless a library call failed before.  Neither does any
    process of the three scripts as a whole print it: the training
    processes of the papers100m scripts end in an exception without it, and
    no [__main__] block, nor a child of mag240m_graphsage.py, has it in its
    trace.  On a
    single rank with two test batches, the single-node process evaluates
    both batches and then ends in that AttributeError; so does the
    multi-node [run_train], and so does the test pass of
    mag240m_graphsage.py after the one batch that [--eval_steps 1] lets
    through. *)
Theorem test_accuracy_is_never_printed :
  forall (w : World),
    (forall rank bs st t, exists e d,
        SingleNode.test_phase w rank bs st t = (Raise e, t ++ d) /\
        forallb no_test_accuracy d = true /\
        (e = AttributeError "MEAN" \/ lib_raised w e d)) /\
    (forall bs st t, exists e d,
        MultiNode.test_phase w bs st t = (Raise e, t ++ d) /\
        forallb no_test_accuracy d = true /\
        (e = AttributeError "MEAN" \/ lib_raised w e d)) /\
    (forall rank hp st t, exists e d,
        Mag240m.test_phase w rank hp st t = (Raise e, t ++ d) /\
        forallb no_test_accuracy d = true /\
        (e = AttributeError "MEAN" \/ lib_raised w e d)) /\
    (forall i args t, exists e d,
        SingleNode.child w i args t = (Raise e, t ++ d) /\
        forallb no_test_accuracy d = true) /\
    (forall g ws ep bs fan sp nc cu t, exists e d,
        MultiNode.run_train w g ws ep bs fan sp nc cu t
        = (Raise e, t ++ d) /\
        forallb no_test_accuracy d = true) /\
    (forall a t, exists d,
        snd (SingleNode.main w a t) = t ++ d /\
        forallb no_test_accuracy d = true) /\
    (forall a t, exists d,
        snd (MultiNode.main w a t) = t ++ d /\
        forallb no_test_accuracy d = true) /\
    (forall a data t, exists d,
        snd (Mag240m.main w a data t) = t ++ d /\
        forallb no_test_accuracy d = true) /\
    (forall i a data n t, exists d,
        snd (Mag240m.child w i a data n t) = t ++ d /\
        forallb no_test_accuracy d = true) /\
    (exists d,
        SingleNode.child (quiet_world two_test_batches 0.5) 0 one_gpu_job []
        = (Raise (AttributeError "MEAN"), d) /\
        count_fn "acc" d = 2%nat /\
        forallb no_test_accuracy d = true) /\
    (exists d,
        MultiNode.run_train (quiet_world two_test_batches 0.5)
          MultiNode.main_globals 1 0 2048 16 small_split 172 false []
        = (Raise (AttributeError "MEAN"), d) /\
        count_fn "acc" d = 2%nat /\
        forallb no_test_accuracy d = true) /\
    (exists d,
        Mag240m.test_phase (quiet_world two_test_batches 0.5) 0
          one_eval_step Mag240m.fresh_locals []
        = (Raise (AttributeError "MEAN"), d) /\
        count_fn "acc" d = 1%nat /\
        forallb no_test_accuracy d = true).
Proof.
  intros w.
  split; [|split; [|split; [|split; [|split; [|split; [|split; [|split;
    [|split; [|split; [|split]]]]]]]]]].
  - intros rank bs st.
    apply raises_missing_MEAN;
      [obeys_auto|apply singlenode_test_phase_never_returns].
  - intros bs st.
    apply raises_missing_MEAN;
      [obeys_auto|apply multinode_test_phase_never_returns].
  - intros rank hp st.
    apply raises_missing_MEAN;
      [obeys_auto|apply mag240m_test_phase_never_returns].
  - intros i args.
    apply (raises_in_silence w);
      [obeys_auto|apply singlenode_child_never_returns].
  - intros g ws ep bs fan sp nc cu.
    apply (raises_in_silence w);
      [obeys_auto|apply multinode_run_train_never_returns].
  - intros a. apply (obeys_strict_events w no_test_accuracy any_exn).
    obeys_auto.
  - intros a. apply (obeys_strict_events w no_test_accuracy any_exn).
    obeys_auto.
  - intros a data. apply (obeys_strict_events w no_test_accuracy any_exn).
    unfold Mag240m.main. destruct (Mag240m.cli_debug a);
      obeys_upto_constructor w.
  - intros i a data n. apply (obeys_strict_events w no_test_accuracy any_exn).
    unfold Mag240m.child. obeys_upto_constructor w.
  - eexists. split; [vm_compute; reflexivity|]. split; reflexivity.
  - eexists. split; [vm_compute; reflexivity|]. split; reflexivity.
  - eexists. split; [vm_compute; reflexivity|]. split; reflexivity.
Qed.

(* ===================================================================== *)
(** ** mag240m_graphsage.py beyond the constructor *)
(* ===================================================================== *)

(** X1: [predict_step] reads the name [model], which is neither a parameter
    nor a global of the module or of the [__main__] block: every call raises
    NameError before any library call. *)
Theorem predict_step_raises_NameError :
  forall (w : World) (debug : bool) (b : batch) (t : trace),
    Forall
      (fun g =>
         Mag240mInference.predict_step w g b t
         = (Raise (NameError "model"), t))
      (run_namespaces debug).
Proof.
  intros w debug b t. apply Forall_forall. intros g H.
  each_namespace debug H; reflexivity.
Qed.

#[local] Hint Unfold
  Mag240mInference.SAGEConvLayer_forward Mag240mInference.hidden_conv
  Mag240mInference.GraphSAGE_forward : scripts.

Lemma is_unbound_num_layers_inv e :
  is_unbound_num_layers e = true -> e = NameError "num_layers".
Proof.
  destruct e; simpl; try discriminate. intros H.
  apply String.eqb_eq in H. now subst.
Qed.

Lemma deep_forward_obeys w debug g L keys :
  2 < L -> In g (run_namespaces debug) ->
  obeys w not_past_input is_unbound_num_layers true no_handler
    (Mag240mInference.GraphSAGE_forward w g L keys).
Proof.
  intros HL H. unfold Mag240mInference.GraphSAGE_forward.
  replace (L >? 2) with true by (symmetry; apply Z.gtb_lt; lia).
  each_namespace debug H;
    do 5 (apply obeys_bind; [obeys_auto|intros]);
    (apply obeys_bind_never; [obeys_auto|repeat never_step]).
Qed.

Lemma deep_forward_never_returns w debug g L keys :
  2 < L -> In g (run_namespaces debug) ->
  never_returns (Mag240mInference.GraphSAGE_forward w g L keys).
Proof.
  intros HL H. unfold Mag240mInference.GraphSAGE_forward.
  replace (L >? 2) with true by (symmetry; apply Z.gtb_lt; lia).
  each_namespace debug H;
    repeat first
      [ solve [apply never_returns_bind_l; repeat never_step]
      | never_step ].
Qed.

(** X2: with more than two layers, [GraphSAGE.forward] never returns: after
    the input layer it reads the unbound name [num_layers] (the attribute is
    [self.num_layers]) and raises NameError, unless a library call failed
    before; no hidden or output layer is ever applied. *)
Theorem forward_with_hidden_layers_raises_NameError :
  forall (w : World) (debug : bool) (L : Z) (keys : list string) (t : trace),
    2 < L ->
    Forall
      (fun g =>
         exists e d,
           Mag240mInference.GraphSAGE_forward w g L keys t
           = (Raise e, t ++ d) /\
           forallb not_past_input d = true /\
           (e = NameError "num_layers" \/ lib_raised w e d) /\
           (lib_ok w -> e = NameError "num_layers"))
      (run_namespaces debug).
Proof.
  intros w debug L keys t HL. apply Forall_forall. intros g Hg.
  destruct (obeys_never_returns _ _ _ _ _
              (deep_forward_obeys w debug g L keys HL Hg)
              (deep_forward_never_returns w debug g L keys HL Hg) t)
    as (e & d & E & Hd & P).
  exists e, d. split; [exact E|]. split; [now apply Hd|].
  assert (P' : e = NameError "num_layers" \/ lib_raised w e d).
  { destruct P as [P|P]; [left; now apply is_unbound_num_layers_inv|].
    now right. }
  split; [exact P'|]. intros Hok. destruct P' as [P'|P']; [exact P'|].
  now apply lib_ok_not_raised in P'.
Qed.

Lemma forward_with_hidden_layers_raises_NameError_witness :
  2 < 3 /\
  Mag240mInference.GraphSAGE_forward (quiet_world no_batches 0.5)
    Mag240m.module_globals 3 ["paper"; "author"] []
  = (Raise (NameError "num_layers"),
     snd (Mag240mInference.GraphSAGE_forward (quiet_world no_batches 0.5)
            Mag240m.module_globals 3 ["paper"; "author"] [])).
Proof.
  split; [lia|].
  pose proof (forward_with_hidden_layers_raises_NameError
                (quiet_world no_batches 0.5) false 3 ["paper"; "author"] []
                ltac:(lia)) as H.
  apply Forall_inv in H. destruct H as (e & d & E & _ & _ & Hok).
  rewrite E. rewrite (Hok ltac:(intros fn args u; reflexivity)).
  reflexivity.
Defined.

Lemma layers_of_app d1 d2 :
  layers_of (d1 ++ d2) = layers_of d1 ++ layers_of d2.
Proof.
  induction d1 as [|ev d1 IH]; simpl; [reflexivity|].
  destruct (conv_layer ev); simpl; now rewrite IH.
Qed.

Lemma layer_forward_ok w layer keys t :
  lib_ok w ->
  exists d,
    Mag240mInference.SAGEConvLayer_forward w layer keys t = (Ok tt, t ++ d) /\
    layers_of d = [layer].
Proof.
  intros Hok. unfold Mag240mInference.SAGEConvLayer_forward.
  set (body := fun node_type (_ : unit) =>
                 call w "ModuleDict.__getitem__" [AStr node_type] ;;
                 call w "self.dropout_conv" [AStr node_type] ;;
                 call w "self.activation" [AStr node_type] ;;
                 call w "self.normalizations" [AStr node_type]).
  assert (Hloop : forall u, exists d,
            for_each body keys tt u = (Ok tt, u ++ d) /\ layers_of d = []).
  { induction keys as [|k keys IH]; intros u; simpl.
    - exists []. now rewrite app_nil_r.
    - unfold body at 1. ok_eval Hok.
      match goal with
      | |- context [for_each body keys tt ?v] =>
          destruct (IH v) as (d & E & P); rewrite E
      end.
      eexists. split; [rewrite <- !app_assoc; reflexivity|].
      simpl. exact P. }
  ok_eval Hok.
  match goal with
  | |- context [for_each body keys tt ?v] =>
      destruct (Hloop v) as (d & E & P); rewrite E
  end.
  eexists. split; [rewrite <- !app_assoc; reflexivity|].
  simpl. now rewrite P.
Qed.

Lemma shallow_forward_obeys w g L keys :
  L <= 2 ->
  obeys w any_event no_exn false no_handler
    (Mag240mInference.GraphSAGE_forward w g L keys).
Proof.
  intros HL. unfold Mag240mInference.GraphSAGE_forward.
  replace (L >? 2) with false
    by (symmetry; rewrite Z.gtb_ltb; apply Z.ltb_ge; lia).
  obeys_auto.
Qed.

(** X3: with at most two layers (also with one, or none), [GraphSAGE.forward]
    raises nothing of its own: it can only fail through a library call, and
    when the library calls return it applies exactly the input layer and the
    output layer, in this order. *)
Theorem forward_applies_input_and_output_layer :
  forall (w : World) (g : list string) (L : Z) (keys : list string)
         (t : trace),
    L <= 2 ->
    (exists d,
        snd (Mag240mInference.GraphSAGE_forward w g L keys t) = t ++ d /\
        match fst (Mag240mInference.GraphSAGE_forward w g L keys t) with
        | Ok _ => True
        | Raise e => lib_raised w e d
        end) /\
    (lib_ok w ->
     exists d,
       Mag240mInference.GraphSAGE_forward w g L keys t = (Ok tt, t ++ d) /\
       layers_of d = ["input_conv"; "output_conv"]).
Proof.
  intros w g L keys t HL. split.
  - destruct (shallow_forward_obeys w g L keys HL t) as (d & E & P).
    exists d. split; [exact E|].
    destruct (fst (Mag240mInference.GraphSAGE_forward w g L keys t));
      [exact I|].
    destruct P as [_ [P|[P|P]]]; try discriminate. exact P.
  - intros Hok. unfold Mag240mInference.GraphSAGE_forward.
    replace (L >? 2) with false
    by (symmetry; rewrite Z.gtb_ltb; apply Z.ltb_ge; lia).
    ok_eval Hok.
    match goal with
    | |- context [Mag240mInference.SAGEConvLayer_forward w ?l keys ?v] =>
        destruct (layer_forward_ok w l keys v Hok) as (d1 & E1 & P1);
        rewrite E1
    end.
    cbv beta iota.
    match goal with
    | |- context [Mag240mInference.SAGEConvLayer_forward w ?l keys ?v] =>
        destruct (layer_forward_ok w l keys v Hok) as (d2 & E2 & P2);
        rewrite E2
    end.
    eexists. split; [rewrite <- !app_assoc; reflexivity|].
    rewrite !layers_of_app, P1, P2. reflexivity.
Qed.

Lemma forward_applies_input_and_output_layer_witness :
  1 <= 2 /\
  exists d,
    Mag240mInference.GraphSAGE_forward (quiet_world no_batches 0.5)
      Mag240m.module_globals 1 ["paper"; "author"] [] = (Ok tt, [] ++ d) /\
    layers_of d = ["input_conv"; "output_conv"].
Proof.
  split; [lia|].
  apply (forward_applies_input_and_output_layer
           (quiet_world no_batches 0.5) Mag240m.module_globals 1
           ["paper"; "author"] [] ltac:(lia)).
  intros fn args u. reflexivity.
Defined.

(* ===================================================================== *)
(** ** What the processes of the three scripts never do *)
(* ===================================================================== *)

Lemma mag240m_main_idle w a data :
  obeys w idle any_exn true no_handler (Mag240m.main w a data).
Proof.
  unfold Mag240m.main. destruct (Mag240m.cli_debug a);
    obeys_upto_constructor w.
Qed.

Lemma mag240m_child_idle w i a data n :
  obeys w idle any_exn true no_handler (Mag240m.child w i a data n).
Proof.
  unfold Mag240m.child. obeys_upto_constructor w.
Qed.

(** X4: no process of mag240m_graphsage.py, the [__main__] block or a child
    of [mp.spawn], ever performs a training operation, creates the optimizer
    or calls [torch.save], whatever the library does: [run] stops in the
    model constructor. *)
Theorem mag240m_never_trains_nor_saves :
  forall (w : World) (a : Mag240m.cli) (data : Mag240m.hetero_data),
    (forall t, exists d,
        snd (Mag240m.main w a data t) = t ++ d /\ forallb idle d = true) /\
    (forall i n t, exists d,
        snd (Mag240m.child w i a data n t) = t ++ d /\
        forallb idle d = true).
Proof.
  intros w a data. split.
  - apply (obeys_strict_events w idle any_exn). apply mag240m_main_idle.
  - intros i n. apply (obeys_strict_events w idle any_exn).
    apply mag240m_child_idle.
Qed.

(** X5: the [__main__] blocks of the two papers100m scripts perform no
    training operation, create no optimizer and save nothing: in the
    single-node script all of that is left to the children of [mp.spawn];
    in the multi-node script, where [run_train] is called in the same
    process, the call fails before its body starts. *)
Theorem papers100m_main_never_trains :
  forall (w : World),
    (forall a t, exists d,
        snd (SingleNode.main w a t) = t ++ d /\ forallb idle d = true) /\
    (forall a t, exists d,
        snd (MultiNode.main w a t) = t ++ d /\ forallb idle d = true).
Proof.
  intros w. split; intros a;
    apply (obeys_strict_events w idle any_exn); obeys_auto.
Qed.

(* ===================================================================== *)
(** ** The ways out of the [__main__] block of mag240m_graphsage.py *)
(* ===================================================================== *)

Lemma grows_of_obeys {A} w Q J strict C (m : M A) :
  obeys w Q J strict C m -> forall t, exists d, snd (m t) = t ++ d.
Proof.
  intros H t. destruct (H t) as (d & E & _). now exists d.
Qed.

Section ThroughSpawn.
Variable w : World.

Lemma through_spawn_bind {A B} (m : M A) (k : A -> M B) :
  obeys w idle any_exn true no_handler m ->
  (forall a, through_spawn (k a)) -> through_spawn (bind m k).
Proof.
  intros Hm Hk t. unfold bind.
  destruct (grows_of_obeys w _ _ _ _ m Hm t) as (d1 & E1).
  destruct (m t) as [[a|e] t1]; simpl in E1; subst t1.
  - destruct (Hk a (t ++ d1)) as (d2 & E2 & P2).
    exists (d1 ++ d2). rewrite app_assoc. split; [exact E2|].
    intros H. rewrite existsb_app, (P2 H). apply orb_true_r.
  - exists d1. split; [reflexivity|discriminate].
Qed.

Lemma through_spawn_never {A} (m : M A) :
  obeys w idle any_exn true no_handler m -> never_returns m ->
  through_spawn m.
Proof.
  intros Hm Hn t. destruct (grows_of_obeys w _ _ _ _ m Hm t) as (d & E).
  exists d. split; [exact E|]. rewrite (Hn t). discriminate.
Qed.

Lemma spawn_guarded_through_spawn n :
  through_spawn (Mag240m.spawn_guarded w n).
Proof.
  intros t. unfold Mag240m.spawn_guarded, try_except, bind, call, callv.
  destruct (w_raises w "mp.spawn" [AStr "run"; AInt n] t) as [e|]; cbn.
  - destruct (is_ProcessExitedException e); cbn.
    + repeat match goal with
             | |- context [w_raises w ?f ?a ?u] =>
                 destruct (w_raises w f a u); cbn
             end;
        (eexists; split; [rewrite <- ?app_assoc; reflexivity|]);
        intros _; reflexivity.
    + eexists. split; [reflexivity|]. intros _. reflexivity.
  - eexists. split; [reflexivity|]. intros _. reflexivity.
Qed.

Lemma direct_run_never_returns debug data hp :
  never_returns
    (py_call "run" Mag240m.run_params Mag240m.run_call_args
       (fun _ => Mag240m.run w (Mag240m.main_globals debug) 0 data hp)).
Proof.
  change (never_returns
            (Mag240m.run w (Mag240m.main_globals debug) 0 data hp)).
  unfold Mag240m.run. apply never_returns_bind_l.
  apply (run_setup_never_returns w debug). right. now left.
Qed.

Lemma mag240m_main_through_spawn a data :
  through_spawn (Mag240m.main w a data).
Proof.
  unfold Mag240m.main.
  repeat (apply through_spawn_bind; [obeys_auto|intros]).
  match goal with |- through_spawn (if ?b then _ else _) => destruct b end.
  - repeat (apply through_spawn_bind; [obeys_auto|intros]).
    apply spawn_guarded_through_spawn.
  - apply through_spawn_never.
    + destruct (Mag240m.cli_debug a); obeys_upto_constructor w.
    + apply never_returns_bind_r. intros _. apply direct_run_never_returns.
Qed.

End ThroughSpawn.

(** X6: the [__main__] block of mag240m_graphsage.py can only return
    normally on the multi-GPU path: whenever it does, [mp.spawn] was called.
    On the single-GPU and CPU paths, where it calls [run] itself, it always
    ends in an exception. *)
Theorem mag240m_main_returns_only_after_spawn :
  forall (w : World) (a : Mag240m.cli) (data : Mag240m.hetero_data)
         (t : trace),
    exists d,
      snd (Mag240m.main w a data t) = t ++ d /\
      (is_ok (fst (Mag240m.main w a data t)) = true ->
       existsb is_spawn d = true).
Proof.
  intros w a data t. apply mag240m_main_through_spawn.
Qed.

(* ===================================================================== *)
(** ** The device count, and what the [__main__] block does with it *)
(* ===================================================================== *)

Lemma ok_but_spawn_of_lib_ok w : lib_ok w -> ok_but_spawn w.
Proof.
  intros Hok fn args t _. apply Hok.
Qed.

Lemma no_spawn_not_raised w e d :
  ok_but_spawn w -> forallb no_spawn d = true -> ~ lib_raised w e d.
Proof.
  intros Hok Hd (fn & args & t & Hin & E).
  rewrite forallb_forall in Hd. specialize (Hd _ Hin).
  unfold no_spawn, is_spawn in Hd. cbn [event_fn] in Hd.
  apply negb_true_iff, String.eqb_neq in Hd.
  rewrite (Hok fn args t Hd) in E. discriminate E.
Qed.

Lemma obeys_but_spawn_returns {A} w (m : M A) :
  ok_but_spawn w -> obeys w no_spawn no_exn true no_handler m ->
  forall t, exists a d, m t = (Ok a, t ++ d) /\ forallb no_spawn d = true.
Proof.
  intros Hok H t. destruct (H t) as (d & E & P).
  destruct (m t) as [[a|e] t']; simpl in E, P; subst t'.
  - now exists a, d.
  - destruct P as (Hd & [P|[P|P]]); try discriminate.
    now apply (no_spawn_not_raised w e d Hok (Hd eq_refl)) in P.
Qed.

Lemma obeys_but_spawn_raises {A} w J (m : M A) :
  ok_but_spawn w -> obeys w no_spawn J true no_handler m ->
  never_returns m ->
  forall t, exists e d,
    m t = (Raise e, t ++ d) /\ forallb no_spawn d = true /\ J e = true.
Proof.
  intros Hok H Hn t.
  destruct (obeys_never_returns _ _ _ _ _ H Hn t) as (e & d & E & Hd & P).
  exists e, d. split; [exact E|]. split; [now apply Hd|].
  destruct P as [P|P]; [exact P|].
  now apply (no_spawn_not_raised w e d Hok (Hd eq_refl)) in P.
Qed.

(** Evaluation when every call but [mp.spawn] returns. *)
Ltac ok_eval_but_spawn Hok :=
  cbv beta iota delta [bind call callv ret lift raise];
  repeat (rewrite Hok by discriminate; cbv beta iota).

Section SettledDevices.
Variable w : World.
Variable count : Z.
Variable available : bool.
Hypothesis Hok : ok_but_spawn w.
Hypothesis Hcount : forall t, w_int w "torch.cuda.device_count" t = count.
Hypothesis Havailable :
  forall t, w_bool w "torch.cuda.is_available" t = available.

Lemma choose_devices_settles a t :
  exists d,
    Mag240m.choose_devices w a t
    = (Ok (settled_devices available (Mag240m.cli_n_devices a) count),
       t ++ d) /\
    forallb no_spawn d = true.
Proof.
  unfold Mag240m.choose_devices, settled_devices. ok_eval_but_spawn Hok.
  rewrite Havailable.
  destruct available; cbv beta iota delta [negb]; ok_eval_but_spawn Hok;
    rewrite !Hcount;
    match goal with
    | |- context [?n >? count] =>
        rewrite (Z.gtb_ltb n count); destruct (Z.ltb_spec count n)
    end;
    ok_eval_but_spawn Hok; rewrite ?Hcount;
    (eexists; split;
     [ rewrite <- ?app_assoc;
       apply f_equal2; [apply f_equal; lia | reflexivity]
     | reflexivity ]).
Qed.

Lemma ends_by_device_count_bind {A} n (m : M A) (k : A -> M unit) :
  obeys w no_spawn no_exn true no_handler m ->
  (forall a, ends_by_device_count w n (k a)) ->
  ends_by_device_count w n (bind m k).
Proof.
  intros Hm Hk t. unfold bind.
  destruct (obeys_but_spawn_returns w m Hok Hm t) as (a & d1 & E1 & Q1).
  rewrite E1. destruct (Hk a (t ++ d1)) as (d2 & Q2 & P2).
  exists (d1 ++ d2). split; [now rewrite forallb_app, Q1, Q2|].
  rewrite app_assoc. exact P2.
Qed.

Lemma ends_by_device_count_value {A} n (m : M A) (k : A -> M unit) v :
  (forall t, exists d, m t = (Ok v, t ++ d) /\ forallb no_spawn d = true) ->
  ends_by_device_count w n (k v) ->
  ends_by_device_count w n (bind m k).
Proof.
  intros Hm Hk t. unfold bind.
  destruct (Hm t) as (d1 & E1 & Q1).
  rewrite E1. destruct (Hk (t ++ d1)) as (d2 & Q2 & P2).
  exists (d1 ++ d2). split; [now rewrite forallb_app, Q1, Q2|].
  rewrite app_assoc. exact P2.
Qed.

Lemma mag240m_main_ends_by_device_count a data :
  ends_by_device_count w
    (settled_devices available (Mag240m.cli_n_devices a) count)
    (Mag240m.main w a data).
Proof.
  unfold Mag240m.main.
  do 6 (apply ends_by_device_count_bind; [obeys_auto|intros _]).
  apply (ends_by_device_count_value _ _ _
           (settled_devices available (Mag240m.cli_n_devices a) count));
    [intros t; apply choose_devices_settles|].
  set (n := settled_devices available (Mag240m.cli_n_devices a) count).
  do 5 (apply ends_by_device_count_bind; [obeys_auto|intros _]).
  rewrite Z.gtb_ltb. destruct (1 <? n) eqn:Hn.
  - do 2 (apply ends_by_device_count_bind; [obeys_auto|intros _]).
    intros t. exists []. split; [reflexivity|].
    rewrite Hn, app_nil_r. reflexivity.
  - intros t.
    destruct (obeys_but_spawn_raises w is_unbound_layer_name
                ((if n =? 1 then call w "print" [AStr "Using a single GPU"]
                  else call w "print" [AStr "Using CPU"]) ;;
                 py_call "run" Mag240m.run_params Mag240m.run_call_args
                   (fun _ => Mag240m.run w
                               (Mag240m.main_globals (Mag240m.cli_debug a))
                               0 data (Mag240m.hparams_of a n)))
                Hok) with (t := t) as (e & d & E & Q & He).
    + destruct (Mag240m.cli_debug a); obeys_upto_constructor w.
    + apply never_returns_bind_r. intros _.
      apply direct_run_never_returns.
    + exists d. split; [exact Q|]. rewrite Hn. now exists e.
Qed.

End SettledDevices.

(** X7: with a library that does not fail and that reports the same device
    count every time it is asked, the [__main__] block of
    mag240m_graphsage.py settles on no device when CUDA is unavailable and
    otherwise on the requested number capped by the number of devices. *)
Theorem choose_devices_caps_the_request :
  forall (w : World) (count : Z) (available : bool) (a : Mag240m.cli)
         (t : trace),
    lib_ok w ->
    (forall u, w_int w "torch.cuda.device_count" u = count) ->
    (forall u, w_bool w "torch.cuda.is_available" u = available) ->
    fst (Mag240m.choose_devices w a t)
    = Ok (settled_devices available (Mag240m.cli_n_devices a) count).
Proof.
  intros w count available a t Hok Hc Ha.
  destruct (choose_devices_settles w count available
              (ok_but_spawn_of_lib_ok w Hok) Hc Ha a t) as (d & E & _).
  now rewrite E.
Qed.

Lemma choose_devices_caps_the_request_witness :
  fst (Mag240m.choose_devices (gpus_world 2) (mag240m_cli 8) [])
  = Ok (settled_devices true 8 2).
Proof.
  apply (choose_devices_caps_the_request (gpus_world 2) 2 true
           (mag240m_cli 8) []);
    [intros fn args u; reflexivity | intros u; reflexivity ..].
Defined.

(** X8: when every library call other than [mp.spawn] returns and the
    device count is stable, the [__main__] block of mag240m_graphsage.py
    goes one of two ways by the number [n] of devices it settles on.  With
    [n <= 1] (one GPU, or the CPU) it ends in the NameError of the model
    constructor and never calls [mp.spawn].  With [n > 1] it gets as far as
    the guarded [mp.spawn] of exactly [n] processes, without an earlier
    call of it, and ends as that does: what [mp.spawn] makes of its
    children is left open. *)
Theorem mag240m_main_runs_or_spawns_by_device_count :
  forall (w : World) (count : Z) (available : bool) (a : Mag240m.cli)
         (data : Mag240m.hetero_data) (t : trace),
    ok_but_spawn w ->
    (forall u, w_int w "torch.cuda.device_count" u = count) ->
    (forall u, w_bool w "torch.cuda.is_available" u = available) ->
    exists d,
      forallb no_spawn d = true /\
      if 1 <? settled_devices available (Mag240m.cli_n_devices a) count
      then Mag240m.main w a data t
           = Mag240m.spawn_guarded w
               (settled_devices available (Mag240m.cli_n_devices a) count)
               (t ++ d)
      else exists e,
          Mag240m.main w a data t = (Raise e, t ++ d) /\
          is_unbound_layer_name e = true.
Proof.
  intros w count available a data t Hok Hc Ha.
  apply (mag240m_main_ends_by_device_count w count available Hok Hc Ha).
Qed.

Lemma mag240m_main_runs_or_spawns_by_device_count_witness :
  exists d,
    forallb no_spawn d = true /\
    if 1 <? settled_devices true 2 2
    then Mag240m.main (spawn_fails_world 2 ProcessRaisedException)
           (mag240m_cli 2) small_graph []
         = Mag240m.spawn_guarded (spawn_fails_world 2 ProcessRaisedException)
             (settled_devices true 2 2) ([] ++ d)
    else exists e,
        Mag240m.main (spawn_fails_world 2 ProcessRaisedException)
          (mag240m_cli 2) small_graph [] = (Raise e, [] ++ d) /\
        is_unbound_layer_name e = true.
Proof.
  apply (mag240m_main_runs_or_spawns_by_device_count
           (spawn_fails_world 2 ProcessRaisedException) 2 true
           (mag240m_cli 2) small_graph []);
    [ intros fn args u Hfn; simpl; apply String.eqb_neq in Hfn;
      rewrite Hfn; reflexivity
    | intros u; reflexivity .. ].
Defined.

(* ===================================================================== *)
(** ** The per-rank chunks: degenerate sizes and coverage *)
(* ===================================================================== *)

Lemma firstn_plus {A} (l : list A) : forall n m,
  firstn (n + m) l = firstn n l ++ firstn m (skipn n l).
Proof.
  induction l as [|x l IH]; intros [|n] m; simpl;
    rewrite ?firstn_nil; try reflexivity.
  now rewrite IH.
Qed.

Lemma concat_slices (idx : list Z) (s : nat) : forall k,
  concat (map (fun r => slice idx (r * s) s) (seq 0 k)) = firstn (k * s) idx.
Proof.
  induction k as [|k IH].
  - reflexivity.
  - rewrite seq_S, map_app, concat_app, IH. cbn [map concat plus].
    rewrite app_nil_r. unfold slice.
    replace (S k * s)%nat with (k * s + s)%nat by lia.
    now rewrite firstn_plus.
Qed.

Lemma split_too_few (idx : list Z) (world rank : Z) :
  idx <> [] -> Z.of_nat (length idx) < world ->
  split_for_rank idx world rank
  = Raise (RuntimeError "split_size can only be 0 if dimension size is 0").
Proof.
  intros Hne Hlt. unfold split_for_rank.
  assert (Hlen : (0 < length idx)%nat)
    by (destruct idx; [congruence|simpl; lia]).
  rewrite py_floordiv_pos by lia. cbn [rbind].
  rewrite Z.div_small by lia. unfold tensor_split.
  destruct (Nat.eqb_spec (length idx) 0) as [E|_]; [lia|]. reflexivity.
Qed.

(** X9: the degenerate cases of [idx.split(idx.size(0) // world_size)[rank]]:
    a world size of zero raises ZeroDivisionError; a non-empty index tensor
    with fewer entries than the world size raises the RuntimeError of a zero
    split size, for every rank; an empty index tensor gives one empty chunk,
    which rank 0 (and index -1) gets while every other rank raises
    IndexError. *)
Theorem split_for_rank_degenerate_sizes :
  forall (idx : list Z) (rank : Z),
    split_for_rank idx 0 rank = Raise ZeroDivisionError /\
    (forall world, idx <> [] -> Z.of_nat (length idx) < world ->
        split_for_rank idx world rank
        = Raise (RuntimeError
                   "split_size can only be 0 if dimension size is 0")) /\
    (forall world, world <> 0 ->
        split_for_rank [] world rank
        = if (rank =? 0) || (rank =? -1) then Ok [] else Raise IndexError).
Proof.
  intros idx rank. split; [reflexivity|]. split.
  - intros world. apply split_too_few.
  - intros world Hw. unfold split_for_rank, py_floordiv.
    destruct (Z.eqb_spec world 0) as [|_]; [contradiction|].
    cbn [rbind length Z.of_nat]. rewrite Z.div_0_l by exact Hw.
    cbn [tensor_split Z.ltb Z.compare Z.eqb Nat.eqb length negb andb rbind
         Z.to_nat seq map firstn].
    unfold tuple_index. cbn [length Z.of_nat Pos.of_succ_nat].
    destruct (Z.ltb_spec rank 0) as [Hneg|Hpos].
    + destruct (Z.ltb_spec (rank + 1) 0) as [H1|H1].
      * cbn [orb]. destruct (Z.eqb_spec rank 0); [lia|].
        destruct (Z.eqb_spec rank (-1)); [lia|]. reflexivity.
      * destruct (Z.leb_spec 1 (rank + 1)) as [H2|H2]; [lia|]. cbn [orb].
        assert (rank = -1) by lia. subst rank. reflexivity.
    + destruct (Z.ltb_spec rank 0) as [|_]; [lia|].
      destruct (Z.leb_spec 1 rank) as [H2|H2]; cbn [orb].
      * destruct (Z.eqb_spec rank 0); [lia|].
        destruct (Z.eqb_spec rank (-1)); [lia|]. reflexivity.
      * assert (rank = 0) by lia. subst rank. reflexivity.
Qed.

(** X10: for a world size [w >= 1] and an index tensor of at least [w]
    entries, the chunks of the ranks [0 .. w-1], in this order, followed by
    the fewer than [w] trailing entries that no rank gets, rebuild the index
    tensor: nothing is duplicated and only the tail is dropped. *)
Theorem split_chunks_cover_all_but_the_tail :
  forall (idx : list Z) (w : Z),
    1 <= w -> w <= Z.of_nat (length idx) ->
    exists (chunks : list (list Z)) (trailing : list Z),
      length chunks = Z.to_nat w /\
      (forall r, (r < Z.to_nat w)%nat ->
          split_for_rank idx w (Z.of_nat r) = Ok (nth r chunks [])) /\
      idx = concat chunks ++ trailing /\
      Z.of_nat (length trailing) < w.
Proof.
  intros idx w Hw Hn.
  set (s := Z.to_nat (Z.of_nat (length idx) / w)).
  exists (map (fun r => slice idx (r * s) s) (seq 0 (Z.to_nat w))),
         (skipn (Z.to_nat w * s) idx).
  split; [now rewrite length_map, length_seq|]. split; [|split].
  - intros r Hr.
    rewrite split_for_rank_slice by lia. fold s.
    rewrite Nat2Z.id. apply f_equal.
    rewrite (nth_indep _ [] ((fun r => slice idx (r * s) s) 0%nat))
      by now rewrite length_map, length_seq.
    rewrite (map_nth (fun r => slice idx (r * s) s)), seq_nth by exact Hr.
    reflexivity.
  - rewrite concat_slices. symmetry. apply firstn_skipn.
  - rewrite length_skipn.
    assert (Hq : 0 <= Z.of_nat (length idx) / w) by (apply Z.div_pos; lia).
    pose proof (Z.mod_pos_bound (Z.of_nat (length idx)) w ltac:(lia)) as Hm.
    rewrite (Z.mod_eq _ w) in Hm by lia. unfold s. nia.
Qed.

Lemma split_chunks_cover_all_but_the_tail_witness :
  exists (chunks : list (list Z)) (trailing : list Z),
    length chunks = Z.to_nat 3 /\
    (forall r, (r < Z.to_nat 3)%nat ->
        split_for_rank [10; 11; 12; 13; 14; 15; 16] 3 (Z.of_nat r)
        = Ok (nth r chunks [])) /\
    [10; 11; 12; 13; 14; 15; 16] = concat chunks ++ trailing /\
    Z.of_nat (length trailing) < 3.
Proof.
  apply (split_chunks_cover_all_but_the_tail [10; 11; 12; 13; 14; 15; 16] 3);
    [lia | simpl; lia].
Defined.

Lemma lift_raise_never_returns {A} (e : exn) :
  never_returns (lift (@Raise A e)).
Proof.
  intros t. reflexivity.
Qed.

(** The statements up to the split obey the discipline; the split ends the
    function. *)
Ltac stop_at_split Hne Hlt :=
  repeat
    lazymatch goal with
    | |- obeys _ _ _ _ _ (bind (lift (split_for_rank _ _ _)) _) =>
        rewrite (split_too_few _ _ _ Hne Hlt);
        apply obeys_bind_never;
        [ apply obeys_lift; intros ? [= <-]; reflexivity
        | apply lift_raise_never_returns ]
    | |- obeys _ _ _ _ _ (bind _ _) => apply obeys_bind; [obeys_auto|intros]
    | |- never_returns (bind (lift (split_for_rank _ _ _)) _) =>
        rewrite (split_too_few _ _ _ Hne Hlt);
        apply never_returns_bind_l, lift_raise_never_returns
    | |- never_returns (bind _ _) => apply never_returns_bind_r; intros
    end.

(** X11: when the training index tensor is not empty but has fewer entries
    than there are processes, [run_train] of both papers100m scripts ends in
    an exception at the split of the indices: all it has called by then are
    the environment, process-group, rank and device functions and [print],
    so the model has not been moved or wrapped, no optimizer or loader has
    been created and no batch trained on.  Unless one of those calls
    failed, the exception is the RuntimeError of [Tensor.split] with a zero
    split size. *)
Theorem run_train_stops_on_too_few_training_indices :
  forall (w : World) (train valid test : list Z) (world_size : Z),
    train <> [] -> Z.of_nat (length train) < world_size ->
    (forall rank epochs bs fan num_classes cugraph t, exists e d,
        SingleNode.run_train w rank world_size epochs bs fan
          {| SingleNode.idx_train := train; SingleNode.idx_valid := valid;
             SingleNode.idx_test := test |} num_classes cugraph t
        = (Raise e, t ++ d) /\
        forallb before_split d = true /\
        (is_zero_split e = true \/ lib_raised w e d)) /\
    (forall globals epochs bs fan num_classes cugraph t, exists e d,
        MultiNode.run_train w globals world_size epochs bs fan
          {| MultiNode.idx_train := train; MultiNode.idx_valid := valid;
             MultiNode.idx_test := test |} num_classes cugraph t
        = (Raise e, t ++ d) /\
        forallb before_split d = true /\
        (is_zero_split e = true \/ lib_raised w e d)).
Proof.
  intros w train valid test world_size Hne Hlt. split; intros.
  - destruct (obeys_never_returns w before_split is_zero_split true
                (SingleNode.run_train w rank world_size epochs bs fan
                   {| SingleNode.idx_train := train;
                      SingleNode.idx_valid := valid;
                      SingleNode.idx_test := test |} num_classes cugraph))
      with (t := t) as (e & d & E & P1 & P2).
    + unfold SingleNode.run_train. cbn [SingleNode.idx_train].
      stop_at_split Hne Hlt.
    + unfold SingleNode.run_train. cbn [SingleNode.idx_train].
      stop_at_split Hne Hlt.
    + exists e, d. split; [exact E|]. split; [now apply P1|exact P2].
  - destruct (obeys_never_returns w before_split is_zero_split true
                (MultiNode.run_train w globals world_size epochs bs fan
                   {| MultiNode.idx_train := train;
                      MultiNode.idx_valid := valid;
                      MultiNode.idx_test := test |} num_classes cugraph))
      with (t := t) as (e & d & E & P1 & P2).
    + unfold MultiNode.run_train. cbn [MultiNode.idx_train].
      stop_at_split Hne Hlt.
    + unfold MultiNode.run_train. cbn [MultiNode.idx_train].
      stop_at_split Hne Hlt.
    + exists e, d. split; [exact E|]. split; [now apply P1|exact P2].
Qed.

Lemma run_train_stops_on_too_few_training_indices_witness :
  exists e d,
    SingleNode.run_train (gpus_world 4) 0 4 1 2048 16
      {| SingleNode.idx_train := [10; 11]; SingleNode.idx_valid := [];
         SingleNode.idx_test := [] |} 172 false []
    = (Raise e, [] ++ d) /\
    forallb before_split d = true /\
    (is_zero_split e = true \/ lib_raised (gpus_world 4) e d).
Proof.
  exact (proj1 (run_train_stops_on_too_few_training_indices (gpus_world 4)
                  [10; 11] [] [] 4 ltac:(discriminate) ltac:(simpl; lia))
           0 1 2048 16 172 false []).
Defined.

(* ===================================================================== *)
(** ** The evaluation loops stop after [eval_steps] batches *)
(* ===================================================================== *)

Lemma count_fn_app name d1 d2 :
  count_fn name (d1 ++ d2) = (count_fn name d1 + count_fn name d2)%nat.
Proof.
  unfold count_fn. now rewrite filter_app, length_app.
Qed.

(** A loop whose body calls [name] at most once per iteration and leaves
    the loop, without calling it, from index [limit] on. *)
Lemma for_enumerate_count {St} w loader name (limit : Z)
    (body : nat -> batch -> St -> M (control St)) :
  String.eqb "next" name = false ->
  (forall i b s u, exists seg,
      snd (bind (call w "next" [AStr loader]) (fun _ => body i b s) u)
      = u ++ seg /\
      (count_fn name seg <= 1)%nat /\
      (limit <= Z.of_nat i ->
       count_fn name seg = 0%nat /\
       forall s', fst (bind (call w "next" [AStr loader])
                         (fun _ => body i b s) u) <> Ok (Continue s'))) ->
  forall bs i s t, exists d,
    snd (for_enumerate w loader body i bs s t) = t ++ d /\
    Z.of_nat (count_fn name d) <= Z.max 0 (limit - Z.of_nat i).
Proof.
  intros Hname Hbody. induction bs as [|b bs IH]; intros i s t; simpl.
  - unfold bind, call, callv.
    destruct (w_raises w "next" [AStr loader] t);
      (eexists; split; [reflexivity|]);
      unfold count_fn; cbn [filter event_fn]; rewrite Hname; simpl; lia.
  - unfold bind at 1.
    destruct (Hbody i b s t) as (seg & E & Hone & Hstop).
    destruct (bind (call w "next" [AStr loader]) (fun _ => body i b s) t)
      as [[[s'|s']|e] t1]; cbn [fst snd] in *; subst t1.
    + destruct (IH (S i) s' (t ++ seg)) as (d & E & Hd). rewrite E.
      exists (seg ++ d). split; [now rewrite app_assoc|].
      rewrite count_fn_app.
      destruct (Z.le_gt_cases limit (Z.of_nat i)) as [Hge|Hlt].
      * destruct (Hstop Hge) as [_ Hc]. now destruct (Hc s').
      * lia.
    + exists seg. split; [reflexivity|].
      destruct (Z.le_gt_cases limit (Z.of_nat i)) as [Hge|Hlt].
      * destruct (Hstop Hge) as [-> _]. lia.
      * lia.
    + exists seg. split; [reflexivity|].
      destruct (Z.le_gt_cases limit (Z.of_nat i)) as [Hge|Hlt].
      * destruct (Hstop Hge) as [-> _]. lia.
      * lia.
Qed.

Ltac count_events :=
  cbn [fst snd]; rewrite <- ?app_assoc; cbn [app];
  (eexists; split; [reflexivity|]);
  (split; [unfold count_fn; cbn; lia|]);
  let H := fresh "H" in
  intros H; first [ lia | split; [reflexivity | intros ?; discriminate] ].

Lemma mag240m_eval_iteration_counts w rank hp loader i b s u :
  exists seg,
    snd (bind (call w "next" [AStr loader])
           (fun _ => Mag240m.eval_iteration w rank hp i b s) u) = u ++ seg /\
    (count_fn "acc" seg <= 1)%nat /\
    (Mag240m.eval_steps hp <= Z.of_nat i ->
     count_fn "acc" seg = 0%nat /\
     forall s', fst (bind (call w "next" [AStr loader])
                       (fun _ => Mag240m.eval_iteration w rank hp i b s) u)
                <> Ok (Continue s')).
Proof.
  unfold Mag240m.eval_iteration, Mag240m.validation_step,
    Mag240m.common_step.
  destruct (Z.leb_spec (Mag240m.eval_steps hp) (Z.of_nat i));
    exec_body; count_events.
Qed.

Lemma singlenode_eval_iteration_counts w rank bs loader i b s u :
  exists seg,
    snd (bind (call w "next" [AStr loader])
           (fun _ => SingleNode.eval_iteration w rank bs i b s) u)
    = u ++ seg /\
    (count_fn "acc" seg <= 1)%nat /\
    (SingleNode.eval_steps <= Z.of_nat i ->
     count_fn "acc" seg = 0%nat /\
     forall s', fst (bind (call w "next" [AStr loader])
                       (fun _ => SingleNode.eval_iteration w rank bs i b s) u)
                <> Ok (Continue s')).
Proof.
  unfold SingleNode.eval_iteration, SingleNode.accumulate_accuracy.
  destruct (Z.leb_spec SingleNode.eval_steps (Z.of_nat i));
    exec_body; count_events.
Qed.

Lemma multinode_eval_iteration_counts w bs loader i b s u :
  exists seg,
    snd (bind (call w "next" [AStr loader])
           (fun _ => MultiNode.eval_iteration w bs i b s) u) = u ++ seg /\
    (count_fn "acc" seg <= 1)%nat /\
    (MultiNode.eval_steps <= Z.of_nat i ->
     count_fn "acc" seg = 0%nat /\
     forall s', fst (bind (call w "next" [AStr loader])
                       (fun _ => MultiNode.eval_iteration w bs i b s) u)
                <> Ok (Continue s')).
Proof.
  unfold MultiNode.eval_iteration, MultiNode.accumulate_accuracy.
  destruct (Z.leb_spec MultiNode.eval_steps (Z.of_nat i));
    exec_body; count_events.
Qed.

(** X12: whatever the loaders hold and whatever the library does, a pass
    over a loader with the evaluation body computes the accuracy of at most
    [eval_steps] batches: the [--eval_steps] value in mag240m_graphsage.py
    (validation and test pass alike), 1000 in the validation pass of the two
    papers100m scripts. *)
Theorem evaluation_stops_after_eval_steps :
  forall (w : World),
    (forall rank hp loader st t, exists d,
        snd (for_loader w loader (Mag240m.eval_iteration w rank hp) st t)
        = t ++ d /\
        Z.of_nat (count_fn "acc" d) <= Z.max 0 (Mag240m.eval_steps hp)) /\
    (forall rank bs st t, exists d,
        snd (for_loader w "eval_loader" (SingleNode.eval_iteration w rank bs)
               st t) = t ++ d /\
        Z.of_nat (count_fn "acc" d) <= 1000) /\
    (forall bs st t, exists d,
        snd (for_loader w "eval_loader" (MultiNode.eval_iteration w bs) st t)
        = t ++ d /\
        Z.of_nat (count_fn "acc" d) <= 1000).
Proof.
  intros w. split; [|split]; intros; unfold for_loader.
  - destruct (for_enumerate_count w loader "acc" (Mag240m.eval_steps hp)
                (Mag240m.eval_iteration w rank hp) eq_refl
                (mag240m_eval_iteration_counts w rank hp loader)
                (w_batches w loader t) 0%nat st t) as (d & E & H).
    exists d. split; [exact E|]. rewrite Z.sub_0_r in H. exact H.
  - destruct (for_enumerate_count w "eval_loader" "acc" SingleNode.eval_steps
                (SingleNode.eval_iteration w rank bs) eq_refl
                (singlenode_eval_iteration_counts w rank bs "eval_loader")
                (w_batches w "eval_loader" t) 0%nat st t) as (d & E & H).
    exists d. split; [exact E|]. exact H.
  - destruct (for_enumerate_count w "eval_loader" "acc" MultiNode.eval_steps
                (MultiNode.eval_iteration w bs) eq_refl
                (multinode_eval_iteration_counts w bs "eval_loader")
                (w_batches w "eval_loader" t) 0%nat st t) as (d & E & H).
    exists d. split; [exact E|]. exact H.
Qed.

(* ===================================================================== *)
(** ** Where the test pass of the papers100m scripts ends *)
(* ===================================================================== *)

Lemma count_fn_cons name ev d :
  count_fn name (ev :: d)
  = ((if String.eqb (event_fn ev) name then 1 else 0) + count_fn name d)%nat.
Proof.
  unfold count_fn. cbn [filter]. destruct (String.eqb (event_fn ev) name);
    reflexivity.
Qed.

Section PapersTestPass.
Variable w : World.
Hypothesis Hok : lib_ok w.

Lemma singlenode_test_loop rank bsz bs :
  forall i st t, exists st' d,
    for_enumerate w "test_loader" (SingleNode.test_iteration w rank bsz)
      i bs st t = (Ok st', t ++ d) /\
    count_fn "acc" d = length bs /\ count_fn "print" d = 0%nat.
Proof.
  induction bs as [|b bs IH]; intros i st t; simpl.
  - ok_eval Hok. eexists _, _. repeat split; reflexivity.
  - unfold SingleNode.test_iteration at 1.
    unfold SingleNode.accumulate_accuracy. ok_eval Hok.
    match goal with
    | |- context [for_enumerate _ _ _ ?j ?l ?s ?u] =>
        destruct (IH j s u) as (st' & d & E & Pa & Pp); rewrite E
    end.
    rewrite <- !app_assoc. cbn [app].
    eexists _, _. split; [reflexivity|].
    rewrite !count_fn_cons, Pa, Pp. split; reflexivity.
Qed.

Lemma multinode_test_loop bsz bs :
  forall i st t, exists st' d,
    for_enumerate w "test_loader" (MultiNode.test_iteration w bsz)
      i bs st t = (Ok st', t ++ d) /\
    count_fn "acc" d = length bs /\ count_fn "print" d = 0%nat.
Proof.
  induction bs as [|b bs IH]; intros i st t; simpl.
  - ok_eval Hok. eexists _, _. repeat split; reflexivity.
  - unfold MultiNode.test_iteration at 1.
    unfold MultiNode.accumulate_accuracy. ok_eval Hok.
    match goal with
    | |- context [for_enumerate _ _ _ ?j ?l ?s ?u] =>
        destruct (IH j s u) as (st' & d & E & Pa & Pp); rewrite E
    end.
    rewrite <- !app_assoc. cbn [app].
    eexists _, _. split; [reflexivity|].
    rewrite !count_fn_cons, Pa, Pp. split; reflexivity.
Qed.

Variable bs : list batch.
Hypothesis Hbatches : forall t, w_batches w "test_loader" t = bs.

Lemma singlenode_test_phase_fails rank bsz st t :
  exists d,
    SingleNode.test_phase w rank bsz st t
    = (Raise (AttributeError "MEAN"), t ++ d) /\
    count_fn "acc" d = length bs /\ count_fn "print" d = 0%nat.
Proof.
  unfold SingleNode.test_phase, SingleNode.reduce_and_print. ok_eval Hok.
  rewrite Hbatches.
  match goal with
  | |- context [for_enumerate _ _ _ ?j ?l ?s ?u] =>
      destruct (singlenode_test_loop rank bsz l j s u)
        as (st' & d & E & Pa & Pp); rewrite E
  end.
  ok_eval Hok. rewrite <- !app_assoc. cbn [app].
  eexists. split; [reflexivity|].
  rewrite !count_fn_cons, !count_fn_app, Pa, Pp.
  split; cbn; lia.
Qed.

Lemma multinode_test_phase_fails bsz st t :
  exists d,
    MultiNode.test_phase w bsz st t
    = (Raise (AttributeError "MEAN"), t ++ d) /\
    count_fn "acc" d = length bs /\ count_fn "print" d = 0%nat.
Proof.
  unfold MultiNode.test_phase, MultiNode.reduce_and_print. ok_eval Hok.
  rewrite Hbatches.
  match goal with
  | |- context [for_enumerate _ _ _ ?j ?l ?s ?u] =>
      destruct (multinode_test_loop bsz l j s u)
        as (st' & d & E & Pa & Pp); rewrite E
  end.
  ok_eval Hok. rewrite <- !app_assoc. cbn [app].
  eexists. split; [reflexivity|].
  rewrite !count_fn_cons, !count_fn_app, Pa, Pp.
  split; cbn; lia.
Qed.

End PapersTestPass.

(** X13: in both papers100m scripts, with library calls that return and a
    test loader that yields the batches [bs], the test pass computes the
    accuracy of every one of them (there is no cap as in the validation
    pass), then ends in the AttributeError of [ReduceOp.MEAN] at the
    all-reduce; it prints nothing. *)
Theorem papers100m_test_pass_fails_after_all_batches :
  forall (w : World) (bs : list batch),
    lib_ok w ->
    (forall t, w_batches w "test_loader" t = bs) ->
    (forall rank bsz st t, exists d,
        SingleNode.test_phase w rank bsz st t
        = (Raise (AttributeError "MEAN"), t ++ d) /\
        count_fn "acc" d = length bs /\ count_fn "print" d = 0%nat) /\
    (forall bsz st t, exists d,
        MultiNode.test_phase w bsz st t
        = (Raise (AttributeError "MEAN"), t ++ d) /\
        count_fn "acc" d = length bs /\ count_fn "print" d = 0%nat).
Proof.
  intros w bs Hok Hbatches. split.
  - intros rank bsz st t.
    now apply (singlenode_test_phase_fails w Hok bs Hbatches).
  - intros bsz st t.
    now apply (multinode_test_phase_fails w Hok bs Hbatches).
Qed.

Lemma papers100m_test_pass_fails_after_all_batches_witness :
  exists d,
    SingleNode.test_phase (quiet_world two_test_batches 0.5) 0 2048
      SingleNode.fresh_locals []
    = (Raise (AttributeError "MEAN"), [] ++ d) /\
    count_fn "acc" d = length (two_test_batches "test_loader") /\
    count_fn "print" d = 0%nat.
Proof.
  exact (proj1 (papers100m_test_pass_fails_after_all_batches
                  (quiet_world two_test_batches 0.5)
                  (two_test_batches "test_loader")
                  ltac:(intros fn args t; reflexivity)
                  ltac:(intros t; reflexivity))
           0 2048 SingleNode.fresh_locals []).
Defined.

(* ===================================================================== *)
(** ** Where the test pass of mag240m_graphsage.py ends *)
(* ===================================================================== *)

Section Mag240mTestPass.
Variable w : World.
Hypothesis Hok : lib_ok w.


Variable bs : list batch.
Hypothesis Hbatches : forall t, w_batches w "test_loader" t = bs.


End Mag240mTestPass.



(* ===================================================================== *)
(** ** The single-node epoch and its timing line *)
(* ===================================================================== *)

Section SingleNodeEpoch.
Variable w : World.
Hypothesis Hok : lib_ok w.

Lemma singlenode_train_loop_ok rank epoch bsz bs :
  forall i st t, exists st' d,
    for_enumerate w "train_loader" (SingleNode.train_iteration w rank epoch bsz)
      i bs st t = (Ok st', t ++ d) /\
    SingleNode.l_i st'
    = match bs with
      | [] => SingleNode.l_i st
      | _ => Some (i + length bs - 1)%nat
      end /\
    (SingleNode.l_start st' = None <->
     SingleNode.l_start st = None /\ ~ (i <= 20 < i + length bs)%nat) /\
    count_fn "optimizer.step" d = length bs.
Proof.
  induction bs as [|b bs IH]; intros i st t; simpl.
  - ok_eval Hok. eexists _, _. split; [reflexivity|]. split; [reflexivity|].
    split; [|reflexivity]. split; [intros H; split; [exact H|lia]|tauto].
  - unfold SingleNode.train_iteration at 1.
    destruct (Z.eqb_spec (Z.of_nat i) SingleNode.warmup_steps) as [Hi|Hi];
      unfold SingleNode.warmup_steps in Hi;
      destruct ((rank =? 0) && (Z.of_nat i mod 10 =? 0)); ok_eval Hok;
      match goal with
      | |- context [for_enumerate _ _ _ ?j ?l ?s ?u] =>
          destruct (IH j s u) as (st' & d & E & Pi & Ps & Pc); rewrite E
      end;
      rewrite <- !app_assoc; cbn [app];
      (eexists _, _; split; [reflexivity|]);
      cbn [SingleNode.set_loss SingleNode.set_i SingleNode.set_start
           SingleNode.l_i SingleNode.l_start] in Pi, Ps;
      (split; [rewrite Pi; destruct bs; cbn [length]; f_equal; lia|]);
      (split;
       [ rewrite Ps; split;
         [ intros [H1 H2]; first [discriminate H1 | split; [exact H1|lia]]
         | intros [H1 H2]; first [lia | split; [exact H1|lia]] ]
       | rewrite !count_fn_cons, Pc; cbn; reflexivity ]).
Qed.

Lemma singlenode_eval_loop_ok rank bsz bs :
  forall i st t, exists st' d,
    for_enumerate w "eval_loader" (SingleNode.eval_iteration w rank bsz)
      i bs st t = (Ok st', t ++ d) /\
    count_fn "optimizer.step" d = 0%nat.
Proof.
  induction bs as [|b bs IH]; intros i st t; simpl.
  - ok_eval Hok. eexists _, _. split; reflexivity.
  - unfold SingleNode.eval_iteration at 1.
    unfold SingleNode.accumulate_accuracy.
    destruct (SingleNode.eval_steps <=? Z.of_nat i); ok_eval Hok.
    + eexists _, _. split; reflexivity.
    + match goal with
      | |- context [for_enumerate _ _ _ ?j ?l ?s ?u] =>
          destruct (IH j s u) as (st' & d & E & P); rewrite E
      end.
      rewrite <- !app_assoc. cbn [app].
      eexists _, _. split; [reflexivity|].
      rewrite !count_fn_cons, P. reflexivity.
Qed.

Lemma singlenode_print_average_time st t :
  exists d,
    snd (SingleNode.print_average_time w st t) = t ++ d /\
    count_fn "optimizer.step" d = 0%nat /\
    match SingleNode.l_start st, SingleNode.l_i st with
    | None, _ =>
        fst (SingleNode.print_average_time w st t)
        = Raise (UnboundLocalError "start")
    | Some _, None =>
        fst (SingleNode.print_average_time w st t)
        = Raise (UnboundLocalError "i")
    | Some _, Some i =>
        fst (SingleNode.print_average_time w st t)
        = if (i =? 20)%nat then Raise ZeroDivisionError else Ok tt
    end.
Proof.
  unfold SingleNode.print_average_time. ok_eval Hok.
  destruct (SingleNode.l_start st) as [start|]; cbv beta iota;
    [destruct (SingleNode.l_i st) as [i|]; cbv beta iota|].
  - unfold py_truediv, SingleNode.warmup_steps.
    destruct (Nat.eqb_spec i 20) as [Hi|Hi].
    + replace (Z.of_nat i - 20 =? 0) with true
        by (symmetry; apply Z.eqb_eq; lia).
      eexists. split; [reflexivity|]. split; reflexivity.
    + replace (Z.of_nat i - 20 =? 0) with false
        by (symmetry; apply Z.eqb_neq; lia).
      ok_eval Hok. eexists. split; [rewrite <- app_assoc; reflexivity|].
      split; reflexivity.
  - eexists. split; [reflexivity|]. split; reflexivity.
  - eexists. split; [reflexivity|]. split; reflexivity.
Qed.

Lemma singlenode_validation_fails rank bsz st t :
  exists d,
    bind (with_context w "torch.no_grad"
            (call w "iter" [AStr "eval_loader"] ;;
             for_loader w "eval_loader" (SingleNode.eval_iteration w rank bsz)
               (SingleNode.set_acc_sum st (PyNum 0))))
      (fun st => SingleNode.reduce_and_print w "Validation Accuracy: " st) t
    = (Raise (AttributeError "MEAN"), t ++ d) /\
    count_fn "optimizer.step" d = 0%nat.
Proof.
  unfold SingleNode.reduce_and_print. ok_eval Hok.
  match goal with
  | |- context [for_enumerate _ _ _ ?j ?l ?s ?u] =>
      destruct (singlenode_eval_loop_ok rank bsz l j s u)
        as (st2 & d2 & E2 & P2); rewrite E2
  end.
  ok_eval Hok. rewrite <- !app_assoc. cbn [app].
  eexists. split; [reflexivity|].
  rewrite !count_fn_cons, !count_fn_app, P2. reflexivity.
Qed.

Variable bs : list batch.
Hypothesis Hbatches : forall t, w_batches w "train_loader" t = bs.

Lemma singlenode_epoch_outcome rank bsz epoch st t :
  SingleNode.l_start st = None ->
  exists d,
    SingleNode.epoch_body w rank bsz epoch st t
    = (Raise (if (length bs <=? 20)%nat then UnboundLocalError "start"
              else if (length bs =? 21)%nat then ZeroDivisionError
                   else AttributeError "MEAN"),
       t ++ d) /\
    count_fn "optimizer.step" d = length bs.
Proof.
  intros Hstart. unfold SingleNode.epoch_body.
  unfold bind at 1. unfold SingleNode.train_loop, bind at 1.
  unfold call at 1, callv. rewrite Hok. unfold for_loader at 1.
  rewrite Hbatches.
  match goal with
  | |- context [for_enumerate _ _ _ ?j ?l ?s ?u] =>
      destruct (singlenode_train_loop_ok rank epoch bsz l j s u)
        as (st1 & d1 & E & Pi & Ps & Pc); rewrite E
  end.
  cbv beta iota. unfold bind at 1.
  destruct (singlenode_print_average_time st1
              ((t ++ [Returned "iter" [AStr "train_loader"]]) ++ d1))
    as (d2 & E2 & Pc2 & P2).
  destruct (SingleNode.print_average_time w st1
              ((t ++ [Returned "iter" [AStr "train_loader"]]) ++ d1))
    as [r2 t2]. cbn [fst snd] in E2, P2. subst t2.
  assert (Hcount : count_fn "optimizer.step"
                     ((Returned "iter" [AStr "train_loader"] :: d1) ++ d2)
                   = length bs).
  { rewrite count_fn_app, count_fn_cons, Pc, Pc2. cbn. lia. }
  destruct (SingleNode.l_start st1) as [start|] eqn:Es.
  - assert (Hlen : (20 < length bs)%nat).
    { destruct (Nat.ltb_spec 20 (length bs)) as [H|H]; [exact H|].
      assert (Some start = None) as H1
        by (apply Ps; split; [exact Hstart|lia]).
      discriminate. }
    assert (Hi : SingleNode.l_i st1 = Some (length bs - 1)%nat).
    { rewrite Pi. destruct bs; [simpl in Hlen; lia|f_equal; lia]. }
    rewrite Hi in P2. subst r2.
    destruct (Nat.leb_spec (length bs) 20) as [|_]; [lia|].
    destruct (Nat.eqb_spec (length bs - 1) 20) as [H20|H20]; cbv beta iota.
    + destruct (Nat.eqb_spec (length bs) 21) as [_|]; [|lia].
      exists ((Returned "iter" [AStr "train_loader"] :: d1) ++ d2).
      split; [cbn [app]; rewrite <- !app_assoc; reflexivity|exact Hcount].
    + destruct (Nat.eqb_spec (length bs) 21) as [|_]; [lia|].
      destruct (singlenode_validation_fails rank bsz st1
                  (((t ++ [Returned "iter" [AStr "train_loader"]]) ++ d1)
                   ++ d2)) as (d3 & E3 & Pc3).
      rewrite E3.
      exists ((Returned "iter" [AStr "train_loader"] :: d1) ++ d2 ++ d3).
      split; [cbn [app]; rewrite <- !app_assoc; reflexivity|].
      rewrite app_assoc, count_fn_app, Hcount, Pc3. lia.
  - assert (Hlen : (length bs <= 20)%nat).
    { assert (H : SingleNode.l_start st = None /\
                  ~ (0 <= 20 < 0 + length bs)%nat)
        by (apply Ps; reflexivity).
      lia. }
    subst r2. cbv beta iota.
    destruct (Nat.leb_spec (length bs) 20) as [_|]; [|lia].
    exists ((Returned "iter" [AStr "train_loader"] :: d1) ++ d2).
    split; [cbn [app]; rewrite <- !app_assoc; reflexivity|exact Hcount].
Qed.

End SingleNodeEpoch.

(** X15: in the single-node script, with library calls that return and a
    train loader that yields [n] batches, the first epoch (where [start] is
    still unbound) takes one optimizer step for each of the [n] batches and
    then ends in an exception, whatever [n] is.  With [n <= 20] the timing
    line after the loop raises UnboundLocalError for [start], which is
    assigned at iteration 20 only; with [n = 21] it divides by
    [i - warmup_steps = 0] and raises ZeroDivisionError; with [n >= 22] the
    timing line is printed and the epoch ends in the AttributeError of
    [ReduceOp.MEAN] after the validation loop. *)
Theorem singlenode_epoch_fails_after_training :
  forall (w : World) (bs : list batch) (rank bsz epoch : Z)
         (st : SingleNode.locals) (t : trace),
    lib_ok w ->
    (forall u, w_batches w "train_loader" u = bs) ->
    SingleNode.l_start st = None ->
    exists d,
      SingleNode.epoch_body w rank bsz epoch st t
      = (Raise (if (length bs <=? 20)%nat then UnboundLocalError "start"
                else if (length bs =? 21)%nat then ZeroDivisionError
                     else AttributeError "MEAN"),
         t ++ d) /\
      count_fn "optimizer.step" d = length bs.
Proof.
  intros w bs rank bsz epoch st t Hok Hbatches Hstart.
  now apply singlenode_epoch_outcome.
Qed.

Lemma singlenode_epoch_fails_after_training_witness :
  exists d,
    SingleNode.epoch_body (quiet_world (train_batches 21) 0.5) 0 2048 0
      SingleNode.fresh_locals []
    = (Raise (if (length (train_batches 21 "train_loader") <=? 20)%nat
              then UnboundLocalError "start"
              else if (length (train_batches 21 "train_loader") =? 21)%nat
                   then ZeroDivisionError
                   else AttributeError "MEAN"),
       [] ++ d) /\
    count_fn "optimizer.step" d = length (train_batches 21 "train_loader").
Proof.
  apply (singlenode_epoch_fails_after_training
           (quiet_world (train_batches 21) 0.5)
           (train_batches 21 "train_loader") 0 2048 0
           SingleNode.fresh_locals []);
    [ intros fn args u; reflexivity | intros u; reflexivity | reflexivity ].
Defined.

(* ===================================================================== *)
(** ** The multi-node [run_train] never gets past its first iteration *)
(* ===================================================================== *)

Section FirstIteration.
Variable w : World.

Lemma before_epochs_events d :
  forallb before_epochs d = true ->
  forallb not_test_pass d = true /\ count_fn "optimizer.step" d = 0%nat.
Proof.
  induction d as [|ev d IH]; [now split|]. cbn [forallb].
  intros H. apply andb_true_iff in H. destruct H as [H1 H2].
  apply andb_true_iff in H1. destruct H1 as [H1 H3].
  destruct (IH H2) as [IH1 IH2]. split.
  - now rewrite H1, IH1.
  - rewrite count_fn_cons, IH2.
    destruct (String.eqb (event_fn ev) "optimizer.step");
      [discriminate|reflexivity].
Qed.

Lemma stops_early_bind {A B} (m : M A) (k : A -> M B) :
  obeys w before_epochs any_exn true no_handler m ->
  (forall a, stops_early (k a)) -> stops_early (bind m k).
Proof.
  intros Hm Hk t. unfold bind. destruct (Hm t) as (d1 & E1 & P1).
  destruct (m t) as [[a|e] t1]; cbn [fst snd] in E1, P1; subst t1.
  - destruct (before_epochs_events d1 P1) as [Q1 C1].
    destruct (Hk a (t ++ d1)) as (e & d2 & E2 & Q2 & C2). rewrite E2.
    exists e, (d1 ++ d2). split; [now rewrite app_assoc|]. split.
    + now rewrite forallb_app, Q1, Q2.
    + rewrite count_fn_app. lia.
  - destruct P1 as [P1 _].
    destruct (before_epochs_events d1 (P1 eq_refl)) as [Q1 C1].
    exists e, d1. split; [reflexivity|]. split; [exact Q1|lia].
Qed.

Lemma stops_early_bind_l {A B} (m : M A) (k : A -> M B) :
  stops_early m -> stops_early (bind m k).
Proof.
  intros Hm t. unfold bind. destruct (Hm t) as (e & d & E & P).
  rewrite E. now exists e, d.
Qed.

Lemma multinode_first_iteration_stops rank epoch bs b st :
  MultiNode.l_start st = None ->
  stops_early
    (bind (call w "next" [AStr "train_loader"])
       (fun _ => MultiNode.train_iteration w rank epoch bs 0 b st)).
Proof.
  intros Hstart t. unfold MultiNode.train_iteration.
  change (Z.of_nat 0 =? MultiNode.warmup_steps) with false.
  exec_body;
    try match goal with
        | H : MultiNode.l_start _ = Some _ |- _ =>
            cbn [MultiNode.l_start MultiNode.set_loss MultiNode.set_i] in H;
            rewrite Hstart in H; discriminate H
        end;
    rewrite <- ?app_assoc; cbn [app];
    (eexists _, _; split; [reflexivity|]);
    (split; [reflexivity | unfold count_fn; cbn; lia]).
Qed.

Hypothesis Hbatches : forall t, w_batches w "train_loader" t <> [].

Lemma multinode_epoch_stops rank bs epoch st :
  MultiNode.l_start st = None ->
  stops_early (MultiNode.epoch_body w rank bs epoch st).
Proof.
  intros Hstart. unfold MultiNode.epoch_body. apply stops_early_bind_l.
  unfold MultiNode.train_loop. apply stops_early_bind; [obeys_auto|].
  intros _ t. unfold for_loader.
  destruct (w_batches w "train_loader" t) as [|b l] eqn:E;
    [now apply Hbatches in E|].
  cbn [for_enumerate].
  apply (stops_early_bind_l _ _
           (multinode_first_iteration_stops rank epoch bs b st Hstart)).
Qed.

Lemma multinode_run_train_stops globals world_size epochs bs fan sp
    num_classes cugraph :
  1 <= epochs ->
  stops_early
    (MultiNode.run_train w globals world_size epochs bs fan sp num_classes
       cugraph).
Proof.
  intros Hepochs. unfold MultiNode.run_train.
  assert (Hrange : exists x xs, py_range 0 epochs = x :: xs).
  { unfold py_range. destruct (Z.to_nat (epochs - 0)) as [|n] eqn:En; [lia|].
    cbn [seq map]. eexists _, _. reflexivity. }
  destruct Hrange as (x & xs & Hrange).
  rewrite Hrange. cbn [for_each].
  repeat
    lazymatch goal with
    | |- stops_early (bind (bind (MultiNode.epoch_body _ _ _ _ _) _) _) =>
        apply stops_early_bind_l, stops_early_bind_l,
          multinode_epoch_stops; reflexivity
    | |- stops_early (bind _ _) =>
        apply stops_early_bind; [obeys_auto|intros]
    end.
Qed.

End FirstIteration.

(** X16: [run_train] of the multi-node script, asked for at least one epoch
    on a train loader that is not empty, always ends in an exception, does
    so before the test pass, and after at most one optimizer step: the
    timing line inside the training loop reads [start] in the first
    iteration, where nothing has assigned it. *)
Theorem multinode_run_train_never_reaches_the_test_pass :
  forall (w : World) (globals : list string)
         (world_size epochs bs fan : Z) (sp : MultiNode.split_idx)
         (num_classes : Z) (cugraph : bool) (t : trace),
    (forall u, w_batches w "train_loader" u <> []) ->
    1 <= epochs ->
    exists e d,
      MultiNode.run_train w globals world_size epochs bs fan sp num_classes
        cugraph t = (Raise e, t ++ d) /\
      forallb not_test_pass d = true /\
      (count_fn "optimizer.step" d <= 1)%nat.
Proof.
  intros w globals world_size epochs bs fan sp num_classes cugraph t Hb He.
  now apply multinode_run_train_stops.
Qed.

Lemma multinode_run_train_never_reaches_the_test_pass_witness :
  exists e d,
    MultiNode.run_train (quiet_world one_batch_each 0.5)
      MultiNode.main_globals 1 1 2048 16 small_split 172 false []
    = (Raise e, [] ++ d) /\
    forallb not_test_pass d = true /\
    (count_fn "optimizer.step" d <= 1)%nat.
Proof.
  apply (multinode_run_train_never_reaches_the_test_pass
           (quiet_world one_batch_each 0.5) MultiNode.main_globals 1 1 2048
           16 small_split 172 false []);
    [ intros u; discriminate | lia ].
Defined.

(* ===================================================================== *)
(** ** The epoch summary of mag240m_graphsage.py *)
(* ===================================================================== *)

Section Mag240mEpoch.
Variable w : World.
Hypothesis Hok : lib_ok w.
Variable rank : Z.
Variable hp : Mag240m.hparams.
Hypothesis Hall : Mag240m.num_steps_per_epoch hp < 0.
Hypothesis Hlog : rank <> 0 \/ Mag240m.log_every_n_steps hp <> 0.




Variable bs : list batch.
Hypothesis Hbatches : forall t, w_batches w "train_loader" t = bs.


End Mag240mEpoch.


